(** * adt74x0: reading ADT7410/ADT7420 temperature sensors over I2C

    A shallow embedding of the two command-line programs of the repository,

    - [adt74x0.c]  (kernel i2c-dev transport), module [Adt74x0];
    - [adt74x0b.c] (libbcm2835 transport),     module [Adt74x0b];

    and the properties of the specification checked against them.

    The programs talk to the outside world only through library calls.
    Every such call is recorded, with the answer it got, in a transcript;
    the answers come from an arbitrary deterministic transport, a function
    of the transcript so far.  The text written to standard output is
    recorded as the list of the [printf] calls made. *)

From Stdlib Require Import ZArith QArith String Ascii List Lia Bool.
From Stdlib Require Import DecimalString HexadecimalString.
From stdpp Require Import base list.
Import ListNotations.

Local Open Scope Z_scope.

(* ================================================================= *)
(** ** C integer types *)

(** Conversion of an [int] to a signed type of [bits] bits.  Out of range
    the result is implementation-defined in C; gcc and clang reduce modulo
    [2^bits], which is what is written here. *)
Definition wrap_signed (bits x : Z) : Z :=
  (x + 2 ^ (bits - 1)) mod 2 ^ bits - 2 ^ (bits - 1).

Definition to_int8 (x : Z) : Z := wrap_signed 8 x.
Definition to_int16 (x : Z) : Z := wrap_signed 16 x.
Definition to_uint8 (x : Z) : Z := x mod 256.

(** The specification's [signed16]: a 16-bit word read as two's complement. *)
Definition signed16 (w : Z) : Z := if Z.testbit w 15 then w - 65536 else w.

(** The specification's window of plausible sensor addresses. *)
Definition window (a : Z) : Prop := 0x48 <= a <= 0x4b.

(** A [double] holding [n / 128.0] for a 16-bit [n].  Such a quotient has at
    most 16 significant bits and a small exponent, so the IEEE division is
    exact and the double is the rational number itself; it is kept in lowest
    terms, so that equal values are equal terms. *)
Definition double : Type := Q.
Definition div128 (t128 : Z) : double := Qred (t128 # 128).

(** The specification's decoded temperature for the bytes [high], [low]
    received in this order: [signed16(high<<8 | low) / 128.0]. *)
Definition celsius_spec (high low : Z) : double :=
  Qred (inject_Z (signed16 (Z.lor (Z.shiftl high 8) low)) / inject_Z 128).

(* ================================================================= *)
(** ** Registers of the ADT74x0 (the [#define]s of both files) *)

Definition T_MSB : Z := 0x00.
Definition T_LSB : Z := 0x01.
Definition STATUS : Z := 0x02.
Definition CONFIG : Z := 0x03.
Definition IDREG : Z := 0x0b.
Definition RESET : Z := 0x2f.

Definition I2C_ADDRS : Z := 128.

(* ================================================================= *)
(** ** The outside world *)

(** The library calls the two programs make. *)
Inductive call : Type :=
  (* adt74x0.c: libc and the kernel's i2c-dev interface *)
  | Open (filename : string)
  | Close (file : Z)
  | Ioctl_I2C_SLAVE (file addr : Z)
  | I2c_smbus_write_byte (file value : Z)
  | I2c_smbus_read_byte_data (file command : Z)
  | I2c_smbus_write_byte_data (file command value : Z)
  | I2c_smbus_read_word_data (file command : Z)
  | Usleep (usec : Z)
  (* adt74x0b.c: libbcm2835 *)
  | Bcm2835_init
  | Bcm2835_close
  | Bcm2835_i2c_begin
  | Bcm2835_i2c_end
  | Bcm2835_i2c_set_baudrate (baudrate : Z)
  | Bcm2835_i2c_setSlaveAddress (addr : Z)
  | Bcm2835_i2c_write (buf : list Z)
  | Bcm2835_i2c_read_register_rs (regaddr : Z) (len : nat)
  | Bcm2835_delay (millis : Z).

(** What a call answers: its return value and, for a read into a buffer,
    the bytes received. *)
Record resp : Type := Resp { code : Z; data : list Z }.

(** The calls that put something on the I2C bus or select the device the
    next transfers go to. *)
Definition bus_op (c : call) : bool :=
  match c with
  | Ioctl_I2C_SLAVE _ _ | I2c_smbus_write_byte _ _
  | I2c_smbus_read_byte_data _ _ | I2c_smbus_write_byte_data _ _ _
  | I2c_smbus_read_word_data _ _
  | Bcm2835_i2c_setSlaveAddress _ | Bcm2835_i2c_write _
  | Bcm2835_i2c_read_register_rs _ _ => true
  | _ => false
  end.

(** The 7-bit address a call is directed at: the one it names when it
    selects a device, the currently selected one for a transfer, none for a
    call that does not touch the bus. *)
Definition target_of (selected : option Z) (c : call) : option Z :=
  match c with
  | Ioctl_I2C_SLAVE _ addr => Some addr
  | Bcm2835_i2c_setSlaveAddress addr => Some addr
  | _ => if bus_op c then selected else None
  end.

(** The device selected after a call.  [ioctl(I2C_SLAVE)] selects only when
    it succeeds; [bcm2835_i2c_setSlaveAddress] returns nothing and always
    selects. *)
Definition select_after (selected : option Z) (c : call) (r : resp)
  : option Z :=
  match c with
  | Ioctl_I2C_SLAVE _ addr => if code r <? 0 then selected else Some addr
  | Bcm2835_i2c_setSlaveAddress addr => Some addr
  | _ => selected
  end.

Record event : Type :=
  Event { ev_target : option Z; ev_call : call; ev_resp : resp }.

(** The [printf] calls of the two programs, one constructor per format.
    The [double] printed by the last one is the content of a local variable
    without initializer: [None] is its indeterminate initial content. *)
Inductive line : Type :=
  | Scanning (filename : string)          (* "# Scanning %s for ADT74x0...\n" *)
  | Unable_to_open (filename : string)    (* "Unable to open %s\n" *)
  | Has_id (addr stat : Z)                (* "# 0x%02x has ID 0x%02x\n" *)
  | Scan_debug (addr stat : Z)            (* "# scan(addr = %02x) = %02x\n" *)
  | Error_line (addr stat : Z)            (* "# 0x%02x error %d\n" *)
  | Temp_line (addr : Z) (t : option double). (* "0x%02x %.5fC\n" *)

Record world : Type :=
  World { trace : list event;      (* the calls made so far, oldest first *)
          selected : option Z;     (* the device transfers are directed at *)
          out : list line }.       (* standard output, oldest first *)

Definition world0 : world := World [] None [].

(** A transport answers a call from the transcript so far, the address the
    call is directed at and the call. *)
Definition transport : Type := list event -> option Z -> call -> resp.

(** Computations of the programs: state passing over the world. *)
Definition M (A : Type) : Type := world -> A * world.

Definition ret {A : Type} (a : A) : M A := fun w => (a, w).

Definition bind {A B : Type} (m : M A) (k : A -> M B) : M B :=
  fun w => k (m w).1 (m w).2.

Notation "x <- m ;; k" := (bind m (fun x => k))
  (at level 100, m at next level, right associativity).
Notation "m ;;; k" := (bind m (fun _ => k))
  (at level 100, right associativity).

Definition issue (respond : transport) (c : call) : M resp :=
  fun w =>
    let tgt := target_of (selected w) c in
    let r := respond (trace w) tgt c in
    (r, World (trace w ++ [Event tgt c r])
              (select_after (selected w) c r)
              (out w)).

Definition printf (l : line) : M unit :=
  fun w => (tt, World (trace w) (selected w) (out w ++ [l])).

(** [for (int i = ...; ...; i++) body], over the values [i] takes. *)
Fixpoint for_each {St : Type} (range : list Z) (body : Z -> St -> M St)
  (s : St) : M St :=
  match range with
  | [] => ret s
  | i :: range' => s' <- body i s ;; for_each range' body s'
  end.

(** [int8_t devs[I2C_ADDRS]]: reading and writing an element. *)
Definition devs_get (devs : list Z) (i : Z) : Z := devs !!! Z.to_nat i.
Definition devs_set (devs : list Z) (i v : Z) : list Z :=
  <[Z.to_nat i := to_int8 v]> devs.

(** The word of an SMBus "read word" transfer: the byte that travels first
    is its low byte. *)
Definition smbus_word (first second : Z) : Z :=
  Z.lor first (Z.shiftl second 8).

(* ================================================================= *)
(** ** The text [printf] writes

    The conversions of the C library, for the formats the programs use. *)

Definition pad0 (width : nat) (s : string) : string :=
  String.append
    (String.concat EmptyString (repeat "0"%string (width - String.length s)))
    s.

(** [%02x] of an [int]: the value as [unsigned int], in lower-case
    hexadecimal, at least two digits. *)
Definition fmt_02x (v : Z) : string :=
  pad0 2 (HexadecimalString.NilZero.string_of_uint
            (N.to_hex_uint (Z.to_N (v mod 2 ^ 32)))).

(** [%d]. *)
Definition fmt_d (v : Z) : string :=
  DecimalString.NilZero.string_of_int (Z.to_int v).

(** The integer nearest to [n / d], for [0 <= n]; halves go to the even
    neighbour, as the C library does in the default rounding mode. *)
Definition round_half_even (n : Z) (d : positive) : Z :=
  let k := n / Z.pos d in
  let r := n mod Z.pos d in
  if 2 * r <? Z.pos d then k
  else if Z.pos d <? 2 * r then k + 1
  else if Z.even k then k else k + 1.

(** [%.<prec>f] of a double whose value is the rational [q]. *)
Definition fmt_f (prec : nat) (q : Q) : string :=
  let scale := 10 ^ Z.of_nat prec in
  let m := round_half_even (Z.abs (Qnum q) * scale) (Qden q) in
  String.append (if Qnum q <? 0 then "-"%string else EmptyString)
    (String.append (fmt_d (m / scale))
       (String.append "." (pad0 prec (fmt_d (m mod scale))))).

Definition render (l : line) : string :=
  match l with
  | Scanning filename =>
      String.append "# Scanning " (String.append filename " for ADT74x0...")
  | Unable_to_open filename => String.append "Unable to open " filename
  | Has_id addr stat =>
      String.append "# 0x" (String.append (fmt_02x addr)
        (String.append " has ID 0x" (fmt_02x stat)))
  | Scan_debug addr stat =>
      String.append "# scan(addr = " (String.append (fmt_02x addr)
        (String.append ") = " (fmt_02x stat)))
  | Error_line addr stat =>
      String.append "# 0x" (String.append (fmt_02x addr)
        (String.append " error " (fmt_d stat)))
  | Temp_line addr t =>
      String.append "0x" (String.append (fmt_02x addr)
        (String.append " "
          (String.append
             (match t with Some q => fmt_f 5 q | None => "?" end) "C")))
  end.

(** The address a result line reports on. *)
Definition result_addr (l : line) : option Z :=
  match l with
  | Error_line addr _ | Temp_line addr _ => Some addr
  | _ => None
  end.

(** The line the body of the second loop writes at a live address. *)
Definition result_line (a : Z) (r : Z * option double) : line :=
  if r.1 <? 0 then Error_line a r.1 else Temp_line a r.2.

(** A result line for address [a] and its text: an error annotation with a
    negative code, or a temperature. *)
Definition result_form (a : Z) (l : line) : Prop :=
  (exists c, c < 0 /\ l = Error_line a c /\
     render l = String.append "# 0x" (String.append (fmt_02x a)
                  (String.append " error " (fmt_d c)))) \/
  (exists t, l = Temp_line a (Some t) /\
     render l = String.append "0x" (String.append (fmt_02x a)
                  (String.append " " (String.append (fmt_f 5 t) "C")))).

(** The result lines of an output that report on address [a]. *)
Definition results_for (a : Z) (o : list line) : list line :=
  filter (fun l => result_addr l = Some a) o.

(** The bus operations of a transcript directed at address [a]. *)
Definition probes (a : Z) (t : list event) : list event :=
  filter (fun e => bus_op (ev_call e) = true /\ ev_target e = Some a) t.

(** What a computation started in [w] adds to the transcript. *)
Definition new_events {A : Type} (m : M A) (w : world) : list event :=
  drop (length (trace w)) (trace (m w).2).

(** The address a line of output names, if any. *)
Definition line_addr (l : line) : option Z :=
  match l with
  | Has_id addr _ | Scan_debug addr _ | Error_line addr _
  | Temp_line addr _ => Some addr
  | _ => None
  end.

(** [w'] continues [w] with an activity on the device at address [i] only:
    the transcript and the output grow, every bus operation added is
    directed at [i], and every line added names [i]. *)
Definition at_addr (i : Z) (w w' : world) : Prop :=
  exists evs ls,
    trace w' = trace w ++ evs /\ out w' = out w ++ ls /\
    Forall (fun e => bus_op (ev_call e) = true -> ev_target e = Some i) evs /\
    Forall (fun l => line_addr l = Some i) ls.

(** Every bus operation of a transcript is directed at an address of the
    window. *)
Definition in_window (t : list event) : Prop :=
  Forall (fun e => bus_op (ev_call e) = true ->
                   exists a, ev_target e = Some a /\ window a) t.

(** The invariant of the loops of [main]: the bus operations made so far are
    in the window, and so is every address whose entry of [devs] is [live],
    that is, lets a loop body act. *)
Definition window_inv (live : Z -> Prop) (s : list Z) (w : world) : Prop :=
  in_window (trace w) /\
  forall j, 0 <= j < I2C_ADDRS -> live (devs_get s j) -> window j.

(** A loop body at index [i] started with [devs = s] in [w] ends in [r]:
    its activity is at address [i], and it writes [devs] at [i] at most. *)
Definition touches (i : Z) (s : list Z) (w : world) (r : list Z * world)
  : Prop :=
  at_addr i w r.2 /\ (r.1 = s \/ exists v, r.1 = devs_set s i v).

(** What concerns address [a] in a state of [main]: its entry of [devs], the
    bus operations directed at it and its result lines. *)
Definition view (a : Z) (r : list Z * world) : Z * list event * list line :=
  (devs_get r.1 a, probes a (trace r.2), results_for a (out r.2)).

(** The bus operations of a transcript directed elsewhere than at [a], and
    the lines of an output that do not name [a]. *)
Definition elsewhere (a : Z) (t : list event) : list event :=
  filter (fun e => bus_op (ev_call e) = true /\ ev_target e <> Some a) t.

Definition lines_elsewhere (a : Z) (o : list line) : list line :=
  filter (fun l => line_addr l <> Some a) o.

(** Two transports answer alike everywhere but at address [a]: a call not
    directed at [a] gets the same answer from both whenever the bus
    operations made so far elsewhere than at [a] are the same. *)
Definition agree_elsewhere (a : Z) (r1 r2 : transport) : Prop :=
  forall h1 h2 tgt c,
    tgt <> Some a -> elsewhere a h1 = elsewhere a h2 ->
    r1 h1 tgt c = r2 h2 tgt c.







(** Two states of [main], in two runs, are alike everywhere but at address
    [a]: the bus operations made elsewhere, the lines that do not name [a]
    and the entries of [devs] other than the one of [a] are the same. *)
Definition alike (a : Z) (r1 r2 : list Z * world) : Prop :=
  elsewhere a (trace r1.2) = elsewhere a (trace r2.2) /\
  lines_elsewhere a (out r1.2) = lines_elsewhere a (out r2.2) /\
  length r1.1 = length r2.1 /\
  forall b, 0 <= b -> b <> a -> devs_get r1.1 b = devs_get r2.1 b.

(** The steps of the initialization of a device. *)
Inductive step : Type := Select | Reset | Settle | Verify | Configure.

Definition step_of (c : call) : option step :=
  match c with
  | Ioctl_I2C_SLAVE _ _ | Bcm2835_i2c_setSlaveAddress _ => Some Select
  | I2c_smbus_write_byte _ 0x2f | Bcm2835_i2c_write [0x2f] => Some Reset
  | Usleep _ | Bcm2835_delay _ => Some Settle
  | I2c_smbus_read_byte_data _ 0x0b
  | Bcm2835_i2c_read_register_rs 0x0b _ => Some Verify
  | I2c_smbus_write_byte_data _ 0x03 0x80
  | Bcm2835_i2c_write [0x03; 0x80] => Some Configure
  | _ => None
  end.

Definition steps (evs : list event) : list step :=
  omap (fun e => step_of (ev_call e)) evs.

(** *** Sample transports *)

(** Every call succeeds; every chip identifies with the byte [id] and reads
    the temperature bytes [msb], [lsb]. *)
Definition chip (id msb lsb : Z) : transport :=
  fun _ _ c =>
    match c with
    | Open _ => Resp 3 []
    | I2c_smbus_read_byte_data _ _ => Resp id []
    | I2c_smbus_read_word_data _ _ => Resp (smbus_word msb lsb) []
    | Bcm2835_i2c_read_register_rs reg _ =>
        Resp 0 (if reg =? IDREG then [id] else [msb; lsb])
    | _ => Resp 0 []
    end.

(** Chips that identify as ADT74x0 (ID 0xcb) and read 0x0bc0, that is 23.5
    degrees. *)
Definition quiet : transport := chip 0xcb 0x0b 0xc0.

(** [base], except that the calls [bad] directed at [a] answer [r]. *)
Definition failing (a : Z) (bad : call -> bool) (r : resp) (base : transport)
  : transport :=
  fun h tgt c =>
    match tgt with
    | Some b => if (b =? a) && bad c then r else base h tgt c
    | None => base h tgt c
    end.


Definition is_reset (c : call) : bool :=
  match c with
  | I2c_smbus_write_byte _ _ => true
  | Bcm2835_i2c_write [0x2f] => true
  | _ => false
  end.


Definition is_open (c : call) : bool :=
  match c with
  | Open _ => true
  | _ => false
  end.

(** [base], except that opening the bus fails. *)
Definition no_bus (base : transport) : transport :=
  fun h tgt c => if is_open c then Resp (-1) [] else base h tgt c.

(* ================================================================= *)
(** ** adt74x0.c *)

Module Adt74x0.
Section Program.

(** [#ifdef GOOD_I2C_BUS]. *)
Variable GOOD_I2C_BUS : bool.
Variable respond : transport.

(** Lines 140-143 of [init_adt74x0]: the code after the [#ifdef] block. *)
Definition init_configure (file : Z) : M Z :=
  r <- issue respond (I2c_smbus_write_byte_data file CONFIG 0x80) ;;
  if code r <? 0 then ret (-5) else ret 0.

(** Return 0 if OK, -ve to show error. *)
Definition init_adt74x0 (file addr : Z) : M Z :=
  r <- issue respond (Ioctl_I2C_SLAVE file addr) ;;
  if code r <? 0 then ret (-1) else
  r <- issue respond (I2c_smbus_write_byte file RESET) ;;
  if code r <? 0 then ret (-2) else
  issue respond (Usleep 250) ;;;
  if GOOD_I2C_BUS then
    r <- issue respond (I2c_smbus_read_byte_data file IDREG) ;;
    let stat := code r in
    if stat <? 0 then ret (-3) else
    printf (Has_id addr stat) ;;;
    if negb (Z.land stat 0xf8 =? 0xc8) then ret (-4) else
    init_configure file
  else init_configure file.

(** Lines 157-163 of [read_adt74x0]: the word read, to degrees Celsius. *)
Definition decode (t_raw : Z) : double :=
  let lo := to_int16 (Z.shiftr (Z.land t_raw 0xff00) 8) in
  let hi := to_int16 (Z.land t_raw 0x00ff) in
  let t128 := to_int16 (Z.lor (Z.shiftl hi 8) lo) in
  div128 t128.

(** Return 0 if OK, -ve to show error; set [*temp].  [temp] is the content
    of the caller's variable before the call, the second component of the
    result its content after. *)
Definition read_adt74x0 (file addr : Z) (temp : option double)
  : M (Z * option double) :=
  r <- issue respond (Ioctl_I2C_SLAVE file addr) ;;
  if code r <? 0 then ret (-1, temp) else
  r <- issue respond (I2c_smbus_read_word_data file T_MSB) ;;
  let t_raw := code r in
  if t_raw <? 0 then ret (-6, temp) else
  ret (0, Some (decode t_raw)).

(** Lines 80-82 of [main]. *)
Definition mark_devs : list Z :=
  fold_left
    (fun devs i =>
       devs_set devs i (if (0x48 <=? i) && (i <=? 0x4b) then 1 else 0))
    (seqZ 0 I2C_ADDRS) (replicate (Z.to_nat I2C_ADDRS) 0).

(** Lines 86-93: the body of the loop that initializes the chips. *)
Definition init_body (file i : Z) (devs : list Z) : M (list Z) :=
  if devs_get devs i <=? 0 then ret devs else
  stat <- init_adt74x0 file i ;;
  if stat <? 0 then ret (devs_set devs i stat) else ret devs.

(** Lines 100-109: the body of the loop that gets the results. *)
Definition read_body (file i : Z) (devs : list Z) : M (list Z) :=
  if devs_get devs i <=? 0 then ret devs else
  r <- read_adt74x0 file i None ;;
  (if r.1 <? 0 then printf (Error_line i r.1)
   else printf (Temp_line i r.2)) ;;;
  ret devs.

Definition init_pass (file : Z) (devs : list Z) : M (list Z) :=
  for_each (seqZ 0 I2C_ADDRS) (init_body file) devs.

Definition read_pass (file : Z) (devs : list Z) : M (list Z) :=
  for_each (seqZ 0 I2C_ADDRS) (read_body file) devs.

Definition default_file : string := "/dev/i2c-0".

(** [main]; the result is the exit status. *)
Definition main (argv : list string) : M Z :=
  let filename :=
    if 1 <? Z.of_nat (length argv) then nth 1 argv default_file
    else default_file in
  printf (Scanning filename) ;;;
  r <- issue respond (Open filename) ;;
  let file := code r in
  if file <? 0 then
    printf (Unable_to_open filename) ;;;
    ret 1
  else
    devs <- init_pass file mark_devs ;;
    issue respond (Usleep 1000000) ;;;
    read_pass file devs ;;;
    issue respond (Close file) ;;;
    ret 0.

(** Lines 67-72: up to the test of [file], whose value is the result. *)
Definition start (argv : list string) : M Z :=
  let filename :=
    if 1 <? Z.of_nat (length argv) then nth 1 argv default_file
    else default_file in
  printf (Scanning filename) ;;;
  r <- issue respond (Open filename) ;;
  ret (code r).

(** [devs] and the world when the initialization loop of [main] reaches
    [i], and when the loop that gets the results does. *)
Definition at_init (argv : list string) (i : Z) : list Z * world :=
  (file <- start argv ;;
   for_each (seqZ 0 i) (init_body file) mark_devs) world0.

Definition at_read (argv : list string) (i : Z) : list Z * world :=
  (file <- start argv ;;
   devs <- init_pass file mark_devs ;;
   issue respond (Usleep 1000000) ;;;
   for_each (seqZ 0 i) (read_body file) devs) world0.

(** The content of [devs] when [main] reaches line 95, after the
    initialization loop. *)
Definition devs_after_init (argv : list string) : list Z :=
  (at_init argv I2C_ADDRS).1.

End Program.
End Adt74x0.

(* ================================================================= *)
(** ** adt74x0b.c *)

Module Adt74x0b.
Section Program.

(** [#ifdef DEBUG]. *)
Variable DEBUG : bool.
Variable respond : transport.

(** [uint8_t buff[4]] as declared: its content is indeterminate, and never
    read before it is written. *)
Definition buff_decl : list Z := [0; 0; 0; 0].

(** The buffer after a read of [len] bytes into it. *)
Definition received (buff : list Z) (len : nat) (r : resp) : list Z :=
  let got := to_uint8 <$> take len (data r) in
  got ++ drop (length got) buff.

(** Return 0 if OK, -ve to show error. *)
Definition init_adt74x0 (addr : Z) : M Z :=
  let buff := buff_decl in
  issue respond (Bcm2835_i2c_setSlaveAddress addr) ;;;
  let buff := <[0%nat := RESET]> buff in
  r <- issue respond (Bcm2835_i2c_write (take 1 buff)) ;;
  let stat := to_uint8 (code r) in
  if negb (stat =? 0) then ret (- (0x10 + stat)) else
  issue respond (Bcm2835_delay 1) ;;;
  let buff := <[0%nat := CONFIG]> buff in
  let buff := <[1%nat := 0x80]> buff in
  r <- issue respond (Bcm2835_i2c_write (take 2 buff)) ;;
  let stat := to_uint8 (code r) in
  if negb (stat =? 0) then ret (- (0x20 + stat)) else
  let reg := IDREG in
  r <- issue respond (Bcm2835_i2c_read_register_rs reg 1) ;;
  let buff := received buff 1 r in
  let stat := to_uint8 (code r) in
  if negb (stat =? 0) then ret (- (0x30 + stat)) else
  if negb (Z.land (buff !!! 0%nat) 0xf8 =? 0xc8) then ret (- 0x3f) else
  ret 0.

(** Lines 150-156 of [read_adt74x0]: the bytes read, to degrees Celsius. *)
Definition decode (buff : list Z) : double :=
  let hi := to_int16 (buff !!! 0%nat) in
  let lo := to_int16 (buff !!! 1%nat) in
  let t128 := to_int16 (Z.lor (Z.shiftl hi 8) lo) in
  div128 t128.

(** Return 0 if OK, -ve to show error; set [*temp]. *)
Definition read_adt74x0 (addr : Z) (temp : option double)
  : M (Z * option double) :=
  let buff := buff_decl in
  issue respond (Bcm2835_i2c_setSlaveAddress addr) ;;;
  let reg := T_MSB in
  r <- issue respond (Bcm2835_i2c_read_register_rs reg 2) ;;
  let buff := received buff 2 r in
  let stat := to_uint8 (code r) in
  if negb (stat =? 0) then ret (- (0x40 + stat), temp) else
  ret (0, Some (decode buff)).

(** Lines 71-73 of [main]. *)
Definition mark_devs : list Z :=
  fold_left (fun devs i => devs_set devs i (-1))
    (seqZ 0 I2C_ADDRS) (replicate (Z.to_nat I2C_ADDRS) 0).

(** Lines 77-83: the body of the loop that initializes the chips. *)
Definition init_body (i : Z) (devs : list Z) : M (list Z) :=
  stat <- init_adt74x0 (to_uint8 i) ;;
  let devs := devs_set devs i stat in
  (if DEBUG then printf (Scan_debug i (- stat)) else ret tt) ;;;
  ret devs.

(** Lines 90-99: the body of the loop that gets the results. *)
Definition read_body (i : Z) (devs : list Z) : M (list Z) :=
  if negb (devs_get devs i =? 0) then ret devs else
  r <- read_adt74x0 (to_uint8 i) None ;;
  (if r.1 <? 0 then printf (Error_line i r.1)
   else printf (Temp_line i r.2)) ;;;
  ret devs.

Definition init_pass (devs : list Z) : M (list Z) :=
  for_each (seqZ 0x48 (0x4b - 0x48 + 1)) init_body devs.

Definition read_pass (devs : list Z) : M (list Z) :=
  for_each (seqZ 0 I2C_ADDRS) read_body devs.

(** [main]; the result is the exit status. *)
Definition main (argv : list string) : M Z :=
  issue respond Bcm2835_init ;;;
  issue respond Bcm2835_i2c_begin ;;;
  issue respond (Bcm2835_i2c_set_baudrate 10000) ;;;
  devs <- init_pass mark_devs ;;
  issue respond (Bcm2835_delay 1000) ;;;
  read_pass devs ;;;
  issue respond Bcm2835_i2c_end ;;;
  issue respond Bcm2835_close ;;;
  ret 0.

(** Lines 62-67. *)
Definition start : M unit :=
  issue respond Bcm2835_init ;;;
  issue respond Bcm2835_i2c_begin ;;;
  issue respond (Bcm2835_i2c_set_baudrate 10000) ;;;
  ret tt.

(** [devs] and the world when the initialization loop of [main] reaches
    [i], and when the loop that gets the results does. *)
Definition at_init (i : Z) : list Z * world :=
  (start ;;; for_each (seqZ 0x48 (i - 0x48)) init_body mark_devs) world0.

Definition at_read (i : Z) : list Z * world :=
  (start ;;;
   devs <- init_pass mark_devs ;;
   issue respond (Bcm2835_delay 1000) ;;;
   for_each (seqZ 0 i) read_body devs) world0.

(** The content of [devs] when [main] reaches line 85, after the
    initialization loop. *)
Definition devs_after_init : list Z := (at_init (0x4b + 1)).1.

End Program.
End Adt74x0b.

(* ================================================================= *)
(** ** Steps that fail *)

(** The byte [init_adt74x0] of adt74x0b.c tests after the read of the ID
    register: [buff[0]], which held CONFIG before the read. *)
Definition bcm_id_byte (r : resp) : Z :=
  Adt74x0b.received [CONFIG; 0x80; 0; 0] 1 r !!! 0%nat.

(** The step an event stands for failed, as the routines judge it: a call
    of the kernel interface fails with a negative result, a transfer of the
    bcm2835 library with a reason code other than 0; the verification
    fails, too, when the byte read does not identify the chip.  A wait and
    a selection in adt74x0b.c, whose results are not looked at, never
    fail. *)
Definition step_failed (e : event) : bool :=
  let r := ev_resp e in
  match ev_call e with
  | Ioctl_I2C_SLAVE _ _ | I2c_smbus_write_byte _ _
  | I2c_smbus_write_byte_data _ _ _ | I2c_smbus_read_word_data _ _ =>
      code r <? 0
  | I2c_smbus_read_byte_data _ _ =>
      (code r <? 0) || negb (Z.land (code r) 0xf8 =? 0xc8)
  | Bcm2835_i2c_write _ => negb (to_uint8 (code r) =? 0)
  | Bcm2835_i2c_read_register_rs reg _ =>
      negb (to_uint8 (code r) =? 0)
      || (reg =? IDREG) && negb (Z.land (bcm_id_byte r) 0xf8 =? 0xc8)
  | _ => false
  end.

Definition all_passed (evs : list event) : bool :=
  forallb (fun e => negb (step_failed e)) evs.

(** The step a negative status of [init_adt74x0] in adt74x0.c stands
    for. *)
Definition failed_step_of_status (status : Z) : option step :=
  match status with
  | -1 => Some Select
  | -2 => Some Reset
  | -3 | -4 => Some Verify
  | -5 => Some Configure
  | _ => None
  end.

(** ** Vocabulary of the further properties *)

(** The reason codes the bcm2835 transfers return are below 0x0f, as the
    codes of the library (0, 1, 2 and 4) are. *)
Definition small_reasons (respond : transport) : Prop :=
  forall h tgt c,
    match c with
    | Bcm2835_i2c_write _ | Bcm2835_i2c_read_register_rs _ _ =>
        to_uint8 (code (respond h tgt c)) < 0x0f
    | _ => True
    end.

(** The calls the initialization loop of adt74x0.c makes, on the
    descriptor [file], and those the loop that gets the results makes. *)
Definition init_call (GOOD : bool) (file : Z) (c : call) : bool :=
  match c with
  | Ioctl_I2C_SLAVE f _ => f =? file
  | I2c_smbus_write_byte f v => (f =? file) && (v =? RESET)
  | Usleep usec => usec =? 250
  | I2c_smbus_read_byte_data f reg => GOOD && (f =? file) && (reg =? IDREG)
  | I2c_smbus_write_byte_data f reg v =>
      (f =? file) && (reg =? CONFIG) && (v =? 0x80)
  | _ => false
  end.

Definition read_call (file : Z) (c : call) : bool :=
  match c with
  | Ioctl_I2C_SLAVE f _ => f =? file
  | I2c_smbus_read_word_data f reg => (f =? file) && (reg =? T_MSB)
  | _ => false
  end.

(** The same for adt74x0b.c. *)
Definition bcm_init_call (c : call) : bool :=
  match c with
  | Bcm2835_i2c_setSlaveAddress _ => true
  | Bcm2835_i2c_write buf =>
      bool_decide (buf = [RESET] \/ buf = [CONFIG; 0x80])
  | Bcm2835_delay millis => millis =? 1
  | Bcm2835_i2c_read_register_rs reg len =>
      (reg =? IDREG) && bool_decide (len = 1%nat)
  | _ => false
  end.

Definition bcm_read_call (c : call) : bool :=
  match c with
  | Bcm2835_i2c_setSlaveAddress _ => true
  | Bcm2835_i2c_read_register_rs reg len =>
      (reg =? T_MSB) && bool_decide (len = 2%nat)
  | _ => false
  end.

(** [w'] continues [w] with calls that satisfy [ok] only, and with more
    output. *)
Definition adds (ok : call -> bool) (w w' : world) : Prop :=
  (exists cs,
     map ev_call (trace w') = map ev_call (trace w) ++ cs /\
     Forall (fun c => ok c = true) cs) /\
  exists ls, out w' = out w ++ ls.

(** The reason code an event of adt74x0b.c carries. *)
Definition reason (e : event) : Z := to_uint8 (code (ev_resp e)).

(** The bus operations among some events. *)
Definition bus_ops (evs : list event) : list event :=
  filter (fun e => bus_op (ev_call e) = true) evs.

(** The candidate addresses, in ascending order, and those below [i]. *)
Definition candidates : list Z := seqZ 0x48 4.

Definition candidates_below (i : Z) : list Z :=
  seqZ 0x48 (Z.min (i - 0x48) 4).

(** The lines [ls] report on some of the addresses of [range], one line for
    each of them, in the order of [range]; [form a l] says what the line
    [l] for the address [a] is. *)
Definition listing (form : Z -> line -> Prop) (range : list Z)
    (ls : list line) : Prop :=
  exists addrs, addrs `sublist_of` range /\ Forall2 form addrs ls.

(** The line on the ID register of adt74x0.c, and the line of the DEBUG
    build of adt74x0b.c. *)
Definition id_line (a : Z) (l : line) : Prop := exists id, l = Has_id a id.

Definition debug_line (a : Z) (l : line) : Prop :=
  exists c, 0 <= c <= 0x12f /\ l = Scan_debug a c.

(** The text of a line is a comment: it starts with a hash sign and a
    space. *)
Definition comment (l : line) : Prop :=
  String.prefix "# " (render l) = true.

(** The output of [w] is [base] followed by a listing over [range]. *)
Definition lists (form : Z -> line -> Prop) (base : list line)
    (range : list Z) (w : world) : Prop :=
  exists ls, out w = base ++ ls /\ listing form range ls.

(** adt74x0.c: a read of the temperature word of the device at [a] that
    succeeded, and the temperature the program makes of the word. *)
Definition word_reading (file a : Z) (t : double) (e : event) : Prop :=
  ev_target e = Some a /\
  ev_call e = I2c_smbus_read_word_data file T_MSB /\
  0 <= code (ev_resp e) /\
  t = Adt74x0.decode (code (ev_resp e)).

(** adt74x0b.c: a read of the two temperature bytes of the device at [a]
    that succeeded, and the temperature the program makes of the bytes. *)
Definition bytes_reading (a : Z) (t : double) (e : event) : Prop :=
  ev_target e = Some a /\
  ev_call e = Bcm2835_i2c_read_register_rs T_MSB 2 /\
  to_uint8 (code (ev_resp e)) = 0 /\
  t = Adt74x0b.decode (Adt74x0b.received Adt74x0b.buff_decl 2 (ev_resp e)).

(** An output without the lines only the DEBUG build of adt74x0b.c
    writes. *)
Definition is_debug (l : line) : bool :=
  match l with Scan_debug _ _ => true | _ => false end.

Definition without_debug (o : list line) : list line :=
  filter (fun l => is_debug l = false) o.

(** Two states of [main] in the two builds of adt74x0b.c: the same
    [devs], the same transcript and device selected, the same output but
    for the lines of the DEBUG build, the first. *)
Definition same_but_debug (s1 : list Z) (w1 : world) (s2 : list Z)
    (w2 : world) : Prop :=
  s1 = s2 /\ trace w1 = trace w2 /\ selected w1 = selected w2 /\
  without_debug (out w1) = out w2.

(** The temperature lines of the output are the readings of the
    transcript: a line for the address [a] holds a temperature [t] for
    which there is an event [e] with [reading a t e], and every such event
    has its line. *)
Definition measured (reading : Z -> double -> event -> Prop) (w : world)
  : Prop :=
  (forall a t, In (Temp_line a t) (out w) ->
     exists e x, t = Some x /\ In e (trace w) /\ reading a x e) /\
  (forall e a x, In e (trace w) -> reading a x e ->
     In (Temp_line a (Some x)) (out w)).

(* ================================================================= *)
(** * Properties *)

(** ** Integer conversions and bit operations *)

Lemma to_int16_small (v : Z) : -32768 <= v < 32768 -> to_int16 v = v.
Proof.
  intros Hv. unfold to_int16, wrap_signed.
  change (2 ^ (16 - 1)) with 32768. change (2 ^ 16) with 65536.
  rewrite Z.mod_small by lia. lia.
Qed.

Lemma to_int8_small (v : Z) : -128 <= v < 128 -> to_int8 v = v.
Proof.
  intros Hv. unfold to_int8, wrap_signed.
  change (2 ^ (8 - 1)) with 128. change (2 ^ 8) with 256.
  rewrite Z.mod_small by lia. lia.
Qed.

Lemma to_int8_range (v : Z) : -128 <= to_int8 v < 128.
Proof.
  unfold to_int8, wrap_signed.
  change (2 ^ (8 - 1)) with 128. change (2 ^ 8) with 256.
  pose proof (Z.mod_pos_bound (v + 128) 256). lia.
Qed.

Lemma to_uint8_range (v : Z) : 0 <= to_uint8 v < 256.
Proof. unfold to_uint8. apply Z.mod_pos_bound. lia. Qed.

Lemma to_uint8_small (v : Z) : 0 <= v < 256 -> to_uint8 v = v.
Proof. intros Hv. unfold to_uint8. apply Z.mod_small. lia. Qed.

Lemma testbit15 (w : Z) :
  0 <= w < 65536 -> Z.testbit w 15 = (32768 <=? w).
Proof.
  intros Hw. rewrite Z.testbit_eqb by lia.
  change (2 ^ 15) with 32768.
  destruct (Z.leb_spec 32768 w) as [Hge | Hlt].
  - replace (w / 32768) with 1 by (apply Z.div_unique with (r := w - 32768); lia).
    reflexivity.
  - rewrite Z.div_small by lia. reflexivity.
Qed.

(** On a 16-bit word the conversion to [int16_t] is the specification's
    [signed16]. *)
Lemma to_int16_signed16 (w : Z) : 0 <= w < 65536 -> to_int16 w = signed16 w.
Proof.
  intros Hw. unfold signed16. rewrite testbit15 by lia.
  unfold to_int16, wrap_signed.
  change (2 ^ (16 - 1)) with 32768. change (2 ^ 16) with 65536.
  destruct (Z.leb_spec 32768 w) as [Hge | Hlt].
  - replace ((w + 32768) mod 65536) with (w - 32768); [lia |].
    apply Z.mod_unique with (q := 1); lia.
  - rewrite Z.mod_small by lia. lia.
Qed.

Lemma land_shiftl8_byte (hi lo : Z) :
  0 <= lo < 256 -> Z.land (Z.shiftl hi 8) lo = 0.
Proof.
  intros Hlo. apply Z.bits_inj'. intros n Hn.
  rewrite Z.land_spec, Z.bits_0.
  destruct (Z.ltb_spec n 8) as [Hlow | Hhigh].
  - rewrite Z.shiftl_spec_low by lia. reflexivity.
  - rewrite <- (Z.mod_small lo (2 ^ 8)) by (change (2 ^ 8) with 256; lia).
    rewrite Z.mod_pow2_bits_high by lia. apply andb_false_r.
Qed.

Lemma lor_shiftl8 (hi lo : Z) :
  0 <= lo < 256 -> Z.lor (Z.shiftl hi 8) lo = hi * 256 + lo.
Proof.
  intros Hlo. pose proof (Z.add_lor_land (Z.shiftl hi 8) lo) as Hadd.
  rewrite land_shiftl8_byte in Hadd by assumption.
  rewrite Z.shiftl_mul_pow2 in Hadd by lia. change (2 ^ 8) with 256 in Hadd.
  rewrite Z.shiftl_mul_pow2 by lia. change (2 ^ 8) with 256. lia.
Qed.

Lemma land_ff (x : Z) : Z.land x 0xff = x mod 256.
Proof. change 0xff with (Z.ones 8). rewrite Z.land_ones by lia. reflexivity. Qed.

Lemma shiftr_land_ff00 (x : Z) :
  Z.shiftr (Z.land x 0xff00) 8 = (x / 256) mod 256.
Proof.
  rewrite Z.shiftr_land. change (Z.shiftr 0xff00 8) with 0xff.
  rewrite land_ff, Z.shiftr_div_pow2 by lia. reflexivity.
Qed.

Lemma smbus_word_value (first second : Z) :
  0 <= first < 256 -> smbus_word first second = second * 256 + first.
Proof.
  intros Hf. unfold smbus_word. rewrite Z.lor_comm. apply lor_shiftl8, Hf.
Qed.

(** ** Decoding the temperature *)

(** The [int16_t t128] the kernel variant computes from the word read. *)
Lemma Adt74x0_decode_word (msb lsb : Z) :
  0 <= msb < 256 -> 0 <= lsb < 256 ->
  Adt74x0.decode (smbus_word msb lsb)
  = div128 (to_int16 (msb * 256 + lsb)).
Proof.
  intros Hm Hl. unfold Adt74x0.decode.
  rewrite smbus_word_value by assumption.
  rewrite shiftr_land_ff00, land_ff.
  replace ((lsb * 256 + msb) / 256) with lsb
    by (apply Z.div_unique with (r := msb); lia).
  replace ((lsb * 256 + msb) mod 256) with msb
    by (apply Z.mod_unique with (q := lsb); lia).
  rewrite (Z.mod_small lsb) by lia.
  rewrite (to_int16_small msb), (to_int16_small lsb) by lia.
  rewrite lor_shiftl8 by lia. reflexivity.
Qed.

(** The [int16_t t128] the bcm2835 variant computes from the bytes read. *)
Lemma Adt74x0b_decode_buff (msb lsb : Z) (rest : list Z) :
  0 <= msb < 256 -> 0 <= lsb < 256 ->
  Adt74x0b.decode (msb :: lsb :: rest)
  = div128 (to_int16 (msb * 256 + lsb)).
Proof.
  intros Hm Hl. unfold Adt74x0b.decode. cbn [lookup_total list_lookup_total].
  rewrite (to_int16_small msb), (to_int16_small lsb) by lia.
  rewrite lor_shiftl8 by lia. reflexivity.
Qed.

Lemma Adt74x0b_received_two (c msb lsb : Z) :
  0 <= msb < 256 -> 0 <= lsb < 256 ->
  Adt74x0b.received Adt74x0b.buff_decl 2 (Resp c [msb; lsb])
  = [msb; lsb; 0; 0].
Proof.
  intros Hm Hl. unfold Adt74x0b.received, Adt74x0b.buff_decl. cbn.
  rewrite !to_uint8_small by lia. reflexivity.
Qed.

Lemma div128_value (n : Z) : div128 n = Qred (inject_Z n / inject_Z 128).
Proof.
  unfold div128. apply Qred_complete.
  unfold Qeq, Qdiv, Qmult, Qinv, inject_Z. cbn. lia.
Qed.

(** ** Running the programs *)

(** Symbolic execution of a straight-line computation: unfold the monad and
    split on every test. *)
Ltac run_monad :=
  cbv beta delta [bind ret issue printf];
  cbn [negb fst snd trace selected out target_of select_after bus_op
       code data take insert list_insert Adt74x0b.buff_decl].

Ltac step_tests :=
  repeat match goal with
    | |- context [if ?c then _ else _] =>
        lazymatch c with
        | context [if _ then _ else _] => fail
        | negb ?d => destruct d eqn:?
        | _ => destruct c eqn:?
        end;
        run_monad
    end.

Ltac exec := run_monad; step_tests.

Ltac trace_shape :=
  rewrite <- ?app_assoc; cbn [app]; try reflexivity;
  rewrite ?app_nil_r; reflexivity.

Ltac at_addr_tac :=
  eexists _, _; split; [trace_shape |]; split; [trace_shape |];
  split; repeat constructor; cbn; try congruence; try tauto.

Lemma Adt74x0_init_at_addr GOOD respond file i w :
  at_addr i w (Adt74x0.init_adt74x0 GOOD respond file i w).2.
Proof.
  unfold Adt74x0.init_adt74x0, Adt74x0.init_configure.
  destruct GOOD; exec; at_addr_tac.
Qed.

(** ** Loops *)

(** An invariant of the body is an invariant of the loop. *)
Lemma for_each_inv {St : Type} (I : St -> world -> Prop)
    (range : list Z) (body : Z -> St -> M St) :
  (forall i s w, In i range -> I s w -> I (body i s w).1 (body i s w).2) ->
  forall s w, I s w ->
    I (for_each range body s w).1 (for_each range body s w).2.
Proof.
  induction range as [| i range IH]; intros Hbody s w Hs; cbn.
  - exact Hs.
  - unfold bind. apply IH.
    + intros j s' w' Hj. apply Hbody. now right.
    + apply Hbody; [now left | exact Hs].
Qed.

(** The same for two runs side by side. *)
Lemma for_each_sim {St : Type} (R : St -> world -> St -> world -> Prop)
    (range : list Z) (body1 body2 : Z -> St -> M St) :
  (forall i s1 w1 s2 w2, In i range -> R s1 w1 s2 w2 ->
     R (body1 i s1 w1).1 (body1 i s1 w1).2
       (body2 i s2 w2).1 (body2 i s2 w2).2) ->
  forall s1 w1 s2 w2, R s1 w1 s2 w2 ->
    R (for_each range body1 s1 w1).1 (for_each range body1 s1 w1).2
      (for_each range body2 s2 w2).1 (for_each range body2 s2 w2).2.
Proof.
  induction range as [| i range IH]; intros Hbody s1 w1 s2 w2 Hs; cbn.
  - exact Hs.
  - unfold bind. apply IH.
    + intros j s1' w1' s2' w2' Hj. apply Hbody. now right.
    + apply Hbody; [now left | exact Hs].
Qed.

Lemma for_each_app {St : Type} (l1 l2 : list Z) (body : Z -> St -> M St)
    (s : St) (w : world) :
  for_each (l1 ++ l2) body s w
  = for_each l2 body (for_each l1 body s w).1 (for_each l1 body s w).2.
Proof.
  revert s w. induction l1 as [| i l1 IH]; intros s w; cbn.
  - reflexivity.
  - unfold bind. apply IH.
Qed.

(** A loop over [lo, lo + n) is the loop up to [a], the body at [a], and
    the loop from [a + 1] on. *)
Lemma seqZ_split (lo n a : Z) :
  lo <= a < lo + n ->
  seqZ lo n = seqZ lo (a - lo) ++ a :: seqZ (a + 1) (lo + n - a - 1).
Proof.
  intros Ha.
  replace n with ((a - lo) + (1 + (lo + n - a - 1))) at 1 by lia.
  rewrite seqZ_app by lia. f_equal.
  replace (lo + (a - lo)) with a by lia.
  rewrite seqZ_cons by lia. f_equal. f_equal; lia.
Qed.

Lemma for_each_split {St : Type} (lo n a : Z) (body : Z -> St -> M St)
    (s : St) (w : world) :
  lo <= a < lo + n ->
  for_each (seqZ lo n) body s w
  = let p := for_each (seqZ lo (a - lo)) body s w in
    let q := body a p.1 p.2 in
    for_each (seqZ (a + 1) (lo + n - a - 1)) body q.1 q.2.
Proof.
  intros Ha. rewrite (seqZ_split lo n a Ha), for_each_app. reflexivity.
Qed.

Lemma In_seqZ (lo n i : Z) : In i (seqZ lo n) <-> lo <= i < lo + n.
Proof. rewrite <- list_elem_of_In. apply elem_of_seqZ. Qed.

(** ** The array [devs] *)

Lemma devs_get_set_ne (devs : list Z) (i j v : Z) :
  0 <= i -> 0 <= j -> i <> j ->
  devs_get (devs_set devs i v) j = devs_get devs j.
Proof.
  intros Hi Hj Hne. unfold devs_get, devs_set.
  apply list_lookup_total_insert_ne. lia.
Qed.

Lemma devs_get_set_eq (devs : list Z) (i v : Z) :
  0 <= i < Z.of_nat (length devs) ->
  devs_get (devs_set devs i v) i = to_int8 v.
Proof.
  intros Hi. unfold devs_get, devs_set.
  apply list_lookup_total_insert_eq. lia.
Qed.

Lemma devs_set_length (devs : list Z) (i v : Z) :
  length (devs_set devs i v) = length devs.
Proof. unfold devs_set. apply length_insert. Qed.

(** A property of all the addresses of the bus, checked one by one. *)
Lemma forall_addrs (P : Z -> bool) :
  forallb P (seqZ 0 I2C_ADDRS) = true ->
  forall i, 0 <= i < I2C_ADDRS -> P i = true.
Proof.
  intros Hall i Hi. rewrite forallb_forall in Hall.
  apply Hall, In_seqZ. lia.
Qed.

Lemma Adt74x0_mark_devs_get (i : Z) :
  0 <= i < I2C_ADDRS ->
  devs_get Adt74x0.mark_devs i
  = if (0x48 <=? i) && (i <=? 0x4b) then 1 else 0.
Proof.
  intros Hi. apply Z.eqb_eq.
  apply (forall_addrs
           (fun i => devs_get Adt74x0.mark_devs i
                     =? if (0x48 <=? i) && (i <=? 0x4b) then 1 else 0));
    [vm_compute; reflexivity | exact Hi].
Qed.

Lemma Adt74x0b_mark_devs_get (i : Z) :
  0 <= i < I2C_ADDRS -> devs_get Adt74x0b.mark_devs i = -1.
Proof.
  intros Hi. apply Z.eqb_eq.
  apply (forall_addrs (fun i => devs_get Adt74x0b.mark_devs i =? -1));
    [vm_compute; reflexivity | exact Hi].
Qed.

Lemma Adt74x0_mark_devs_length :
  length Adt74x0.mark_devs = Z.to_nat I2C_ADDRS.
Proof. vm_compute. reflexivity. Qed.

Lemma Adt74x0b_mark_devs_length :
  length Adt74x0b.mark_devs = Z.to_nat I2C_ADDRS.
Proof. vm_compute. reflexivity. Qed.

(** ** Activity at one address *)

Lemma at_addr_refl (i : Z) (w : world) : at_addr i w w.
Proof.
  exists [], []. rewrite !app_nil_r. repeat split; constructor.
Qed.

Lemma at_addr_trans (i : Z) (w1 w2 w3 : world) :
  at_addr i w1 w2 -> at_addr i w2 w3 -> at_addr i w1 w3.
Proof.
  intros (e1 & l1 & Ht1 & Ho1 & He1 & Hl1) (e2 & l2 & Ht2 & Ho2 & He2 & Hl2).
  exists (e1 ++ e2), (l1 ++ l2).
  rewrite Ht2, Ht1, Ho2, Ho1, <- !app_assoc.
  repeat split; apply Forall_app; split; assumption.
Qed.

Lemma probes_app (a : Z) (t1 t2 : list event) :
  probes a (t1 ++ t2) = probes a t1 ++ probes a t2.
Proof. unfold probes. apply filter_app. Qed.

Lemma results_for_app (a : Z) (o1 o2 : list line) :
  results_for a (o1 ++ o2) = results_for a o1 ++ results_for a o2.
Proof. unfold results_for. apply filter_app. Qed.

Lemma elsewhere_app (a : Z) (t1 t2 : list event) :
  elsewhere a (t1 ++ t2) = elsewhere a t1 ++ elsewhere a t2.
Proof. unfold elsewhere. apply filter_app. Qed.

Lemma lines_elsewhere_app (a : Z) (o1 o2 : list line) :
  lines_elsewhere a (o1 ++ o2) = lines_elsewhere a o1 ++ lines_elsewhere a o2.
Proof. unfold lines_elsewhere. apply filter_app. Qed.

(** ** One call *)

Lemma filter_none {A : Type} (P : A -> Prop) `{forall x, Decision (P x)}
    (l : list A) :
  Forall (fun x => ~ P x) l -> filter P l = [].
Proof.
  induction 1 as [| x l Hx _ IH]; [reflexivity |].
  rewrite filter_cons_False by assumption. exact IH.
Qed.

Lemma issue_trace (respond : transport) (c : call) (w : world) :
  trace (issue respond c w).2
  = trace w ++ [Event (target_of (selected w) c) c
                  (respond (trace w) (target_of (selected w) c) c)].
Proof. reflexivity. Qed.

Lemma issue_out (respond : transport) (c : call) (w : world) :
  out (issue respond c w).2 = out w.
Proof. reflexivity. Qed.

Lemma probes_no_bus_op (a : Z) (tgt : option Z) (c : call) (r : resp) :
  bus_op c = false -> probes a [Event tgt c r] = [].
Proof.
  intros Hc. unfold probes. apply filter_none. constructor; [| constructor].
  cbn. intros [Hbus _]. congruence.
Qed.

Lemma issue_probes (respond : transport) (c : call) (w : world) (a : Z) :
  bus_op c = false ->
  probes a (trace (issue respond c w).2) = probes a (trace w).
Proof.
  intros Hc. rewrite issue_trace, probes_app, probes_no_bus_op by exact Hc.
  apply app_nil_r.
Qed.

Lemma result_line_addr (l : line) (a : Z) :
  result_addr l = Some a -> line_addr l = Some a.
Proof. destruct l; cbn; congruence. Qed.

(** Activity at [i] is invisible at any other address [a]. *)
Lemma at_addr_probes (i a : Z) (w w' : world) :
  at_addr i w w' -> a <> i -> probes a (trace w') = probes a (trace w).
Proof.
  intros (evs & ls & Ht & _ & Hev & _) Hne.
  rewrite Ht, probes_app. unfold probes at 2.
  rewrite (filter_none _ evs); [apply app_nil_r |].
  eapply Forall_impl; [exact Hev |].
  intros e He [Hbus Htgt]. specialize (He Hbus). congruence.
Qed.

Lemma at_addr_results (i a : Z) (w w' : world) :
  at_addr i w w' -> a <> i ->
  results_for a (out w') = results_for a (out w).
Proof.
  intros (evs & ls & _ & Ho & _ & Hls) Hne.
  rewrite Ho, results_for_app. unfold results_for at 2.
  rewrite (filter_none _ ls); [apply app_nil_r |].
  eapply Forall_impl; [exact Hls |].
  intros l Hl Hres. apply result_line_addr in Hres. congruence.
Qed.

Lemma at_addr_elsewhere (a : Z) (w w' : world) :
  at_addr a w w' ->
  elsewhere a (trace w') = elsewhere a (trace w) /\
  lines_elsewhere a (out w') = lines_elsewhere a (out w).
Proof.
  intros (evs & ls & Ht & Ho & Hev & Hls). split.
  - rewrite Ht, elsewhere_app. unfold elsewhere at 2.
    rewrite (filter_none _ evs); [apply app_nil_r |].
    eapply Forall_impl; [exact Hev |].
    intros e He [Hbus Htgt]. auto.
  - rewrite Ho, lines_elsewhere_app. unfold lines_elsewhere at 2.
    rewrite (filter_none _ ls); [apply app_nil_r |].
    eapply Forall_impl; [exact Hls |].
    intros l Hl Hne. auto.
Qed.

Lemma touches_view (i a : Z) (s : list Z) (w : world) (r : list Z * world) :
  touches i s w r -> 0 <= i -> 0 <= a -> a <> i -> view a r = view a (s, w).
Proof.
  intros [Hat Hdevs] Hi Ha Hne. unfold view. cbn [fst snd].
  rewrite (at_addr_probes i a w r.2 Hat Hne).
  rewrite (at_addr_results i a w r.2 Hat Hne).
  destruct Hdevs as [-> | [v ->]]; [reflexivity |].
  rewrite devs_get_set_ne by (assumption || congruence). reflexivity.
Qed.

Lemma view_eq (a : Z) (r r' : list Z * world) :
  view a r = view a r' ->
  devs_get r.1 a = devs_get r'.1 a /\
  probes a (trace r.2) = probes a (trace r'.2) /\
  results_for a (out r.2) = results_for a (out r'.2).
Proof. unfold view. intros [= H1 H2 H3]. auto. Qed.

(** In a loop whose bodies each act at their own address, what concerns
    address [a] is decided by the body at [a]. *)
Lemma loop_view (body : Z -> list Z -> M (list Z)) (lo n a : Z)
    (s : list Z) (w : world) :
  (forall i s w, lo <= i < lo + n -> touches i s w (body i s w)) ->
  0 <= lo -> lo <= a < lo + n ->
  let p := for_each (seqZ lo (a - lo)) body s w in
  view a p = view a (s, w) /\
  view a (for_each (seqZ lo n) body s w) = view a (body a p.1 p.2).
Proof.
  intros Hbody Hlo Ha p. split.
  - subst p.
    apply (for_each_inv (fun s' w' => view a (s', w') = view a (s, w)));
      [| reflexivity].
    intros i s' w' Hi Hinv. apply In_seqZ in Hi.
    rewrite <- Hinv, <- surjective_pairing.
    apply (touches_view i); [apply Hbody |..]; lia.
  - rewrite (for_each_split lo n a) by assumption. cbv zeta. fold p.
    set (q := body a p.1 p.2).
    rewrite (surjective_pairing (for_each _ body q.1 q.2)).
    rewrite (surjective_pairing q) at 3.
    apply (for_each_inv (fun s' w' => view a (s', w') = view a (q.1, q.2)));
      [| reflexivity].
    intros i s' w' Hi Hinv. apply In_seqZ in Hi.
    rewrite <- Hinv, <- surjective_pairing.
    apply (touches_view i); [apply Hbody |..]; lia.
Qed.

(** In a loop that does not reach [a], nothing that concerns [a] changes. *)
Lemma loop_view_out (body : Z -> list Z -> M (list Z)) (lo n a : Z)
    (s : list Z) (w : world) :
  (forall i s w, lo <= i < lo + n -> touches i s w (body i s w)) ->
  0 <= lo -> 0 <= a -> ~ lo <= a < lo + n ->
  view a (for_each (seqZ lo n) body s w) = view a (s, w).
Proof.
  intros Hbody Hlo Ha Hout.
  rewrite (surjective_pairing (for_each _ body s w)).
  apply (for_each_inv (fun s' w' => view a (s', w') = view a (s, w)));
    [| reflexivity].
  intros i s' w' Hi Hinv. apply In_seqZ in Hi.
  rewrite <- Hinv, <- surjective_pairing.
  apply (touches_view i); [apply Hbody |..]; lia.
Qed.

(** *** The routines of adt74x0.c *)

Lemma Adt74x0_read_at_addr respond file i temp w :
  at_addr i w (Adt74x0.read_adt74x0 respond file i temp w).2.
Proof. unfold Adt74x0.read_adt74x0. exec; at_addr_tac. Qed.

Lemma Adt74x0_init_body_touches GOOD respond file i s w :
  touches i s w (Adt74x0.init_body GOOD respond file i s w).
Proof.
  unfold Adt74x0.init_body.
  destruct (devs_get s i <=? 0).
  - split; [apply at_addr_refl | now left].
  - unfold bind at 1.
    pose proof (Adt74x0_init_at_addr GOOD respond file i w) as Hat.
    destruct (Adt74x0.init_adt74x0 GOOD respond file i w) as [stat w'].
    cbn [fst snd] in *.
    destruct (stat <? 0); (split; [exact Hat | cbn; eauto]).
Qed.

Lemma Adt74x0_read_body_touches respond file i s w :
  touches i s w (Adt74x0.read_body respond file i s w).
Proof.
  unfold Adt74x0.read_body.
  destruct (devs_get s i <=? 0).
  - split; [apply at_addr_refl | now left].
  - split; [| now left].
    unfold Adt74x0.read_adt74x0. exec; at_addr_tac.
Qed.

(** *** The routines of adt74x0b.c *)

Lemma Adt74x0b_init_at_addr respond i w :
  at_addr i w (Adt74x0b.init_adt74x0 respond i w).2.
Proof. unfold Adt74x0b.init_adt74x0. exec; at_addr_tac. Qed.

Lemma Adt74x0b_read_at_addr respond i temp w :
  at_addr i w (Adt74x0b.read_adt74x0 respond i temp w).2.
Proof. unfold Adt74x0b.read_adt74x0. exec; at_addr_tac. Qed.

Lemma Adt74x0b_init_body_touches DEBUG respond i s w :
  0 <= i < 256 ->
  touches i s w (Adt74x0b.init_body DEBUG respond i s w).
Proof.
  intros Hi. unfold Adt74x0b.init_body. rewrite to_uint8_small by exact Hi.
  pose proof (Adt74x0b_init_at_addr respond i w) as Hat.
  unfold bind at 1.
  destruct (Adt74x0b.init_adt74x0 respond i w) as [stat w']. cbn [fst snd] in *.
  split; [| destruct DEBUG; cbn; eauto].
  eapply at_addr_trans; [exact Hat |].
  destruct DEBUG; run_monad; [at_addr_tac | apply at_addr_refl].
Qed.

Lemma Adt74x0b_read_body_touches respond i s w :
  0 <= i < 256 ->
  touches i s w (Adt74x0b.read_body respond i s w).
Proof.
  intros Hi. unfold Adt74x0b.read_body. rewrite to_uint8_small by exact Hi.
  destruct (devs_get s i =? 0); cbn [negb].
  - split; [| now left].
    unfold Adt74x0b.read_adt74x0. exec; at_addr_tac.
  - split; [apply at_addr_refl | now left].
Qed.

(** ** The run of [main] in adt74x0.c *)

Section Adt74x0_run.

Variable GOOD : bool.
Variable respond : transport.
Variable argv : list string.

Let file : Z := (Adt74x0.start respond argv world0).1.
Let opened : world := (Adt74x0.start respond argv world0).2.

Lemma Adt74x0_at_init_eq (i : Z) :
  Adt74x0.at_init GOOD respond argv i
  = for_each (seqZ 0 i) (Adt74x0.init_body GOOD respond file)
      Adt74x0.mark_devs opened.
Proof. unfold Adt74x0.at_init, bind, file, opened. reflexivity. Qed.

Lemma Adt74x0_at_read_eq (i : Z) :
  Adt74x0.at_read GOOD respond argv i
  = for_each (seqZ 0 i) (Adt74x0.read_body respond file)
      (Adt74x0.devs_after_init GOOD respond argv)
      (issue respond (Usleep 1000000)
         (Adt74x0.at_init GOOD respond argv I2C_ADDRS).2).2.
Proof.
  unfold Adt74x0.at_read, Adt74x0.devs_after_init, Adt74x0.at_init,
    Adt74x0.init_pass, bind, file.
  reflexivity.
Qed.

(** What [main] does, from the states of its two loops. *)
Lemma Adt74x0_main_run :
  Adt74x0.main GOOD respond argv world0
  = if file <? 0 then
      (1, World (trace opened) (selected opened)
            (out opened
             ++ [Unable_to_open
                   (if 1 <? Z.of_nat (length argv)
                    then nth 1 argv Adt74x0.default_file
                    else Adt74x0.default_file)]))
    else
      (0, (issue respond (Close file)
             (Adt74x0.at_read GOOD respond argv I2C_ADDRS).2).2).
Proof.
  unfold file, opened.
  unfold Adt74x0.main, Adt74x0.at_read, Adt74x0.devs_after_init,
    Adt74x0.at_init, Adt74x0.init_pass, Adt74x0.read_pass, Adt74x0.start.
  run_monad.
  match goal with |- context [code ?r <? 0] => destruct (code r <? 0) end;
    reflexivity.
Qed.

(** The loop that gets the results leaves [devs] alone. *)
Lemma Adt74x0_read_keeps_devs (range : list Z) (s : list Z) (w : world) :
  (for_each range (Adt74x0.read_body respond file) s w).1 = s.
Proof.
  apply (for_each_inv (fun s' _ => s' = s)); [| reflexivity].
  intros i s' w' _ ->. unfold Adt74x0.read_body.
  destruct (devs_get s i <=? 0); reflexivity.
Qed.

Lemma Adt74x0_view_opened (a : Z) :
  0 <= a < I2C_ADDRS ->
  view a (Adt74x0.mark_devs, opened)
  = (if (0x48 <=? a) && (a <=? 0x4b) then 1 else 0, [], []).
Proof.
  intros Ha. unfold view. cbn [fst snd].
  rewrite Adt74x0_mark_devs_get by exact Ha. reflexivity.
Qed.

(** Address [a] in the initialization loop. *)
Lemma Adt74x0_view_init (a : Z) :
  0 <= a < I2C_ADDRS ->
  let p := Adt74x0.at_init GOOD respond argv a in
  view a p = (if (0x48 <=? a) && (a <=? 0x4b) then 1 else 0, [], []) /\
  view a (Adt74x0.at_init GOOD respond argv I2C_ADDRS)
  = view a (Adt74x0.init_body GOOD respond file a p.1 p.2).
Proof.
  intros Ha p. subst p. rewrite !Adt74x0_at_init_eq.
  rewrite <- (Adt74x0_view_opened a Ha).
  pose proof (loop_view (Adt74x0.init_body GOOD respond file) 0 I2C_ADDRS
                a Adt74x0.mark_devs opened) as Hview.
  rewrite Z.sub_0_r in Hview. apply Hview.
  - intros. apply Adt74x0_init_body_touches.
  - lia.
  - lia.
Qed.

(** The initialization writes no result line. *)
Lemma Adt74x0_init_body_results (f i a : Z) (s : list Z) (w : world) :
  results_for a (out (Adt74x0.init_body GOOD respond f i s w).2)
  = results_for a (out w).
Proof.
  unfold Adt74x0.init_body, Adt74x0.init_adt74x0, Adt74x0.init_configure.
  destruct GOOD; exec; rewrite ?results_for_app, ?app_nil_r; reflexivity.
Qed.

Lemma Adt74x0_init_results (i a : Z) :
  results_for a (out (Adt74x0.at_init GOOD respond argv i).2) = [].
Proof.
  rewrite Adt74x0_at_init_eq.
  apply (for_each_inv (fun _ w => results_for a (out w) = []));
    [| reflexivity].
  intros j s w _ Hw. rewrite Adt74x0_init_body_results. exact Hw.
Qed.

(** Address [a] in the loop that gets the results. *)
Lemma Adt74x0_view_read (a : Z) :
  0 <= a < I2C_ADDRS ->
  let q := Adt74x0.at_read GOOD respond argv a in
  q.1 = Adt74x0.devs_after_init GOOD respond argv /\
  probes a (trace q.2)
  = probes a (trace (Adt74x0.at_init GOOD respond argv I2C_ADDRS).2) /\
  results_for a (out q.2) = [] /\
  view a (Adt74x0.at_read GOOD respond argv I2C_ADDRS)
  = view a (Adt74x0.read_body respond file a q.1 q.2).
Proof.
  intros Ha q. subst q. rewrite !Adt74x0_at_read_eq.
  set (devs := Adt74x0.devs_after_init GOOD respond argv).
  set (w := (issue respond (Usleep 1000000) _).2).
  pose proof (loop_view (Adt74x0.read_body respond file) 0 I2C_ADDRS
                a devs w) as Hview.
  rewrite Z.sub_0_r in Hview.
  destruct Hview as [Hpre Hat];
    [intros; apply Adt74x0_read_body_touches | lia | lia |].
  split; [apply Adt74x0_read_keeps_devs |].
  apply view_eq in Hpre. cbn [fst snd] in Hpre.
  destruct Hpre as (_ & Hprobes & Hresults).
  split; [| split; [| exact Hat]].
  - rewrite Hprobes. subst w. apply issue_probes. reflexivity.
  - rewrite Hresults. subst w. rewrite issue_out.
    apply Adt74x0_init_results.
Qed.

(** What concerns address [a] at the end of [main], when the bus could be
    opened: its entry of [devs] is the one the body of the first loop
    leaves at [a]; the bus operations directed at it are those of the two
    bodies at [a]; its result lines are those the body of the second loop
    writes at [a]. *)
Lemma Adt74x0_summary (a : Z) :
  0 <= a < I2C_ADDRS -> (file <? 0) = false ->
  let p := Adt74x0.at_init GOOD respond argv a in
  let q := Adt74x0.at_read GOOD respond argv a in
  let ini := Adt74x0.init_body GOOD respond file a p.1 p.2 in
  let rd := Adt74x0.read_body respond file a q.1 q.2 in
  let final := (Adt74x0.main GOOD respond argv world0).2 in
  devs_get p.1 a = (if (0x48 <=? a) && (a <=? 0x4b) then 1 else 0) /\
  probes a (trace p.2) = [] /\
  devs_get q.1 a = devs_get ini.1 a /\
  probes a (trace q.2) = probes a (trace ini.2) /\
  results_for a (out q.2) = [] /\
  probes a (trace final) = probes a (trace rd.2) /\
  results_for a (out final) = results_for a (out rd.2).
Proof.
  intros Ha Hfile p q ini rd final.
  destruct (Adt74x0_view_init a Ha) as [Hp Hini]. fold p in Hp, Hini.
  fold ini in Hini.
  destruct (Adt74x0_view_read a Ha) as (Hq1 & Hq2 & Hq3 & Hrd).
  fold q in Hq1, Hq2, Hq3, Hrd. fold rd in Hrd.
  apply view_eq in Hini, Hrd.
  destruct Hini as (Hi1 & Hi2 & _). destruct Hrd as (_ & Hr2 & Hr3).
  assert (Hp1 : devs_get p.1 a
                = if (0x48 <=? a) && (a <=? 0x4b) then 1 else 0)
    by (unfold view in Hp; congruence).
  assert (Hp2 : probes a (trace p.2) = [])
    by (unfold view in Hp; congruence).
  subst final. rewrite Adt74x0_main_run, Hfile.
  cbn [snd]. rewrite issue_out, issue_probes by reflexivity.
  repeat split; try assumption.
  - rewrite Hq1. exact Hi1.
  - rewrite Hq2. exact Hi2.
Qed.

End Adt74x0_run.

(** ** The run of [main] in adt74x0b.c *)

Section Adt74x0b_run.

Variable DEBUG : bool.
Variable respond : transport.
Variable argv : list string.

Let begun : world := (Adt74x0b.start respond world0).2.

Lemma Adt74x0b_at_init_eq (i : Z) :
  Adt74x0b.at_init DEBUG respond i
  = for_each (seqZ 0x48 (i - 0x48)) (Adt74x0b.init_body DEBUG respond)
      Adt74x0b.mark_devs begun.
Proof. unfold Adt74x0b.at_init, bind, begun. reflexivity. Qed.

Lemma Adt74x0b_at_read_eq (i : Z) :
  Adt74x0b.at_read DEBUG respond i
  = for_each (seqZ 0 i) (Adt74x0b.read_body respond)
      (Adt74x0b.devs_after_init DEBUG respond)
      (issue respond (Bcm2835_delay 1000)
         (Adt74x0b.at_init DEBUG respond (0x4b + 1)).2).2.
Proof.
  unfold Adt74x0b.at_read, Adt74x0b.devs_after_init, Adt74x0b.at_init,
    Adt74x0b.init_pass, bind.
  reflexivity.
Qed.

(** What [main] does, from the state of its second loop. *)
Lemma Adt74x0b_main_run :
  Adt74x0b.main DEBUG respond argv world0
  = (0, (issue respond Bcm2835_close
           (issue respond Bcm2835_i2c_end
              (Adt74x0b.at_read DEBUG respond I2C_ADDRS).2).2).2).
Proof.
  unfold Adt74x0b.main, Adt74x0b.at_read, Adt74x0b.init_pass,
    Adt74x0b.read_pass, Adt74x0b.start.
  unfold bind, ret. reflexivity.
Qed.

Lemma Adt74x0b_read_keeps_devs (range : list Z) (s : list Z) (w : world) :
  (for_each range (Adt74x0b.read_body respond) s w).1 = s.
Proof.
  apply (for_each_inv (fun s' _ => s' = s)); [| reflexivity].
  intros i s' w' _ ->. unfold Adt74x0b.read_body.
  destruct (devs_get s i =? 0); reflexivity.
Qed.

Lemma Adt74x0b_view_begun (a : Z) :
  0 <= a < I2C_ADDRS ->
  view a (Adt74x0b.mark_devs, begun) = (-1, [], []).
Proof.
  intros Ha. unfold view. cbn [fst snd].
  rewrite Adt74x0b_mark_devs_get by exact Ha. reflexivity.
Qed.

(** Address [a] in the initialization loop. *)
Lemma Adt74x0b_view_init (a : Z) :
  0x48 <= a <= 0x4b ->
  let p := Adt74x0b.at_init DEBUG respond a in
  view a p = (-1, [], []) /\
  view a (Adt74x0b.at_init DEBUG respond (0x4b + 1))
  = view a (Adt74x0b.init_body DEBUG respond a p.1 p.2).
Proof.
  intros Ha p. subst p. rewrite !Adt74x0b_at_init_eq.
  rewrite <- (Adt74x0b_view_begun a) by (unfold I2C_ADDRS; lia).
  apply (loop_view (Adt74x0b.init_body DEBUG respond) 0x48
           (0x4b + 1 - 0x48) a).
  - intros. apply Adt74x0b_init_body_touches. lia.
  - lia.
  - lia.
Qed.

(** An address the initialization loop does not reach. *)
Lemma Adt74x0b_view_init_out (a : Z) :
  0 <= a < I2C_ADDRS -> ~ 0x48 <= a <= 0x4b ->
  view a (Adt74x0b.at_init DEBUG respond (0x4b + 1)) = (-1, [], []).
Proof.
  intros Ha Hout. rewrite Adt74x0b_at_init_eq.
  rewrite <- (Adt74x0b_view_begun a) by exact Ha.
  apply loop_view_out.
  - intros. apply Adt74x0b_init_body_touches. lia.
  - lia.
  - lia.
  - lia.
Qed.

(** The initialization writes no result line. *)
Lemma Adt74x0b_init_body_results (i a : Z) (s : list Z) (w : world) :
  results_for a (out (Adt74x0b.init_body DEBUG respond i s w).2)
  = results_for a (out w).
Proof.
  unfold Adt74x0b.init_body, Adt74x0b.init_adt74x0.
  destruct DEBUG; exec; rewrite ?results_for_app, ?app_nil_r; reflexivity.
Qed.

Lemma Adt74x0b_init_results (i a : Z) :
  results_for a (out (Adt74x0b.at_init DEBUG respond i).2) = [].
Proof.
  rewrite Adt74x0b_at_init_eq.
  apply (for_each_inv (fun _ w => results_for a (out w) = []));
    [| reflexivity].
  intros j s w _ Hw. rewrite Adt74x0b_init_body_results. exact Hw.
Qed.

(** Address [a] in the loop that gets the results. *)
Lemma Adt74x0b_view_read (a : Z) :
  0 <= a < I2C_ADDRS ->
  let q := Adt74x0b.at_read DEBUG respond a in
  q.1 = Adt74x0b.devs_after_init DEBUG respond /\
  probes a (trace q.2)
  = probes a (trace (Adt74x0b.at_init DEBUG respond (0x4b + 1)).2) /\
  results_for a (out q.2) = [] /\
  view a (Adt74x0b.at_read DEBUG respond I2C_ADDRS)
  = view a (Adt74x0b.read_body respond a q.1 q.2).
Proof.
  intros Ha q. subst q. rewrite !Adt74x0b_at_read_eq.
  set (devs := Adt74x0b.devs_after_init DEBUG respond).
  set (w := (issue respond (Bcm2835_delay 1000) _).2).
  pose proof (loop_view (Adt74x0b.read_body respond) 0 I2C_ADDRS
                a devs w) as Hview.
  rewrite Z.sub_0_r in Hview.
  destruct Hview as [Hpre Hat];
    [intros; apply Adt74x0b_read_body_touches; unfold I2C_ADDRS in *; lia
    | lia | lia |].
  split; [apply Adt74x0b_read_keeps_devs |].
  apply view_eq in Hpre. cbn [fst snd] in Hpre.
  destruct Hpre as (_ & Hprobes & Hresults).
  split; [| split; [| exact Hat]].
  - rewrite Hprobes. subst w. apply issue_probes. reflexivity.
  - rewrite Hresults. subst w. rewrite issue_out.
    apply Adt74x0b_init_results.
Qed.

(** What concerns a candidate address [a] at the end of [main]. *)
Lemma Adt74x0b_summary (a : Z) :
  0x48 <= a <= 0x4b ->
  let p := Adt74x0b.at_init DEBUG respond a in
  let q := Adt74x0b.at_read DEBUG respond a in
  let ini := Adt74x0b.init_body DEBUG respond a p.1 p.2 in
  let rd := Adt74x0b.read_body respond a q.1 q.2 in
  let final := (Adt74x0b.main DEBUG respond argv world0).2 in
  probes a (trace p.2) = [] /\
  devs_get q.1 a = devs_get ini.1 a /\
  probes a (trace q.2) = probes a (trace ini.2) /\
  results_for a (out q.2) = [] /\
  probes a (trace final) = probes a (trace rd.2) /\
  results_for a (out final) = results_for a (out rd.2).
Proof.
  intros Ha p q ini rd final.
  destruct (Adt74x0b_view_init a Ha) as [Hp Hini]. fold p in Hp, Hini.
  fold ini in Hini.
  destruct (Adt74x0b_view_read a) as (Hq1 & Hq2 & Hq3 & Hrd);
    [unfold I2C_ADDRS; lia |].
  fold q in Hq1, Hq2, Hq3, Hrd. fold rd in Hrd.
  apply view_eq in Hini, Hrd.
  destruct Hini as (Hi1 & Hi2 & _). destruct Hrd as (_ & Hr2 & Hr3).
  assert (Hp2 : probes a (trace p.2) = [])
    by (unfold view in Hp; congruence).
  subst final. rewrite Adt74x0b_main_run.
  cbn [snd]. rewrite !issue_out, !issue_probes by reflexivity.
  repeat split; try assumption.
  - rewrite Hq1. exact Hi1.
  - rewrite Hq2. exact Hi2.
Qed.

End Adt74x0b_run.

(* ================================================================= *)
(** * The properties of the specification *)

(** ** Temperature decoding *)

Lemma celsius_spec_value (high low : Z) :
  0 <= high < 256 -> 0 <= low < 256 ->
  celsius_spec high low = div128 (to_int16 (high * 256 + low)).
Proof.
  intros Hh Hl. unfold celsius_spec.
  rewrite lor_shiftl8 by exact Hl.
  rewrite <- to_int16_signed16 by lia. symmetry. apply div128_value.
Qed.

(** C1. For every pair of wire bytes [high], [low] that the read of the
    temperature register returns, the decoded temperature is
    [signed16(high<<8 | low) / 128.0]: for the decoding of both programs,
    and for the value [read_adt74x0] stores when the transfer succeeds.  In
    particular the pairs (0x00, 0x80), (0xff, 0x80) and (0x19, 0x00) decode
    to 1, -1 and 50 degrees. *)
Theorem temperature_decode_correct :
  (forall high low : Z,
     0 <= high < 256 -> 0 <= low < 256 ->
     Adt74x0.decode (smbus_word high low) = celsius_spec high low /\
     Adt74x0b.decode
       (Adt74x0b.received Adt74x0b.buff_decl 2 (Resp 0 [high; low]))
     = celsius_spec high low /\
     (forall respond file addr temp w,
        let sel := issue respond (Ioctl_I2C_SLAVE file addr) w in
        (code sel.1 <? 0) = false ->
        code (issue respond (I2c_smbus_read_word_data file T_MSB) sel.2).1
        = smbus_word high low ->
        (Adt74x0.read_adt74x0 respond file addr temp w).1
        = (0, Some (celsius_spec high low))) /\
     (forall respond addr temp w,
        let sel := issue respond (Bcm2835_i2c_setSlaveAddress addr) w in
        let rd :=
          (issue respond (Bcm2835_i2c_read_register_rs T_MSB 2) sel.2).1 in
        to_uint8 (code rd) = 0 -> take 2 (data rd) = [high; low] ->
        (Adt74x0b.read_adt74x0 respond addr temp w).1
        = (0, Some (celsius_spec high low)))) /\
  (Adt74x0.decode (smbus_word 0x00 0x80) = 1%Q /\
   Adt74x0.decode (smbus_word 0xff 0x80) = (-1)%Q /\
   Adt74x0.decode (smbus_word 0x19 0x00) = 50%Q) /\
  (Adt74x0b.decode [0x00; 0x80; 0; 0] = 1%Q /\
   Adt74x0b.decode [0xff; 0x80; 0; 0] = (-1)%Q /\
   Adt74x0b.decode [0x19; 0x00; 0; 0] = 50%Q).
Proof.
  split; [| split; vm_compute; auto].
  intros high low Hh Hl.
  assert (Hk : Adt74x0.decode (smbus_word high low) = celsius_spec high low)
    by (rewrite Adt74x0_decode_word, celsius_spec_value by assumption;
        reflexivity).
  assert (Hb : forall c,
             Adt74x0b.decode
               (Adt74x0b.received Adt74x0b.buff_decl 2 (Resp c [high; low]))
             = celsius_spec high low)
    by (intros c;
        rewrite Adt74x0b_received_two, Adt74x0b_decode_buff,
          celsius_spec_value by assumption;
        reflexivity).
  split; [exact Hk |]. split; [apply Hb |]. split.
  - intros respond file addr temp w sel Hsel Hword.
    unfold Adt74x0.read_adt74x0. unfold bind at 1. fold sel.
    rewrite Hsel. unfold bind at 1. rewrite Hword.
    destruct (Z.ltb_spec (smbus_word high low) 0) as [Hneg | _].
    + rewrite smbus_word_value in Hneg by assumption. lia.
    + unfold ret. cbn [fst]. rewrite Hk. reflexivity.
  - intros respond addr temp w sel rd Hcode Hdata.
    unfold Adt74x0b.read_adt74x0. unfold bind at 1. fold sel.
    unfold bind at 1. fold rd. rewrite Hcode. cbn [Z.eqb negb].
    unfold ret. cbn [fst]. rewrite <- (Hb 0).
    unfold Adt74x0b.received. cbn [data]. rewrite Hdata. reflexivity.
Qed.

Lemma temperature_decode_correct_witness :
  (0 <= 0x19 < 256 /\ 0 <= 0x00 < 256) /\
  Adt74x0.decode (smbus_word 0x19 0x00) = celsius_spec 0x19 0x00.
Proof.
  split; [lia |].
  apply (proj1 temperature_decode_correct 0x19 0x00); lia.
Defined.

(** C9. The decoders of the two programs agree: for wire bytes [msb] then
    [lsb], the kernel variant applied to the SMBus word [lsb<<8 | msb] and
    the bcm2835 variant applied to the buffer [msb, lsb, ...] compute the
    same double. *)
Theorem decoders_agree (msb lsb : Z) (rest : list Z) :
  0 <= msb < 256 -> 0 <= lsb < 256 ->
  Adt74x0.decode (Z.lor (Z.shiftl lsb 8) msb)
  = Adt74x0b.decode (msb :: lsb :: rest).
Proof.
  intros Hm Hl. rewrite Z.lor_comm. fold (smbus_word msb lsb).
  rewrite Adt74x0_decode_word, Adt74x0b_decode_buff by assumption.
  reflexivity.
Qed.

Lemma decoders_agree_witness :
  (0 <= 0xff < 256 /\ 0 <= 0x80 < 256) /\
  Adt74x0.decode (Z.lor (Z.shiftl 0x80 8) 0xff)
  = Adt74x0b.decode [0xff; 0x80; 0; 0].
Proof.
  split; [lia |]. apply (decoders_agree 0xff 0x80 [0; 0]); lia.
Defined.

(** C10. [read_adt74x0] returns 0 or a negative code, in both programs.
    When it returns a negative code the caller's [temp] keeps the content it
    had; when it returns 0 the decoded temperature has been stored in
    it. *)
Theorem read_leaves_temp_on_error :
  (forall respond file addr temp w,
     let r := (Adt74x0.read_adt74x0 respond file addr temp w).1 in
     (r.1 < 0 /\ r.2 = temp) \/ (r.1 = 0 /\ exists t, r.2 = Some t)) /\
  (forall respond addr temp w,
     let r := (Adt74x0b.read_adt74x0 respond addr temp w).1 in
     (r.1 < 0 /\ r.2 = temp) \/ (r.1 = 0 /\ exists t, r.2 = Some t)).
Proof.
  split.
  - intros respond file addr temp w.
    unfold Adt74x0.read_adt74x0. exec; cbn; eauto with lia.
  - intros respond addr temp w.
    unfold Adt74x0b.read_adt74x0. exec; cbn; [eauto |].
    left. split; [| reflexivity].
    pose proof (to_uint8_range
                  (code (respond (trace w ++
                     [Event (Some addr) (Bcm2835_i2c_setSlaveAddress addr)
                        (respond (trace w) (Some addr)
                           (Bcm2835_i2c_setSlaveAddress addr))])
                     (Some addr) (Bcm2835_i2c_read_register_rs T_MSB 2)))).
    lia.
Qed.

(** ** The window of addresses *)

Lemma in_window_at_addr (i : Z) (w w' : world) :
  window i -> at_addr i w w' -> in_window (trace w) -> in_window (trace w').
Proof.
  intros Hi (evs & ls & Ht & _ & Hev & _) Hw. unfold in_window.
  rewrite Ht. apply Forall_app. split; [exact Hw |].
  eapply Forall_impl; [exact Hev |]. intros e He Hbus. eauto.
Qed.

Lemma in_window_probes (a : Z) (t : list event) :
  in_window t -> ~ window a -> probes a t = [].
Proof.
  intros Ht Ha. unfold probes. apply filter_none.
  eapply Forall_impl; [exact Ht |].
  intros e He [Hbus Htgt]. destruct (He Hbus) as (b & Hb & Hwin).
  congruence.
Qed.

Lemma in_window_issue (respond : transport) (c : call) (w : world) :
  bus_op c = false -> in_window (trace w) ->
  in_window (trace (issue respond c w).2).
Proof.
  intros Hc Hw. rewrite issue_trace. apply Forall_app. split; [exact Hw |].
  constructor; [| constructor]. cbn. congruence.
Qed.

Lemma window_inv_step (live : Z -> Prop) (i : Z) (s : list Z) (w : world)
    (r : list Z * world) :
  0 <= i < I2C_ADDRS ->
  touches i s w r -> window i \/ r = (s, w) ->
  window_inv live s w -> window_inv live r.1 r.2.
Proof.
  intros Hi [Hat Hdevs] [Hwin | ->] [Hw Hlive]; [| split; assumption].
  split; [eapply in_window_at_addr; eassumption |].
  intros j Hj. destruct Hdevs as [-> | [v ->]]; [auto |].
  destruct (Z.eq_dec j i) as [-> | Hne]; [auto |].
  rewrite devs_get_set_ne by lia. auto.
Qed.

Lemma Adt74x0_window_inv GOOD respond argv :
  in_window (trace (Adt74x0.main GOOD respond argv world0).2).
Proof.
  assert (Hopen : in_window (trace (Adt74x0.start respond argv world0).2))
    by (repeat constructor; cbn; congruence).
  rewrite Adt74x0_main_run.
  destruct (_ <? 0); cbn [snd trace]; [exact Hopen |].
  apply in_window_issue; [reflexivity |].
  rewrite Adt74x0_at_read_eq.
  apply (for_each_inv (window_inv (fun v => 0 < v))).
  - intros i s w Hi Hinv. apply In_seqZ in Hi.
    apply (window_inv_step _ i s w);
      [lia | apply Adt74x0_read_body_touches | | exact Hinv].
    unfold Adt74x0.read_body.
    destruct (Z.leb_spec (devs_get s i) 0); [now right | left].
    apply Hinv; lia.
  - split; [apply in_window_issue; [reflexivity |] |];
      unfold Adt74x0.devs_after_init; rewrite Adt74x0_at_init_eq;
      apply (for_each_inv (window_inv (fun v => 0 < v)));
      try (split; [exact Hopen |];
           intros j Hj; rewrite Adt74x0_mark_devs_get by exact Hj;
           unfold window; destruct (Z.leb_spec 0x48 j), (Z.leb_spec j 0x4b);
           cbn; lia);
      intros i s w Hi Hinv; apply In_seqZ in Hi;
      (apply (window_inv_step _ i s w);
         [lia | apply Adt74x0_init_body_touches | | exact Hinv]);
      unfold Adt74x0.init_body;
      (destruct (Z.leb_spec (devs_get s i) 0); [now right | left]);
      apply Hinv; lia.
Qed.

Lemma Adt74x0b_window_inv DEBUG respond argv :
  in_window (trace (Adt74x0b.main DEBUG respond argv world0).2).
Proof.
  assert (Hbegun : in_window (trace (Adt74x0b.start respond world0).2))
    by (repeat constructor; cbn; congruence).
  assert (Hinit : window_inv (fun v => v = 0)
                    (Adt74x0b.at_init DEBUG respond (0x4b + 1)).1
                    (Adt74x0b.at_init DEBUG respond (0x4b + 1)).2).
  { rewrite Adt74x0b_at_init_eq.
    apply (for_each_inv (window_inv (fun v => v = 0))).
    - intros j s w Hj Hinv. apply In_seqZ in Hj.
      assert (Hwin : window j) by (unfold window; lia).
      unfold window in Hwin.
      apply (window_inv_step _ j s w);
        [unfold I2C_ADDRS; lia
        | apply Adt74x0b_init_body_touches; lia | now left | exact Hinv].
    - split; [exact Hbegun |].
      intros j Hj. rewrite Adt74x0b_mark_devs_get by exact Hj. lia. }
  rewrite Adt74x0b_main_run. cbn [snd].
  do 2 (apply in_window_issue; [reflexivity |]).
  rewrite Adt74x0b_at_read_eq.
  apply (for_each_inv (window_inv (fun v => v = 0))).
  - intros i s w Hi Hinv. apply In_seqZ in Hi.
    apply (window_inv_step _ i s w);
      [lia
      | apply Adt74x0b_read_body_touches; unfold I2C_ADDRS in *; lia
      | | exact Hinv].
    unfold Adt74x0b.read_body.
    destruct (Z.eqb_spec (devs_get s i) 0); cbn [negb]; [left | now right].
    apply Hinv; [lia | assumption].
  - destruct Hinit as [Hw Hlive].
    split; [apply in_window_issue; [reflexivity | exact Hw] | exact Hlive].
Qed.

(** C2. Neither program ever issues a bus operation (selection of the
    device, write or read) directed at an address outside the window
    0x48..0x4b, whatever the transport answers. *)
Theorem address_window_invariant (a : Z) :
  ~ (0x48 <= a <= 0x4b) ->
  (forall GOOD respond argv,
     probes a (trace (Adt74x0.main GOOD respond argv world0).2) = []) /\
  (forall DEBUG respond argv,
     probes a (trace (Adt74x0b.main DEBUG respond argv world0).2) = []).
Proof.
  intros Ha. split; intros flag respond argv.
  - apply in_window_probes; [apply Adt74x0_window_inv | exact Ha].
  - apply in_window_probes; [apply Adt74x0b_window_inv | exact Ha].
Qed.

Lemma address_window_invariant_witness :
  ~ (0x48 <= 0x47 <= 0x4b) /\
  probes 0x47 (trace (Adt74x0.main true quiet [] world0).2) = [].
Proof.
  assert (Hout : ~ (0x48 <= 0x47 <= 0x4b)) by lia.
  split; [exact Hout |].
  exact (proj1 (address_window_invariant 0x47 Hout) true quiet []).
Defined.

(** ** What the loop bodies do at their address *)

Lemma touches_length (i : Z) (s : list Z) (w : world) (r : list Z * world) :
  touches i s w r -> length r.1 = length s.
Proof.
  intros [_ [-> | [v ->]]]; [reflexivity | apply devs_set_length].
Qed.

Lemma Adt74x0_at_init_length GOOD respond argv i :
  length (Adt74x0.at_init GOOD respond argv i).1 = Z.to_nat I2C_ADDRS.
Proof.
  rewrite Adt74x0_at_init_eq.
  apply (for_each_inv (fun s _ => length s = Z.to_nat I2C_ADDRS));
    [| apply Adt74x0_mark_devs_length].
  intros j s w _ Hs. rewrite <- Hs.
  apply (touches_length j s w), Adt74x0_init_body_touches.
Qed.

Lemma Adt74x0b_at_init_length DEBUG respond i :
  length (Adt74x0b.at_init DEBUG respond i).1 = Z.to_nat I2C_ADDRS.
Proof.
  rewrite Adt74x0b_at_init_eq.
  apply (for_each_inv (fun s _ => length s = Z.to_nat I2C_ADDRS));
    [| apply Adt74x0b_mark_devs_length].
  intros j s w _ Hs. rewrite <- Hs.
  unfold Adt74x0b.init_body, bind, ret. cbn [fst snd].
  destruct DEBUG; cbn [fst snd]; apply devs_set_length.
Qed.

(** The codes [init_adt74x0] returns. *)
Lemma Adt74x0_init_codes GOOD respond file a w :
  In (Adt74x0.init_adt74x0 GOOD respond file a w).1 [0; -1; -2; -3; -4; -5].
Proof.
  unfold Adt74x0.init_adt74x0, Adt74x0.init_configure.
  destruct GOOD; exec; cbn; tauto.
Qed.

Lemma Adt74x0b_init_codes respond a w :
  -318 <= (Adt74x0b.init_adt74x0 respond a w).1 <= 0.
Proof.
  unfold Adt74x0b.init_adt74x0. exec; cbn [fst]; try lia;
    match goal with
    | |- context [to_uint8 ?x] => pose proof (to_uint8_range x); lia
    end.
Qed.

(** The body of the first loop of adt74x0.c at a live address: the status
    is recorded when it is negative. *)
Lemma Adt74x0_init_body_live GOOD respond file a s w :
  0 <= a < Z.of_nat (length s) -> 0 < devs_get s a ->
  let run := Adt74x0.init_adt74x0 GOOD respond file a w in
  (Adt74x0.init_body GOOD respond file a s w).2 = run.2 /\
  devs_get (Adt74x0.init_body GOOD respond file a s w).1 a
  = if run.1 <? 0 then run.1 else devs_get s a.
Proof.
  intros Ha Hlive run. unfold Adt74x0.init_body.
  destruct (Z.leb_spec (devs_get s a) 0) as [Hle | _]; [lia |].
  unfold bind. fold run.
  pose proof (Adt74x0_init_codes GOOD respond file a w) as Hcodes.
  fold run in Hcodes.
  destruct (run.1 <? 0); cbn [ret fst snd]; [| tauto].
  split; [reflexivity |].
  rewrite devs_get_set_eq by exact Ha. apply to_int8_small.
  cbn in Hcodes. lia.
Qed.

(** The body of the first loop of adt74x0b.c: the status is recorded, as an
    [int8_t]. *)
Lemma Adt74x0b_init_body_live DEBUG respond a s w :
  0 <= a < 256 -> a < Z.of_nat (length s) ->
  let run := Adt74x0b.init_adt74x0 respond a w in
  probes a (trace (Adt74x0b.init_body DEBUG respond a s w).2)
  = probes a (trace run.2) /\
  devs_get (Adt74x0b.init_body DEBUG respond a s w).1 a = to_int8 run.1.
Proof.
  intros Ha Hlen run. unfold Adt74x0b.init_body.
  rewrite to_uint8_small by exact Ha. unfold bind at 1. fold run.
  destruct DEBUG; run_monad; (split; [reflexivity |]);
    apply devs_get_set_eq; lia.
Qed.

(** A loop body at an address that is not live does nothing. *)
Lemma Adt74x0_read_body_idle respond file a s w :
  devs_get s a <= 0 -> Adt74x0.read_body respond file a s w = (s, w).
Proof.
  intros Hle. unfold Adt74x0.read_body.
  destruct (Z.leb_spec (devs_get s a) 0); [reflexivity | lia].
Qed.

Lemma Adt74x0b_read_body_idle respond a s w :
  devs_get s a <> 0 -> Adt74x0b.read_body respond a s w = (s, w).
Proof.
  intros Hne. unfold Adt74x0b.read_body.
  destruct (Z.eqb_spec (devs_get s a) 0); [contradiction | reflexivity].
Qed.

Lemma Adt74x0_read_body_live respond file a s w :
  0 < devs_get s a ->
  let run := Adt74x0.read_adt74x0 respond file a None w in
  trace (Adt74x0.read_body respond file a s w).2 = trace run.2 /\
  out (Adt74x0.read_body respond file a s w).2
  = out run.2 ++ [result_line a run.1].
Proof.
  intros Hlive run. unfold Adt74x0.read_body.
  destruct (Z.leb_spec (devs_get s a) 0) as [Hle | _]; [lia |].
  subst run. unfold bind, ret, printf, result_line.
  match goal with |- context [if ?c then _ else _] => destruct c end;
    cbn [fst snd trace out]; split; reflexivity.
Qed.

Lemma Adt74x0b_read_body_live respond a s w :
  0 <= a < 256 -> devs_get s a = 0 ->
  let run := Adt74x0b.read_adt74x0 respond a None w in
  trace (Adt74x0b.read_body respond a s w).2 = trace run.2 /\
  out (Adt74x0b.read_body respond a s w).2
  = out run.2 ++ [result_line a run.1].
Proof.
  intros Ha Hlive run. unfold Adt74x0b.read_body.
  rewrite to_uint8_small by exact Ha.
  destruct (Z.eqb_spec (devs_get s a) 0) as [_ | Hne]; [| contradiction].
  cbn [negb]. subst run. unfold bind, ret, printf, result_line.
  match goal with |- context [if ?c then _ else _] => destruct c end;
    cbn [fst snd trace out]; split; reflexivity.
Qed.

(** [read_adt74x0] writes no line, and stores a temperature when it returns
    0. *)
Lemma Adt74x0_read_result respond file a w :
  let run := Adt74x0.read_adt74x0 respond file a None w in
  out run.2 = out w /\
  ((run.1.1 = -1 \/ run.1.1 = -6) \/
   run.1.1 = 0 /\ exists t, run.1.2 = Some t).
Proof.
  unfold Adt74x0.read_adt74x0. exec; cbn; eauto.
Qed.

Lemma Adt74x0b_read_result respond a w :
  let run := Adt74x0b.read_adt74x0 respond a None w in
  out run.2 = out w /\
  ((exists reason, 0 < reason < 256 /\ run.1.1 = - (0x40 + reason)) \/
   run.1.1 = 0 /\ exists t, run.1.2 = Some t).
Proof.
  unfold Adt74x0b.read_adt74x0. exec; cbn [fst snd]; (split; [reflexivity |]);
    [right; eauto |].
  left. eexists. split; [| reflexivity].
  match goal with
  | H : (to_uint8 ?x =? 0) = false |- _ =>
      pose proof (to_uint8_range x); apply Z.eqb_neq in H; lia
  end.
Qed.

(** ** Result lines *)

Lemma results_for_result_line (a : Z) (r : Z * option double) :
  results_for a [result_line a r] = [result_line a r].
Proof.
  unfold results_for, result_line.
  destruct (r.1 <? 0); rewrite filter_cons_True by reflexivity; reflexivity.
Qed.

Lemma window_range (a : Z) : window a -> 0 <= a < I2C_ADDRS.
Proof. unfold window, I2C_ADDRS. lia. Qed.

Lemma window_test (a : Z) :
  window a -> (0x48 <=? a) && (a <=? 0x4b) = true.
Proof.
  unfold window. intros Ha. apply andb_true_iff. split; apply Z.leb_le; lia.
Qed.

(** The result lines of adt74x0.c for a candidate address, from the status
    of its initialization. *)
Lemma Adt74x0_result_lines GOOD respond argv a :
  window a -> ((Adt74x0.start respond argv world0).1 <? 0) = false ->
  let file := (Adt74x0.start respond argv world0).1 in
  let stat := (Adt74x0.init_adt74x0 GOOD respond file a
                 (Adt74x0.at_init GOOD respond argv a).2).1 in
  let q := Adt74x0.at_read GOOD respond argv a in
  let lines :=
    results_for a (out (Adt74x0.main GOOD respond argv world0).2) in
  devs_get (Adt74x0.devs_after_init GOOD respond argv) a
  = (if stat <? 0 then stat else 1) /\
  lines = if stat <? 0 then []
          else [result_line a
                  (Adt74x0.read_adt74x0 respond file a None q.2).1].
Proof.
  intros Hwin Hfile file stat q lines.
  pose proof (window_range a Hwin) as Ha.
  destruct (Adt74x0_summary GOOD respond argv a Ha Hfile)
    as (Hp1 & _ & Hq1 & _ & Hq3 & _ & Hf2).
  rewrite window_test in Hp1 by exact Hwin.
  destruct (Adt74x0_init_body_live GOOD respond file a
              (Adt74x0.at_init GOOD respond argv a).1
              (Adt74x0.at_init GOOD respond argv a).2) as [_ Hdevs].
  { rewrite Adt74x0_at_init_length. unfold I2C_ADDRS in *. lia. }
  { rewrite Hp1. lia. }
  fold file in Hq1, Hf2. fold q in Hq1, Hq3, Hf2. fold stat in Hdevs.
  rewrite Hp1 in Hdevs. rewrite Hdevs in Hq1.
  destruct (Adt74x0_view_read GOOD respond argv a Ha) as (Hdevs_q & _).
  fold q in Hdevs_q. rewrite <- Hdevs_q. split; [exact Hq1 |].
  subst lines. rewrite Hf2.
  destruct (Z.ltb_spec stat 0) as [Hneg | Hpos].
  - rewrite Adt74x0_read_body_idle by lia. exact Hq3.
  - destruct (Adt74x0_read_body_live respond file a q.1 q.2) as [_ Hout];
      [lia |].
    rewrite Hout.
    rewrite (proj1 (Adt74x0_read_result respond file a q.2)).
    rewrite results_for_app, Hq3. apply results_for_result_line.
Qed.

(** The same for adt74x0b.c, where the status is recorded as an [int8_t]
    and 0 marks the initialized addresses. *)
Lemma Adt74x0b_result_lines DEBUG respond argv a :
  window a ->
  let stat := (Adt74x0b.init_adt74x0 respond a
                 (Adt74x0b.at_init DEBUG respond a).2).1 in
  let q := Adt74x0b.at_read DEBUG respond a in
  let lines :=
    results_for a (out (Adt74x0b.main DEBUG respond argv world0).2) in
  devs_get (Adt74x0b.devs_after_init DEBUG respond) a = to_int8 stat /\
  lines = if to_int8 stat =? 0
          then [result_line a (Adt74x0b.read_adt74x0 respond a None q.2).1]
          else [].
Proof.
  intros Hwin stat q lines.
  pose proof (window_range a Hwin) as Ha. unfold window in Hwin.
  destruct (Adt74x0b_summary DEBUG respond argv a Hwin)
    as (_ & Hq1 & _ & Hq3 & _ & Hf2).
  destruct (Adt74x0b_init_body_live DEBUG respond a
              (Adt74x0b.at_init DEBUG respond a).1
              (Adt74x0b.at_init DEBUG respond a).2) as [_ Hdevs].
  { lia. }
  { rewrite Adt74x0b_at_init_length. unfold I2C_ADDRS in *. lia. }
  fold q in Hq1, Hq3, Hf2. fold stat in Hdevs. rewrite Hdevs in Hq1.
  destruct (Adt74x0b_view_read DEBUG respond a Ha) as (Hdevs_q & _).
  fold q in Hdevs_q. rewrite <- Hdevs_q. split; [exact Hq1 |].
  subst lines. rewrite Hf2.
  destruct (Z.eqb_spec (to_int8 stat) 0) as [Hzero | Hne].
  - destruct (Adt74x0b_read_body_live respond a q.1 q.2) as [_ Hout];
      [lia | congruence |].
    rewrite Hout.
    rewrite (proj1 (Adt74x0b_read_result respond a q.2)).
    rewrite results_for_app, Hq3. apply results_for_result_line.
  - rewrite Adt74x0b_read_body_idle by congruence. exact Hq3.
Qed.

Lemma result_line_form (a : Z) (r : Z * option double) :
  r.1 < 0 \/ r.1 = 0 /\ (exists t, r.2 = Some t) ->
  result_form a (result_line a r).
Proof.
  unfold result_form, result_line.
  intros [Hneg | [Hzero [t Ht]]].
  - left. exists r.1. destruct (Z.ltb_spec r.1 0); [auto | lia].
  - right. exists t. rewrite Hzero, Ht. cbn. auto.
Qed.




Lemma result_line_temp (a : Z) (t : option double) :
  result_line a (0, t) = Temp_line a t.
Proof. reflexivity. Qed.




(** ** Error lines and the transcript *)
















(** ** Fatal and per-address failures *)





(** ** The bus operations at a candidate address *)

(** adt74x0.c: the bus operations directed at a candidate address [a] are
    those of its initialization, followed by those of its read when the
    initialization succeeded. *)
Lemma Adt74x0_probes_final GOOD respond argv a :
  window a -> ((Adt74x0.start respond argv world0).1 <? 0) = false ->
  let file := (Adt74x0.start respond argv world0).1 in
  let p := Adt74x0.at_init GOOD respond argv a in
  let q := Adt74x0.at_read GOOD respond argv a in
  let ini := Adt74x0.init_adt74x0 GOOD respond file a p.2 in
  probes a (trace p.2) = [] /\
  probes a (trace q.2) = probes a (trace ini.2) /\
  probes a (trace (Adt74x0.main GOOD respond argv world0).2)
  = if ini.1 <? 0 then probes a (trace ini.2)
    else probes a (trace (Adt74x0.read_adt74x0 respond file a None q.2).2).
Proof.
  intros Hwin Hfile file p q ini.
  pose proof (window_range a Hwin) as Ha.
  destruct (Adt74x0_summary GOOD respond argv a Ha Hfile)
    as (Hp1 & Hp2 & Hq1 & Hq2 & _ & Hf1 & _).
  rewrite window_test in Hp1 by exact Hwin.
  destruct (Adt74x0_init_body_live GOOD respond file a p.1 p.2)
    as [Hworld Hdevs].
  { subst p. rewrite Adt74x0_at_init_length. unfold I2C_ADDRS in *. lia. }
  { subst p. rewrite Hp1. lia. }
  fold file p in Hq1, Hq2, Hp1, Hp2. fold q in Hq1, Hq2, Hf1.
  fold file in Hf1. fold ini in Hworld, Hdevs.
  rewrite Hworld in Hq2. rewrite Hp1 in Hdevs. rewrite Hdevs in Hq1.
  split; [exact Hp2 |]. split; [exact Hq2 |]. rewrite Hf1.
  destruct (Z.ltb_spec ini.1 0) as [Hneg | Hpos].
  - rewrite Adt74x0_read_body_idle by lia. exact Hq2.
  - destruct (Adt74x0_read_body_live respond file a q.1 q.2) as [Htrace _];
      [lia |].
    rewrite Htrace. reflexivity.
Qed.

(** adt74x0b.c: the same, the initialization having succeeded when the
    status recorded as an [int8_t] is 0. *)
Lemma Adt74x0b_probes_final DEBUG respond argv a :
  window a ->
  let p := Adt74x0b.at_init DEBUG respond a in
  let q := Adt74x0b.at_read DEBUG respond a in
  let ini := Adt74x0b.init_adt74x0 respond a p.2 in
  probes a (trace p.2) = [] /\
  probes a (trace q.2) = probes a (trace ini.2) /\
  probes a (trace (Adt74x0b.main DEBUG respond argv world0).2)
  = if to_int8 ini.1 =? 0
    then probes a (trace (Adt74x0b.read_adt74x0 respond a None q.2).2)
    else probes a (trace ini.2).
Proof.
  intros Hwin p q ini.
  pose proof (window_range a Hwin) as Ha. unfold window in Hwin.
  destruct (Adt74x0b_summary DEBUG respond argv a Hwin)
    as (Hp2 & Hq1 & Hq2 & _ & Hf1 & _).
  destruct (Adt74x0b_init_body_live DEBUG respond a p.1 p.2)
    as [Hworld Hdevs].
  { lia. }
  { subst p. rewrite Adt74x0b_at_init_length. unfold I2C_ADDRS in *. lia. }
  fold p in Hq1, Hq2, Hp2. fold q in Hq1, Hq2, Hf1.
  fold ini in Hworld, Hdevs.
  rewrite Hworld in Hq2. rewrite Hdevs in Hq1.
  split; [exact Hp2 |]. split; [exact Hq2 |]. rewrite Hf1.
  destruct (Z.eqb_spec (to_int8 ini.1) 0) as [Hzero | Hne].
  - destruct (Adt74x0b_read_body_live respond a q.1 q.2) as [Htrace _];
      [lia | congruence |].
    rewrite Htrace. reflexivity.
  - rewrite Adt74x0b_read_body_idle by congruence. exact Hq2.
Qed.

(** ** The steps of the initialization *)

Ltac steps_tac :=
  rewrite <- ?app_assoc; cbn [app];
  rewrite ?drop_app_length, ?drop_all;
  cbn; (split; [eexists; reflexivity |]); split;
  try match goal with
    | |- context [to_uint8 ?x] => pose proof (to_uint8_range x)
    end;
  first [ reflexivity | intros; discriminate | intros; exfalso; lia
        | left; reflexivity | right; lia ].

(** The steps of [init_adt74x0] in adt74x0.c, in their order. *)
Lemma Adt74x0_init_steps GOOD respond file a w :
  let run := Adt74x0.init_adt74x0 GOOD respond file a w in
  let order :=
    [Select; Reset; Settle] ++ (if GOOD then [Verify] else [])
    ++ [Configure] in
  steps (new_events (Adt74x0.init_adt74x0 GOOD respond file a) w)
    `prefix_of` order /\
  (run.1 = 0 ->
   steps (new_events (Adt74x0.init_adt74x0 GOOD respond file a) w) = order) /\
  (run.1 = 0 \/ run.1 < 0).
Proof.
  unfold new_events, Adt74x0.init_adt74x0, Adt74x0.init_configure.
  destruct GOOD; exec; steps_tac.
Qed.

(** The steps of [init_adt74x0] in adt74x0b.c, in their order. *)
Lemma Adt74x0b_init_steps respond a w :
  let run := Adt74x0b.init_adt74x0 respond a w in
  let order := [Select; Reset; Settle; Configure; Verify] in
  steps (new_events (Adt74x0b.init_adt74x0 respond a) w)
    `prefix_of` order /\
  (run.1 = 0 ->
   steps (new_events (Adt74x0b.init_adt74x0 respond a) w) = order) /\
  (run.1 = 0 \/ run.1 < 0).
Proof.
  unfold new_events, Adt74x0b.init_adt74x0. exec; steps_tac.
Qed.

Ltac use_tests :=
  repeat match goal with
    | H : (?x <? 0) = _ |- context [?x <? 0] => rewrite H
    | H : (?x =? ?y) = _ |- context [?x =? ?y] => rewrite H
    end.

Ltac use_tests_in Hf :=
  repeat match goal with
    | H : ?t = _ |- _ =>
        lazymatch t with
        | (_ <? _) => idtac
        | (_ =? _) => idtac
        end;
        tryif constr_eq H Hf then fail else idtac;
        match type of Hf with context [t] => rewrite H in Hf end
    end.

Ltac unfold_steps :=
  cbn [removelast last all_passed forallb step_failed ev_call ev_resp
       fst snd app] in *;
  unfold bcm_id_byte, RESET, CONFIG, IDREG in *.

Ltac outcome_tac :=
  rewrite <- ?app_assoc in *; cbn [app] in *;
  rewrite ?drop_app_length, ?drop_all;
  unfold_steps; use_tests; cbn;
  repeat split; intros;
  repeat match goal with
    | H : _ /\ _ |- _ => destruct H
    | H : exists _, _ |- _ => destruct H
    | H : Some _ = Some _ |- _ => injection H as <-
    end;
  try match goal with
    | Hf : step_failed _ = true |- _ =>
        unfold_steps; use_tests_in Hf; cbn in Hf; discriminate Hf
    end;
  try discriminate; try reflexivity;
  try (eexists; split; [reflexivity |]; unfold_steps; use_tests;
       reflexivity);
  try (repeat match goal with
         | H : (_ <? 0) = true |- _ => apply Z.ltb_lt in H
         | H : (_ <? 0) = false |- _ => apply Z.ltb_ge in H
         | H : (_ =? _) = true |- _ => apply Z.eqb_eq in H
         | H : (_ =? _) = false |- _ => apply Z.eqb_neq in H
         end;
       repeat match goal with
         | H : context [to_uint8 ?x] |- _ =>
             lazymatch goal with
             | _ : 0 <= to_uint8 x < 256 |- _ => fail
             | _ => pose proof (to_uint8_range x)
             end
         end;
       lia).

(** The steps of [init_adt74x0] in adt74x0.c and the answers they got:
    no step but the last failed; the status is 0 exactly when all the steps
    were made and passed, and negative exactly when the last step made
    failed; a negative status stands for the step that failed. *)
Lemma Adt74x0_init_outcome GOOD respond file a w :
  let run := Adt74x0.init_adt74x0 GOOD respond file a w in
  let evs := new_events (Adt74x0.init_adt74x0 GOOD respond file a) w in
  let order :=
    [Select; Reset; Settle] ++ (if GOOD then [Verify] else [])
    ++ [Configure] in
  all_passed (removelast evs) = true /\
  (run.1 = 0 <-> steps evs = order /\ all_passed evs = true) /\
  (run.1 < 0 <->
   exists e, last evs = Some e /\ step_failed e = true) /\
  (run.1 < 0 ->
   exists e, last evs = Some e /\
     step_of (ev_call e) = failed_step_of_status run.1).
Proof.
  unfold new_events, Adt74x0.init_adt74x0, Adt74x0.init_configure.
  destruct GOOD; exec; outcome_tac.
Qed.

(** The same for adt74x0b.c. *)
Lemma Adt74x0b_init_outcome respond a w :
  let run := Adt74x0b.init_adt74x0 respond a w in
  let evs := new_events (Adt74x0b.init_adt74x0 respond a) w in
  let order := [Select; Reset; Settle; Configure; Verify] in
  all_passed (removelast evs) = true /\
  (run.1 = 0 <-> steps evs = order /\ all_passed evs = true) /\
  (run.1 < 0 <->
   exists e, last evs = Some e /\ step_failed e = true).
Proof.
  unfold new_events, Adt74x0b.init_adt74x0.
  exec; outcome_tac.
Qed.

(** C6, as stated, fails for adt74x0b.c: there the device is configured
    before its identity is verified.  With every call succeeding the steps
    of the initialization of 0x48 are: select, reset, settle, configure,
    verify; that is no prefix of the claimed order, with or without the
    optional verification. *)
Lemma initialization_order_counterexample :
  let done :=
    steps (new_events (Adt74x0b.init_adt74x0 quiet 0x48) world0) in
  done = [Select; Reset; Settle; Configure; Verify] /\
  ~ done `prefix_of` [Select; Reset; Settle; Verify; Configure] /\
  ~ done `prefix_of` [Select; Reset; Settle; Configure].
Proof.
  cbv zeta.
  assert (Hdone : steps (new_events (Adt74x0b.init_adt74x0 quiet 0x48) world0)
                  = [Select; Reset; Settle; Configure; Verify])
    by (vm_compute; reflexivity).
  rewrite Hdone. split; [reflexivity |].
  split; intros [k Hk]; discriminate Hk.
Qed.

(** C6, amended.  The initialization of a device performs its steps in a
    fixed order and stops at the first that fails: in adt74x0.c select,
    reset, settle, verify the identity (only with GOOD_I2C_BUS), configure;
    in adt74x0b.c select, reset, settle, configure, verify the identity
    (always).  It returns 0 exactly when all the steps were performed and
    passed, a negative status otherwise.  A step is judged by the answer to
    its call ([step_failed]): no step but the last one made has failed; the
    status is 0 exactly when all the steps of the order were made and none
    failed, and negative exactly when the last step made failed.  For a
    candidate address, a negative
    status is recorded in [devs] and excludes the address from the read
    pass: no further bus operation is directed at it and it gets no result
    line; on success the address keeps the mark of the initialized
    addresses (1 in adt74x0.c, 0 in adt74x0b.c).  (adt74x0.c: when the bus
    could be opened.  adt74x0b.c: for a status that fits the [int8_t] it is
    recorded in.) *)
Theorem initialization_steps_and_record (a : Z) :
  window a ->
  (forall GOOD respond file w,
     let run := Adt74x0.init_adt74x0 GOOD respond file a w in
     let order :=
       [Select; Reset; Settle] ++ (if GOOD then [Verify] else [])
       ++ [Configure] in
     let evs := new_events (Adt74x0.init_adt74x0 GOOD respond file a) w in
     steps (new_events (Adt74x0.init_adt74x0 GOOD respond file a) w)
       `prefix_of` order /\
     (run.1 = 0 ->
      steps (new_events (Adt74x0.init_adt74x0 GOOD respond file a) w)
      = order) /\
     (run.1 = 0 \/ run.1 < 0) /\
     all_passed (removelast evs) = true /\
     (run.1 = 0 <-> steps evs = order /\ all_passed evs = true) /\
     (run.1 < 0 <->
      exists e, last evs = Some e /\ step_failed e = true)) /\
  (forall respond w,
     let run := Adt74x0b.init_adt74x0 respond a w in
     let order := [Select; Reset; Settle; Configure; Verify] in
     let evs := new_events (Adt74x0b.init_adt74x0 respond a) w in
     steps (new_events (Adt74x0b.init_adt74x0 respond a) w)
       `prefix_of` order /\
     (run.1 = 0 ->
      steps (new_events (Adt74x0b.init_adt74x0 respond a) w) = order) /\
     (run.1 = 0 \/ run.1 < 0) /\
     all_passed (removelast evs) = true /\
     (run.1 = 0 <-> steps evs = order /\ all_passed evs = true) /\
     (run.1 < 0 <->
      exists e, last evs = Some e /\ step_failed e = true)) /\
  (forall GOOD respond argv,
     let file := (Adt74x0.start respond argv world0).1 in
     let ini := Adt74x0.init_adt74x0 GOOD respond file a
                  (Adt74x0.at_init GOOD respond argv a).2 in
     let final := (Adt74x0.main GOOD respond argv world0).2 in
     let devs := Adt74x0.devs_after_init GOOD respond argv in
     (file <? 0) = false ->
     (ini.1 = 0 -> devs_get devs a = 1) /\
     (ini.1 < 0 ->
      devs_get devs a = ini.1 /\
      probes a (trace final) = probes a (trace ini.2) /\
      results_for a (out final) = [])) /\
  (forall DEBUG respond argv,
     let ini := Adt74x0b.init_adt74x0 respond a
                  (Adt74x0b.at_init DEBUG respond a).2 in
     let final := (Adt74x0b.main DEBUG respond argv world0).2 in
     let devs := Adt74x0b.devs_after_init DEBUG respond in
     (ini.1 = 0 -> devs_get devs a = 0) /\
     (-128 <= ini.1 < 0 ->
      devs_get devs a = ini.1 /\
      probes a (trace final) = probes a (trace ini.2) /\
      results_for a (out final) = [])).
Proof.
  intros Hwin. split; [| split; [| split]].
  - intros GOOD respond file w run order evs.
    destruct (Adt74x0_init_steps GOOD respond file a w) as (H1 & H2 & H3).
    destruct (Adt74x0_init_outcome GOOD respond file a w)
      as (H4 & H5 & H6 & _).
    repeat (split; [assumption |]). assumption.
  - intros respond w run order evs.
    destruct (Adt74x0b_init_steps respond a w) as (H1 & H2 & H3).
    destruct (Adt74x0b_init_outcome respond a w) as (H4 & H5 & H6).
    repeat (split; [assumption |]). assumption.
  - intros GOOD respond argv file ini final devs Hfile.
    destruct (Adt74x0_result_lines GOOD respond argv a Hwin Hfile)
      as [Hdevs Hlines].
    destruct (Adt74x0_probes_final GOOD respond argv a Hwin Hfile)
      as (_ & _ & Hprobes).
    fold file ini in Hdevs, Hlines, Hprobes. fold devs in Hdevs.
    fold final in Hlines, Hprobes.
    split.
    + intros Hok. rewrite Hdevs, Hok. reflexivity.
    + intros Hneg. apply Z.ltb_lt in Hneg.
      rewrite Hneg in Hdevs, Hlines, Hprobes. auto.
  - intros DEBUG respond argv ini final devs.
    destruct (Adt74x0b_result_lines DEBUG respond argv a Hwin)
      as [Hdevs Hlines].
    destruct (Adt74x0b_probes_final DEBUG respond argv a Hwin)
      as (_ & _ & Hprobes).
    fold ini in Hdevs, Hlines, Hprobes. fold devs in Hdevs.
    fold final in Hlines, Hprobes.
    split.
    + intros Hok. rewrite Hdevs, Hok. reflexivity.
    + intros Hneg. rewrite to_int8_small in Hdevs, Hlines, Hprobes by lia.
      destruct (Z.eqb_spec ini.1 0); [lia | auto].
Qed.

Lemma initialization_steps_and_record_witness :
  window 0x4b /\
  let respond := failing 0x4b is_reset (Resp (-1) []) quiet in
  ((Adt74x0.start respond [] world0).1 <? 0) = false /\
  (Adt74x0.init_adt74x0 false respond 3 0x4b
     (Adt74x0.at_init false respond [] 0x4b).2).1 < 0 /\
  devs_get (Adt74x0.devs_after_init false respond []) 0x4b = -2 /\
  exists e,
    last (new_events (Adt74x0.init_adt74x0 false respond 3 0x4b)
            (Adt74x0.at_init false respond [] 0x4b).2) = Some e /\
    step_failed e = true.
Proof.
  assert (Hwin : window 0x4b) by (unfold window; lia).
  split; [exact Hwin |]. cbv zeta.
  assert (Hfile : ((Adt74x0.start
                      (failing 0x4b is_reset (Resp (-1) []) quiet) []
                      world0).1 <? 0) = false)
    by (vm_compute; reflexivity).
  assert (Hneg : (Adt74x0.init_adt74x0 false
                    (failing 0x4b is_reset (Resp (-1) []) quiet) 3 0x4b
                    (Adt74x0.at_init false
                       (failing 0x4b is_reset (Resp (-1) []) quiet) []
                       0x4b).2).1 < 0)
    by (vm_compute; reflexivity).
  split; [exact Hfile |]. split; [exact Hneg |].
  destruct (proj1 (proj2 (proj2 (initialization_steps_and_record 0x4b Hwin)))
              false (failing 0x4b is_reset (Resp (-1) []) quiet) [] Hfile)
    as [_ Hrecord].
  destruct (Hrecord Hneg) as [Hdevs _].
  split; [rewrite Hdevs; vm_compute; reflexivity |].
  destruct (proj1 (initialization_steps_and_record 0x4b Hwin) false
              (failing 0x4b is_reset (Resp (-1) []) quiet) 3
              (Adt74x0.at_init false
                 (failing 0x4b is_reset (Resp (-1) []) quiet) [] 0x4b).2)
    as (_ & _ & _ & _ & _ & Hfailed).
  exact (proj1 Hfailed Hneg).
Defined.

(** The status of adt74x0b.c is an [int] stored in an [int8_t].  The
    reason codes of the library (0, 1, 2, 4) give statuses that fit; a
    reason code of 0xf0 for the reset, which the return type allows, gives
    the status -256, which is recorded as 0: the address then counts as
    initialized and is read. *)
Example Adt74x0b_status_wraps :
  let respond := failing 0x48 is_reset (Resp 0xf0 []) quiet in
  (Adt74x0b.init_adt74x0 respond 0x48
     (Adt74x0b.at_init false respond 0x48).2).1 = -256 /\
  devs_get (Adt74x0b.devs_after_init false respond) 0x48 = 0 /\
  map render (results_for 0x48
                (out (Adt74x0b.main false respond [] world0).2))
  = ["0x48 23.50000C"%string].
Proof. vm_compute. auto. Qed.

(** ** The identity check *)

Lemma probes_cons_at (a : Z) (c : call) (r : resp) (t : list event) :
  bus_op c = true ->
  probes a (Event (Some a) c r :: t) = Event (Some a) c r :: probes a t.
Proof.
  intros Hc. unfold probes. apply filter_cons_True. cbn. auto.
Qed.

Lemma probes_cons_skip (a : Z) (tgt : option Z) (c : call) (r : resp)
    (t : list event) :
  bus_op c = false -> probes a (Event tgt c r :: t) = probes a t.
Proof.
  intros Hc. unfold probes. apply filter_cons_False. cbn.
  intros [Hbus _]. congruence.
Qed.

Lemma In_probes (a : Z) (e : event) (t : list event) :
  In e t -> bus_op (ev_call e) = true -> ev_target e = Some a ->
  In e (probes a t).
Proof.
  intros Hin Hbus Htgt. unfold probes.
  rewrite <- list_elem_of_In. apply list_elem_of_filter.
  split; [auto | apply list_elem_of_In, Hin].
Qed.

Lemma probes_In (a : Z) (e : event) (t : list event) :
  In e (probes a t) -> In e t.
Proof.
  unfold probes. rewrite <- !list_elem_of_In.
  intros Hin. apply list_elem_of_filter in Hin. tauto.
Qed.

(** The bus operations at [a] of a straight-line run started where there
    were none. *)
Ltac probes_of_run Hp :=
  rewrite <- ?app_assoc in *; cbn [app] in *;
  rewrite ?probes_app, ?Hp; cbn [app];
  repeat first [ rewrite probes_cons_at by reflexivity
               | rewrite probes_cons_skip by reflexivity ];
  change (probes _ []) with (@nil event).

Ltac not_among :=
  let H := fresh in
  intros ? H; cbn [In] in H;
  repeat (destruct H as [H | H]); try contradiction; discriminate H.

(** adt74x0.c with GOOD_I2C_BUS: when the initialization of [a] reads the
    ID byte [b], it goes on to configure the device if [b & 0xf8] is 0xc8
    and returns -4 without configuring it otherwise.  It never reads the
    temperature word. *)
Lemma Adt74x0_init_identity respond file a w b d :
  probes a (trace w) = [] -> 0 <= b ->
  let run := Adt74x0.init_adt74x0 true respond file a w in
  In (Event (Some a) (I2c_smbus_read_byte_data file IDREG) (Resp b d))
     (probes a (trace run.2)) ->
  (forall r, ~ In (Event (Some a) (I2c_smbus_read_word_data file T_MSB) r)
                  (probes a (trace run.2))) /\
  (Z.land b 0xf8 = 0xc8 ->
   exists r,
     In (Event (Some a) (I2c_smbus_write_byte_data file CONFIG 0x80) r)
        (probes a (trace run.2))) /\
  (Z.land b 0xf8 <> 0xc8 ->
   run.1 = -4 /\
   forall r,
     ~ In (Event (Some a) (I2c_smbus_write_byte_data file CONFIG 0x80) r)
          (probes a (trace run.2))).
Proof.
  intros Hp Hb.
  unfold Adt74x0.init_adt74x0, Adt74x0.init_configure.
  exec; probes_of_run Hp; intros Hin; cbn [In] in Hin;
    repeat (destruct Hin as [Hin | Hin]); try contradiction;
    try discriminate Hin;
    injection Hin as Hresp; rewrite Hresp in *; cbn [code] in *;
    repeat match goal with
      | H : (_ <? 0) = true |- _ => apply Z.ltb_lt in H
      | H : (_ =? _) = true |- _ => apply Z.eqb_eq in H
      | H : (_ =? _) = false |- _ => apply Z.eqb_neq in H
      end;
    try lia;
    (split; [not_among |]); split; intros Hid; try contradiction;
    first [ solve [eexists; cbn [In];
                   repeat first [left; reflexivity | right]]
          | split; [reflexivity | not_among] ].
Qed.

(** adt74x0b.c: when the initialization of [a] reads the ID byte [b], it
    returns 0 if [b & 0xf8] is 0xc8 and -0x3f otherwise.  It never reads the
    temperature bytes. *)
Lemma Adt74x0b_init_identity respond a w b rest c :
  probes a (trace w) = [] -> 0 <= b < 256 -> to_uint8 c = 0 ->
  let run := Adt74x0b.init_adt74x0 respond a w in
  In (Event (Some a) (Bcm2835_i2c_read_register_rs IDREG 1)
        (Resp c (b :: rest)))
     (probes a (trace run.2)) ->
  (forall r, ~ In (Event (Some a) (Bcm2835_i2c_read_register_rs T_MSB 2) r)
                  (probes a (trace run.2))) /\
  (Z.land b 0xf8 = 0xc8 -> run.1 = 0) /\
  (Z.land b 0xf8 <> 0xc8 -> run.1 = - 0x3f).
Proof.
  intros Hp Hb Hc.
  unfold Adt74x0b.init_adt74x0.
  exec; probes_of_run Hp; intros Hin; cbn [In] in Hin;
    repeat (destruct Hin as [Hin | Hin]); try contradiction;
    try discriminate Hin;
    injection Hin as Hresp; rewrite Hresp in *; cbn [code data] in *;
    try (rewrite Hc in *; discriminate);
    match goal with
    | H : (Z.land _ _ =? _) = _ |- _ =>
        unfold Adt74x0b.received in H; cbn -[to_uint8 Z.land Z.eqb] in H;
        rewrite to_uint8_small in H by exact Hb
    end;
    repeat match goal with
      | H : (_ =? _) = true |- _ => apply Z.eqb_eq in H
      | H : (_ =? _) = false |- _ => apply Z.eqb_neq in H
      end;
    (split; [not_among |]); split; intros Hid; try contradiction;
    reflexivity.
Qed.

(** The bus operations of [read_adt74x0]: a selection and a read of the
    temperature register. *)
Lemma Adt74x0_read_probes respond file a w :
  exists evs,
    probes a (trace (Adt74x0.read_adt74x0 respond file a None w).2)
    = probes a (trace w) ++ evs /\
    Forall (fun e => ev_call e = Ioctl_I2C_SLAVE file a \/
                     ev_call e = I2c_smbus_read_word_data file T_MSB) evs.
Proof.
  unfold Adt74x0.read_adt74x0.
  exec; rewrite <- ?app_assoc; cbn [app]; rewrite probes_app;
    repeat first [ rewrite probes_cons_at by reflexivity
                 | rewrite probes_cons_skip by reflexivity ];
    change (probes _ []) with (@nil event);
    (eexists; split; [reflexivity |]);
    repeat (apply List.Forall_cons; [cbn; auto |]); apply List.Forall_nil.
Qed.

Lemma Adt74x0b_read_probes respond a w :
  exists evs,
    probes a (trace (Adt74x0b.read_adt74x0 respond a None w).2)
    = probes a (trace w) ++ evs /\
    Forall (fun e => ev_call e = Bcm2835_i2c_setSlaveAddress a \/
                     ev_call e = Bcm2835_i2c_read_register_rs T_MSB 2) evs.
Proof.
  unfold Adt74x0b.read_adt74x0.
  exec; rewrite <- ?app_assoc; cbn [app]; rewrite probes_app;
    repeat first [ rewrite probes_cons_at by reflexivity
                 | rewrite probes_cons_skip by reflexivity ];
    change (probes _ []) with (@nil event);
    (eexists; split; [reflexivity |]);
    repeat (apply List.Forall_cons; [cbn; auto |]); apply List.Forall_nil.
Qed.

Lemma in_window_In (t : list event) (e : event) (a : Z) :
  in_window t -> In e t -> bus_op (ev_call e) = true ->
  ev_target e = Some a -> window a.
Proof.
  intros Ht He Hbus Htgt. unfold in_window in Ht.
  rewrite List.Forall_forall in Ht.
  destruct (Ht e He Hbus) as (b & Hb & Hwin). congruence.
Qed.

(** adt74x0.c: an operation of the initialization of [a], not one of its
    read, that is in the transcript of [main] is in the transcript of the
    initialization; and the operations of the initialization stay in the
    transcript of [main]. *)
Lemma Adt74x0_init_probes GOOD respond argv a e :
  window a -> ((Adt74x0.start respond argv world0).1 <? 0) = false ->
  let file := (Adt74x0.start respond argv world0).1 in
  let ini := Adt74x0.init_adt74x0 GOOD respond file a
               (Adt74x0.at_init GOOD respond argv a).2 in
  let final := (Adt74x0.main GOOD respond argv world0).2 in
  (In e (probes a (trace ini.2)) -> In e (probes a (trace final))) /\
  (ev_call e <> Ioctl_I2C_SLAVE file a ->
   ev_call e <> I2c_smbus_read_word_data file T_MSB ->
   In e (probes a (trace final)) -> In e (probes a (trace ini.2))).
Proof.
  intros Hwin Hfile file ini final.
  destruct (Adt74x0_probes_final GOOD respond argv a Hwin Hfile)
    as (_ & Hq & Hfinal).
  fold file ini in Hq, Hfinal. fold final in Hfinal. rewrite Hfinal.
  destruct (ini.1 <? 0); [tauto |].
  destruct (Adt74x0_read_probes respond file a
              (Adt74x0.at_read GOOD respond argv a).2) as (evs & -> & Hevs).
  rewrite Hq. split.
  - intros Hin. apply in_or_app. now left.
  - intros Hsel Hword Hin. apply in_app_or in Hin.
    destruct Hin as [Hin | Hin]; [exact Hin |].
    rewrite List.Forall_forall in Hevs. destruct (Hevs e Hin); contradiction.
Qed.

Lemma Adt74x0b_init_probes DEBUG respond argv a e :
  window a ->
  let ini := Adt74x0b.init_adt74x0 respond a
               (Adt74x0b.at_init DEBUG respond a).2 in
  let final := (Adt74x0b.main DEBUG respond argv world0).2 in
  (In e (probes a (trace ini.2)) -> In e (probes a (trace final))) /\
  (ev_call e <> Bcm2835_i2c_setSlaveAddress a ->
   ev_call e <> Bcm2835_i2c_read_register_rs T_MSB 2 ->
   In e (probes a (trace final)) -> In e (probes a (trace ini.2))).
Proof.
  intros Hwin ini final.
  destruct (Adt74x0b_probes_final DEBUG respond argv a Hwin)
    as (_ & Hq & Hfinal).
  fold ini in Hq, Hfinal. fold final in Hfinal. rewrite Hfinal.
  destruct (to_int8 ini.1 =? 0); [| tauto].
  destruct (Adt74x0b_read_probes respond a
              (Adt74x0b.at_read DEBUG respond a).2) as (evs & -> & Hevs).
  rewrite Hq. split.
  - intros Hin. apply in_or_app. now left.
  - intros Hsel Hword Hin. apply in_app_or in Hin.
    destruct Hin as [Hin | Hin]; [exact Hin |].
    rewrite List.Forall_forall in Hevs. destruct (Hevs e Hin); contradiction.
Qed.

(** C5. Where the identity is verified (adt74x0.c built with
    GOOD_I2C_BUS, and adt74x0b.c), a device whose ID register reads the byte
    [b] is accepted if and only if [(b & 0xf8) = 0xc8].  In adt74x0.c an
    accepted device is configured next; a rejected one is recorded as
    failed (-4), is never configured, never read, and gets no result line.
    In adt74x0b.c, where the check is the last step, an accepted device is
    recorded as initialized and gets its result line; a rejected one is
    recorded as failed (-0x3f), is never read and gets no result line.
    The bytes 0xc8, 0xc9, 0xcf are accepted and 0x00, 0xd0, 0x48
    rejected. *)
Theorem identity_check :
  (forall respond argv a b d,
     0 <= b < 256 ->
     let run := Adt74x0.main true respond argv world0 in
     let file := (Adt74x0.start respond argv world0).1 in
     In (Event (Some a) (I2c_smbus_read_byte_data file IDREG) (Resp b d))
        (trace run.2) ->
     (Z.land b 0xf8 = 0xc8 ->
      exists r,
        In (Event (Some a) (I2c_smbus_write_byte_data file CONFIG 0x80) r)
           (trace run.2)) /\
     (Z.land b 0xf8 <> 0xc8 ->
      devs_get (Adt74x0.devs_after_init true respond argv) a = -4 /\
      results_for a (out run.2) = [] /\
      (forall r,
         ~ In (Event (Some a) (I2c_smbus_write_byte_data file CONFIG 0x80) r)
              (trace run.2)) /\
      (forall r,
         ~ In (Event (Some a) (I2c_smbus_read_word_data file T_MSB) r)
              (trace run.2)))) /\
  (forall DEBUG respond argv a b rest c,
     0 <= b < 256 -> to_uint8 c = 0 ->
     let run := Adt74x0b.main DEBUG respond argv world0 in
     In (Event (Some a) (Bcm2835_i2c_read_register_rs IDREG 1)
           (Resp c (b :: rest)))
        (trace run.2) ->
     (Z.land b 0xf8 = 0xc8 ->
      devs_get (Adt74x0b.devs_after_init DEBUG respond) a = 0 /\
      exists l, results_for a (out run.2) = [l]) /\
     (Z.land b 0xf8 <> 0xc8 ->
      devs_get (Adt74x0b.devs_after_init DEBUG respond) a = - 0x3f /\
      results_for a (out run.2) = [] /\
      (forall r,
         ~ In (Event (Some a) (Bcm2835_i2c_read_register_rs T_MSB 2) r)
              (trace run.2)))) /\
  map (fun id =>
         devs_get (Adt74x0.devs_after_init true (chip id 0 0) []) 0x48)
    [0xc8; 0xc9; 0xcf; 0x00; 0xd0; 0x48]
  = [1; 1; 1; -4; -4; -4] /\
  map (fun id =>
         devs_get (Adt74x0b.devs_after_init false (chip id 0 0)) 0x48)
    [0xc8; 0xc9; 0xcf; 0x00; 0xd0; 0x48]
  = [0; 0; 0; - 0x3f; - 0x3f; - 0x3f].
Proof.
  split; [| split; [| split; vm_compute; reflexivity]].
  - intros respond argv a b d Hb run file Hin.
    pose proof (Adt74x0_main_run true respond argv) as Hrun.
    fold run file in Hrun.
    destruct (file <? 0) eqn:Hfile.
    { rewrite Hrun in Hin. cbn in Hin.
      destruct Hin as [Hin | []]. discriminate Hin. }
    assert (Hwin : window a)
      by (eapply in_window_In;
          [apply (Adt74x0_window_inv true respond argv) | exact Hin
          | reflexivity | reflexivity]).
    pose proof (In_probes a _ _ Hin eq_refl eq_refl) as Hat. clear Hin.
    rename Hat into Hin.
    pose proof (fun e => Adt74x0_init_probes true respond argv a e Hwin Hfile)
      as Hinit.
    destruct (Adt74x0_probes_final true respond argv a Hwin Hfile)
      as (Hp & _ & Hfinal).
    destruct (Adt74x0_result_lines true respond argv a Hwin Hfile)
      as [Hdevs Hlines].
    fold file run in Hinit, Hfinal, Hdevs, Hlines.
    apply (proj2 (Hinit _)) in Hin; [| discriminate | discriminate].
    destruct (Adt74x0_init_identity respond file a _ b d Hp
                ltac:(lia) Hin) as (Hnoword & Haccept & Hreject).
    split.
    + intros Hid. destruct (Haccept Hid) as [r Hr].
      exists r. eapply probes_In, (proj1 (Hinit _)), Hr.
    + intros Hid. destruct (Hreject Hid) as [Hstat Hnoconf].
      rewrite Hstat in Hdevs, Hlines, Hfinal.
      cbn [Z.ltb Z.compare] in Hdevs, Hlines, Hfinal.
      split; [exact Hdevs |]. split; [exact Hlines |].
      split; intros r Hr;
        pose proof (In_probes a _ _ Hr eq_refl eq_refl) as Hat;
        rewrite Hfinal in Hat; [eapply Hnoconf | eapply Hnoword]; exact Hat.
  - intros DEBUG respond argv a b rest c Hb Hc run Hin.
    assert (Hwin : window a)
      by (eapply in_window_In;
          [apply (Adt74x0b_window_inv DEBUG respond argv) | exact Hin
          | reflexivity | reflexivity]).
    pose proof (In_probes a _ _ Hin eq_refl eq_refl) as Hat. clear Hin.
    rename Hat into Hin.
    pose proof (fun e => Adt74x0b_init_probes DEBUG respond argv a e Hwin)
      as Hinit.
    destruct (Adt74x0b_probes_final DEBUG respond argv a Hwin)
      as (Hp & _ & Hfinal).
    destruct (Adt74x0b_result_lines DEBUG respond argv a Hwin)
      as [Hdevs Hlines].
    fold run in Hinit, Hfinal, Hdevs, Hlines.
    apply (proj2 (Hinit _)) in Hin; [| discriminate | discriminate].
    destruct (Adt74x0b_init_identity respond a _ b rest c Hp Hb Hc Hin)
      as (Hnoword & Haccept & Hreject).
    split.
    + intros Hid. rewrite (Haccept Hid) in Hdevs, Hlines.
      split; [exact Hdevs |]. eexists. exact Hlines.
    + intros Hid. rewrite (Hreject Hid) in Hdevs, Hlines, Hfinal.
      split; [exact Hdevs |]. split; [exact Hlines |].
      intros r Hr. pose proof (In_probes a _ _ Hr eq_refl eq_refl) as Hat.
      change (to_int8 (- 0x3f) =? 0) with false in Hfinal.
      rewrite Hfinal in Hat. eapply Hnoword, Hat.
Qed.

Lemma identity_check_witness :
  let respond := chip 0xd0 0 0 in
  let run := Adt74x0.main true respond [] world0 in
  (0 <= 0xd0 < 256) /\
  In (Event (Some 0x49) (I2c_smbus_read_byte_data 3 IDREG) (Resp 0xd0 []))
     (trace run.2) /\
  Z.land 0xd0 0xf8 <> 0xc8 /\
  devs_get (Adt74x0.devs_after_init true respond []) 0x49 = -4.
Proof.
  cbv zeta.
  assert (Hb : 0 <= 0xd0 < 256) by lia.
  assert (Hin : In (Event (Some 0x49) (I2c_smbus_read_byte_data 3 IDREG)
                      (Resp 0xd0 []))
                  (trace (Adt74x0.main true (chip 0xd0 0 0) [] world0).2))
    by (vm_compute; tauto).
  assert (Hid : Z.land 0xd0 0xf8 <> 0xc8) by (vm_compute; discriminate).
  split; [exact Hb |]. split; [exact Hin |]. split; [exact Hid |].
  exact (proj1 (proj2 (proj1 identity_check (chip 0xd0 0 0) [] 0x49 0xd0 []
                         Hb Hin) Hid)).
Defined.

(** ** Two runs that differ at one address *)

Lemma elsewhere_snoc (a : Z) (x y l : list event) :
  elsewhere a x = elsewhere a y -> elsewhere a (x ++ l) = elsewhere a (y ++ l).
Proof. intros H. rewrite !elsewhere_app, H. reflexivity. Qed.

Lemma lines_elsewhere_snoc (a : Z) (x y l : list line) :
  lines_elsewhere a x = lines_elsewhere a y ->
  lines_elsewhere a (x ++ l) = lines_elsewhere a (y ++ l).
Proof. intros H. rewrite !lines_elsewhere_app, H. reflexivity. Qed.

(** Rewrite the answers of the first transport into those of the second,
    call after call, splitting on the tests as they become the same. *)
Ltac sim_rewrite r1 Hagree Htrace :=
  match goal with
  | |- context [r1 ?h ?tgt ?c] =>
      erewrite (Hagree h _ tgt c);
      [ | congruence | repeat apply elsewhere_snoc; exact Htrace ]
  end.

Ltac sim_test r1 :=
  match goal with
  | |- context [if ?c then _ else _] =>
      lazymatch c with
      | context [if _ then _ else _] => fail
      | context [r1] => fail
      | negb ?d => destruct d eqn:?
      | _ => destruct c eqn:?
      end;
      run_monad
  end.

Ltac sim_run r1 Hagree Htrace Hout :=
  run_monad;
  repeat first [sim_rewrite r1 Hagree Htrace | sim_test r1];
  (split;
   [ reflexivity
   | split;
     [ repeat apply elsewhere_snoc; exact Htrace
     | repeat apply lines_elsewhere_snoc; exact Hout ] ]).

Section Two_runs.

Variable a : Z.
Variables r1 r2 : transport.
Hypothesis Hagree : agree_elsewhere a r1 r2.

Lemma Adt74x0_init_sim GOOD file i w1 w2 :
  i <> a ->
  elsewhere a (trace w1) = elsewhere a (trace w2) ->
  lines_elsewhere a (out w1) = lines_elsewhere a (out w2) ->
  let x1 := Adt74x0.init_adt74x0 GOOD r1 file i w1 in
  let x2 := Adt74x0.init_adt74x0 GOOD r2 file i w2 in
  x1.1 = x2.1 /\
  elsewhere a (trace x1.2) = elsewhere a (trace x2.2) /\
  lines_elsewhere a (out x1.2) = lines_elsewhere a (out x2.2).
Proof.
  intros Hne Htrace Hout.
  unfold Adt74x0.init_adt74x0, Adt74x0.init_configure.
  destruct GOOD; sim_run r1 Hagree Htrace Hout.
Qed.

Lemma Adt74x0_read_sim file i temp w1 w2 :
  i <> a ->
  elsewhere a (trace w1) = elsewhere a (trace w2) ->
  lines_elsewhere a (out w1) = lines_elsewhere a (out w2) ->
  let x1 := Adt74x0.read_adt74x0 r1 file i temp w1 in
  let x2 := Adt74x0.read_adt74x0 r2 file i temp w2 in
  x1.1 = x2.1 /\
  elsewhere a (trace x1.2) = elsewhere a (trace x2.2) /\
  lines_elsewhere a (out x1.2) = lines_elsewhere a (out x2.2).
Proof.
  intros Hne Htrace Hout.
  unfold Adt74x0.read_adt74x0. sim_run r1 Hagree Htrace Hout.
Qed.

Lemma Adt74x0b_init_sim i w1 w2 :
  i <> a ->
  elsewhere a (trace w1) = elsewhere a (trace w2) ->
  lines_elsewhere a (out w1) = lines_elsewhere a (out w2) ->
  let x1 := Adt74x0b.init_adt74x0 r1 i w1 in
  let x2 := Adt74x0b.init_adt74x0 r2 i w2 in
  x1.1 = x2.1 /\
  elsewhere a (trace x1.2) = elsewhere a (trace x2.2) /\
  lines_elsewhere a (out x1.2) = lines_elsewhere a (out x2.2).
Proof.
  intros Hne Htrace Hout.
  unfold Adt74x0b.init_adt74x0. sim_run r1 Hagree Htrace Hout.
Qed.

Lemma Adt74x0b_read_sim i temp w1 w2 :
  i <> a ->
  elsewhere a (trace w1) = elsewhere a (trace w2) ->
  lines_elsewhere a (out w1) = lines_elsewhere a (out w2) ->
  let x1 := Adt74x0b.read_adt74x0 r1 i temp w1 in
  let x2 := Adt74x0b.read_adt74x0 r2 i temp w2 in
  x1.1 = x2.1 /\
  elsewhere a (trace x1.2) = elsewhere a (trace x2.2) /\
  lines_elsewhere a (out x1.2) = lines_elsewhere a (out x2.2).
Proof.
  intros Hne Htrace Hout.
  unfold Adt74x0b.read_adt74x0. sim_run r1 Hagree Htrace Hout.
Qed.

End Two_runs.

Lemma results_for_elsewhere (a b : Z) (o : list line) :
  b <> a -> results_for b (lines_elsewhere a o) = results_for b o.
Proof.
  intros Hne. unfold results_for, lines_elsewhere.
  apply list_filter_filter_l.
  intros l Hres Hline. apply result_line_addr in Hres. congruence.
Qed.

Lemma devs_set_alike (s1 s2 : list Z) (i v b : Z) :
  0 <= i -> 0 <= b -> length s1 = length s2 ->
  devs_get s1 b = devs_get s2 b ->
  devs_get (devs_set s1 i v) b = devs_get (devs_set s2 i v) b.
Proof.
  intros Hi Hb Hlen Hget.
  destruct (Z.eq_dec b i) as [-> | Hne].
  - destruct (Z.lt_ge_cases i (Z.of_nat (length s1))) as [Hin | Hout].
    + rewrite !devs_get_set_eq by lia. reflexivity.
    + unfold devs_set. rewrite !list_insert_ge by lia. exact Hget.
  - rewrite !devs_get_set_ne by lia. exact Hget.
Qed.

Lemma alike_touches (a : Z) (s1 s2 : list Z) (w1 w2 : world)
    (x1 x2 : list Z * world) :
  0 <= a -> touches a s1 w1 x1 -> touches a s2 w2 x2 ->
  alike a (s1, w1) (s2, w2) -> alike a x1 x2.
Proof.
  intros Ha [Hat1 Hd1] [Hat2 Hd2] (Ht & Ho & Hlen & Hdevs).
  cbn [fst snd] in *.
  destruct (at_addr_elsewhere a w1 x1.2 Hat1) as [Ht1 Ho1].
  destruct (at_addr_elsewhere a w2 x2.2 Hat2) as [Ht2 Ho2].
  split; [congruence |]. split; [congruence |]. split.
  - destruct Hd1 as [-> | [v1 ->]], Hd2 as [-> | [v2 ->]];
      rewrite ?devs_set_length; exact Hlen.
  - intros b Hb Hne.
    destruct Hd1 as [-> | [v1 ->]], Hd2 as [-> | [v2 ->]];
      rewrite ?devs_get_set_ne by lia; auto.
Qed.

Section Two_runs_of_main.

Variable a : Z.
Variables r1 r2 : transport.
Hypothesis Hagree : agree_elsewhere a r1 r2.

Lemma Adt74x0_init_body_alike GOOD file i s1 w1 s2 w2 :
  0 <= i -> alike a (s1, w1) (s2, w2) ->
  alike a (Adt74x0.init_body GOOD r1 file i s1 w1)
          (Adt74x0.init_body GOOD r2 file i s2 w2).
Proof.
  intros Hi Halike.
  destruct (Z.eq_dec i a) as [-> | Hne].
  { eapply alike_touches;
      [exact Hi | apply Adt74x0_init_body_touches
      | apply Adt74x0_init_body_touches | exact Halike]. }
  destruct Halike as (Ht & Ho & Hlen & Hdevs). cbn [fst snd] in *.
  unfold Adt74x0.init_body. rewrite (Hdevs i Hi Hne).
  destruct (devs_get s2 i <=? 0); [repeat split; assumption |].
  unfold bind.
  destruct (Adt74x0_init_sim a r1 r2 Hagree GOOD file i w1 w2 Hne Ht Ho)
    as (Hstat & Ht' & Ho').
  rewrite Hstat.
  destruct (_ <? 0); unfold alike, ret; cbn [fst snd];
    (split; [exact Ht' |]); (split; [exact Ho' |]);
    rewrite ?devs_set_length; (split; [exact Hlen |]); [| exact Hdevs].
  intros b Hb Hb'. apply devs_set_alike; auto.
Qed.

Lemma Adt74x0_read_body_alike file i s1 w1 s2 w2 :
  0 <= i -> alike a (s1, w1) (s2, w2) ->
  alike a (Adt74x0.read_body r1 file i s1 w1)
          (Adt74x0.read_body r2 file i s2 w2).
Proof.
  intros Hi Halike.
  destruct (Z.eq_dec i a) as [-> | Hne].
  { eapply alike_touches;
      [exact Hi | apply Adt74x0_read_body_touches
      | apply Adt74x0_read_body_touches | exact Halike]. }
  destruct Halike as (Ht & Ho & Hlen & Hdevs). cbn [fst snd] in *.
  unfold Adt74x0.read_body. rewrite (Hdevs i Hi Hne).
  destruct (devs_get s2 i <=? 0); [repeat split; assumption |].
  unfold bind.
  destruct (Adt74x0_read_sim a r1 r2 Hagree file i None w1 w2 Hne Ht Ho)
    as (Hstat & Ht' & Ho').
  rewrite Hstat.
  destruct (_ <? 0); unfold alike, ret, printf; cbn [fst snd trace out];
    (split; [exact Ht' |]);
    (split; [apply lines_elsewhere_snoc, Ho' |]);
    (split; [exact Hlen | exact Hdevs]).
Qed.

Lemma Adt74x0b_init_body_alike DEBUG i s1 w1 s2 w2 :
  0 <= i < 256 -> alike a (s1, w1) (s2, w2) ->
  alike a (Adt74x0b.init_body DEBUG r1 i s1 w1)
          (Adt74x0b.init_body DEBUG r2 i s2 w2).
Proof.
  intros Hi Halike.
  destruct (Z.eq_dec i a) as [-> | Hne].
  { eapply alike_touches;
      [lia | apply Adt74x0b_init_body_touches; exact Hi
      | apply Adt74x0b_init_body_touches; exact Hi | exact Halike]. }
  destruct Halike as (Ht & Ho & Hlen & Hdevs). cbn [fst snd] in *.
  unfold Adt74x0b.init_body. rewrite to_uint8_small by exact Hi.
  unfold bind.
  destruct (Adt74x0b_init_sim a r1 r2 Hagree i w1 w2 Hne Ht Ho)
    as (Hstat & Ht' & Ho').
  rewrite Hstat.
  destruct DEBUG; unfold alike, ret, printf; cbn [fst snd trace out];
    (split; [exact Ht' |]);
    (split; [first [apply lines_elsewhere_snoc, Ho' | exact Ho'] |]);
    rewrite ?devs_set_length; (split; [exact Hlen |]);
    intros b Hb Hb'; apply devs_set_alike; auto; lia.
Qed.

Lemma Adt74x0b_read_body_alike i s1 w1 s2 w2 :
  0 <= i < 256 -> alike a (s1, w1) (s2, w2) ->
  alike a (Adt74x0b.read_body r1 i s1 w1)
          (Adt74x0b.read_body r2 i s2 w2).
Proof.
  intros Hi Halike.
  destruct (Z.eq_dec i a) as [-> | Hne].
  { eapply alike_touches;
      [lia | apply Adt74x0b_read_body_touches; exact Hi
      | apply Adt74x0b_read_body_touches; exact Hi | exact Halike]. }
  destruct Halike as (Ht & Ho & Hlen & Hdevs). cbn [fst snd] in *.
  unfold Adt74x0b.read_body. rewrite to_uint8_small by exact Hi.
  rewrite (Hdevs i ltac:(lia) Hne).
  destruct (devs_get s2 i =? 0); cbn [negb]; [| repeat split; assumption].
  unfold bind.
  destruct (Adt74x0b_read_sim a r1 r2 Hagree i None w1 w2 Hne Ht Ho)
    as (Hstat & Ht' & Ho').
  rewrite Hstat.
  destruct (_ <? 0); unfold alike, ret, printf; cbn [fst snd trace out];
    (split; [exact Ht' |]);
    (split; [apply lines_elsewhere_snoc, Ho' |]);
    (split; [exact Hlen | exact Hdevs]).
Qed.

End Two_runs_of_main.

Lemma alike_pair (a : Z) (x y : list Z * world) :
  alike a (x.1, x.2) (y.1, y.2) <-> alike a x y.
Proof. reflexivity. Qed.

Lemma alike_issue (a : Z) (r1 r2 : transport) (c : call)
    (s1 s2 : list Z) (w1 w2 : world) :
  bus_op c = false -> alike a (s1, w1) (s2, w2) ->
  alike a (s1, (issue r1 c w1).2) (s2, (issue r2 c w2).2).
Proof.
  intros Hc (Ht & Ho & Hrest). cbn [fst snd] in *.
  assert (Hskip : forall tgt r, elsewhere a [Event tgt c r] = []).
  { intros tgt r. unfold elsewhere. apply filter_none.
    constructor; [| constructor]. cbn. intros [Hbus _]. congruence. }
  split; [| split; [exact Ho | exact Hrest]].
  cbn [fst snd]. rewrite !issue_trace, !elsewhere_app, !Hskip, Ht.
  reflexivity.
Qed.

Section Two_runs_compared.

Variable a : Z.
Variables r1 r2 : transport.
Hypothesis Hagree : agree_elsewhere a r1 r2.

Lemma Adt74x0_start_same argv :
  Adt74x0.start r1 argv world0 = Adt74x0.start r2 argv world0.
Proof.
  unfold Adt74x0.start, bind, ret, issue, printf.
  cbn [fst snd trace selected out target_of bus_op app].
  rewrite (Hagree [] [] None) by (discriminate || reflexivity).
  reflexivity.
Qed.

Lemma Adt74x0_at_init_alike GOOD argv i :
  alike a (Adt74x0.at_init GOOD r1 argv i) (Adt74x0.at_init GOOD r2 argv i).
Proof.
  rewrite !Adt74x0_at_init_eq, Adt74x0_start_same.
  apply alike_pair.
  apply (for_each_sim (fun s1 w1 s2 w2 => alike a (s1, w1) (s2, w2))).
  - intros j s1 w1 s2 w2 Hj Halike. apply In_seqZ in Hj.
    apply alike_pair. cbn [fst snd].
    apply Adt74x0_init_body_alike; [exact Hagree | lia | exact Halike].
  - repeat split; reflexivity.
Qed.

Lemma Adt74x0_at_read_alike GOOD argv i :
  alike a (Adt74x0.at_read GOOD r1 argv i) (Adt74x0.at_read GOOD r2 argv i).
Proof.
  rewrite !Adt74x0_at_read_eq, Adt74x0_start_same.
  apply alike_pair.
  apply (for_each_sim (fun s1 w1 s2 w2 => alike a (s1, w1) (s2, w2))).
  - intros j s1 w1 s2 w2 Hj Halike. apply In_seqZ in Hj.
    apply alike_pair. cbn [fst snd].
    apply Adt74x0_read_body_alike; [exact Hagree | lia | exact Halike].
  - apply alike_issue; [reflexivity |].
    unfold Adt74x0.devs_after_init. apply alike_pair.
    apply Adt74x0_at_init_alike.
Qed.

Lemma Adt74x0_main_alike GOOD argv :
  (Adt74x0.main GOOD r1 argv world0).1 = (Adt74x0.main GOOD r2 argv world0).1
  /\ lines_elsewhere a (out (Adt74x0.main GOOD r1 argv world0).2)
     = lines_elsewhere a (out (Adt74x0.main GOOD r2 argv world0).2).
Proof.
  rewrite !Adt74x0_main_run, Adt74x0_start_same.
  destruct (_ <? 0); cbn [fst snd out]; [split; reflexivity |].
  split; [reflexivity |]. rewrite !issue_out.
  apply (Adt74x0_at_read_alike GOOD argv I2C_ADDRS).
Qed.

Lemma Adt74x0b_at_init_alike DEBUG i :
  i <= 256 ->
  alike a (Adt74x0b.at_init DEBUG r1 i) (Adt74x0b.at_init DEBUG r2 i).
Proof.
  intros Hi. rewrite !Adt74x0b_at_init_eq. apply alike_pair.
  apply (for_each_sim (fun s1 w1 s2 w2 => alike a (s1, w1) (s2, w2))).
  - intros j s1 w1 s2 w2 Hj Halike. apply In_seqZ in Hj.
    apply alike_pair. cbn [fst snd].
    apply Adt74x0b_init_body_alike; [exact Hagree | lia | exact Halike].
  - unfold Adt74x0b.start, bind, ret. cbn [fst snd].
    do 3 (apply alike_issue; [reflexivity |]).
    repeat split; reflexivity.
Qed.

Lemma Adt74x0b_at_read_alike DEBUG i :
  i <= 256 ->
  alike a (Adt74x0b.at_read DEBUG r1 i) (Adt74x0b.at_read DEBUG r2 i).
Proof.
  intros Hi. rewrite !Adt74x0b_at_read_eq. apply alike_pair.
  apply (for_each_sim (fun s1 w1 s2 w2 => alike a (s1, w1) (s2, w2))).
  - intros j s1 w1 s2 w2 Hj Halike. apply In_seqZ in Hj.
    apply alike_pair. cbn [fst snd].
    apply Adt74x0b_read_body_alike; [exact Hagree | lia | exact Halike].
  - apply alike_issue; [reflexivity |].
    unfold Adt74x0b.devs_after_init. apply alike_pair.
    apply Adt74x0b_at_init_alike. lia.
Qed.

Lemma Adt74x0b_main_alike DEBUG argv :
  (Adt74x0b.main DEBUG r1 argv world0).1
  = (Adt74x0b.main DEBUG r2 argv world0).1 /\
  lines_elsewhere a (out (Adt74x0b.main DEBUG r1 argv world0).2)
  = lines_elsewhere a (out (Adt74x0b.main DEBUG r2 argv world0).2).
Proof.
  rewrite !Adt74x0b_main_run. cbn [fst snd].
  split; [reflexivity |]. rewrite !issue_out.
  apply (Adt74x0b_at_read_alike DEBUG I2C_ADDRS). unfold I2C_ADDRS. lia.
Qed.

End Two_runs_compared.

(** A transport that fails calls at [a] only agrees with its base
    elsewhere, when the base answers from the call alone. *)
Lemma failing_chip_agree (a : Z) (bad : call -> bool) (r : resp)
    (id msb lsb : Z) :
  agree_elsewhere a (failing a bad r (chip id msb lsb)) (chip id msb lsb).
Proof.
  intros h1 h2 tgt c Htgt _. unfold failing.
  destruct tgt as [b |]; [| reflexivity].
  destruct (Z.eqb_spec b a) as [-> | _]; [congruence | reflexivity].
Qed.

(** C8. Two runs whose transports answer alike everywhere but at address
    [a] (so that, for instance, a write at [a] fails in one run and succeeds
    in the other) end alike everywhere but at [a]: for every other address
    [b] the status recorded in [devs] and the result lines are the same in
    both runs, and so are the exit status and all the output that does not
    name [a].  This holds for both programs. *)
Theorem failures_are_independent (a : Z) (r1 r2 : transport) :
  agree_elsewhere a r1 r2 ->
  (forall GOOD argv,
     (Adt74x0.main GOOD r1 argv world0).1
     = (Adt74x0.main GOOD r2 argv world0).1 /\
     lines_elsewhere a (out (Adt74x0.main GOOD r1 argv world0).2)
     = lines_elsewhere a (out (Adt74x0.main GOOD r2 argv world0).2) /\
     forall b, 0 <= b -> b <> a ->
       devs_get (Adt74x0.devs_after_init GOOD r1 argv) b
       = devs_get (Adt74x0.devs_after_init GOOD r2 argv) b /\
       results_for b (out (Adt74x0.main GOOD r1 argv world0).2)
       = results_for b (out (Adt74x0.main GOOD r2 argv world0).2)) /\
  (forall DEBUG argv,
     (Adt74x0b.main DEBUG r1 argv world0).1
     = (Adt74x0b.main DEBUG r2 argv world0).1 /\
     lines_elsewhere a (out (Adt74x0b.main DEBUG r1 argv world0).2)
     = lines_elsewhere a (out (Adt74x0b.main DEBUG r2 argv world0).2) /\
     forall b, 0 <= b -> b <> a ->
       devs_get (Adt74x0b.devs_after_init DEBUG r1) b
       = devs_get (Adt74x0b.devs_after_init DEBUG r2) b /\
       results_for b (out (Adt74x0b.main DEBUG r1 argv world0).2)
       = results_for b (out (Adt74x0b.main DEBUG r2 argv world0).2)).
Proof.
  intros Hagree. split.
  - intros GOOD argv.
    destruct (Adt74x0_main_alike a r1 r2 Hagree GOOD argv) as [Hexit Hout].
    split; [exact Hexit |]. split; [exact Hout |].
    intros b Hb Hne. split.
    + destruct (Adt74x0_at_init_alike a r1 r2 Hagree GOOD argv I2C_ADDRS)
        as (_ & _ & _ & Hdevs).
      apply Hdevs; assumption.
    + rewrite <- (results_for_elsewhere a b) by exact Hne.
      rewrite Hout. apply results_for_elsewhere, Hne.
  - intros DEBUG argv.
    destruct (Adt74x0b_main_alike a r1 r2 Hagree DEBUG argv) as [Hexit Hout].
    split; [exact Hexit |]. split; [exact Hout |].
    intros b Hb Hne. split.
    + destruct (Adt74x0b_at_init_alike a r1 r2 Hagree DEBUG (0x4b + 1))
        as (_ & _ & _ & Hdevs); [lia |].
      apply Hdevs; assumption.
    + rewrite <- (results_for_elsewhere a b) by exact Hne.
      rewrite Hout. apply results_for_elsewhere, Hne.
Qed.

Lemma failures_are_independent_witness :
  let broken := failing 0x49 is_reset (Resp (-1) []) quiet in
  agree_elsewhere 0x49 broken quiet /\
  devs_get (Adt74x0.devs_after_init false broken []) 0x49 = -2 /\
  devs_get (Adt74x0.devs_after_init false quiet []) 0x49 = 1 /\
  results_for 0x4a (out (Adt74x0.main false broken [] world0).2)
  = results_for 0x4a (out (Adt74x0.main false quiet [] world0).2).
Proof.
  cbv zeta.
  assert (Hagree : agree_elsewhere 0x49
                     (failing 0x49 is_reset (Resp (-1) []) quiet) quiet)
    by apply failing_chip_agree.
  split; [exact Hagree |].
  split; [vm_compute; reflexivity |]. split; [vm_compute; reflexivity |].
  destruct (proj1 (failures_are_independent 0x49 _ _ Hagree) false [])
    as (_ & _ & Hothers).
  destruct (Hothers 0x4a) as [_ Hlines]; [lia | lia |].
  exact Hlines.
Defined.

(** ** The codes of the error lines *)






(* ================================================================= *)
(** * Further properties of the code *)

(** ** The range of the decoded temperature *)

Lemma to_int16_range (v : Z) : -32768 <= to_int16 v < 32768.
Proof.
  unfold to_int16, wrap_signed.
  change (2 ^ (16 - 1)) with 32768. change (2 ^ 16) with 65536.
  pose proof (Z.mod_pos_bound (v + 32768) 65536). lia.
Qed.

Lemma div128_bounds (n : Z) :
  -32768 <= n < 32768 ->
  (-256 <= div128 n)%Q /\ (div128 n < 256)%Q /\ (div128 n == n # 128)%Q.
Proof.
  intros Hn. unfold div128.
  pose proof (Qred_correct (n # 128)) as Hred.
  split; [| split; [| exact Hred]]; rewrite Hred.
  - unfold Qle. cbn. lia.
  - unfold Qlt. cbn. lia.
Qed.

Lemma div128_inj (n m : Z) : div128 n = div128 m -> n = m.
Proof.
  unfold div128. intros Heq.
  assert (Hq : (n # 128 == m # 128)%Q)
    by (rewrite <- (Qred_correct (n # 128)), Heq; apply Qred_correct).
  unfold Qeq in Hq. cbn in Hq. lia.
Qed.

Lemma to_int16_mod (v : Z) : to_int16 (v mod 65536) = to_int16 v.
Proof.
  unfold to_int16, wrap_signed.
  change (2 ^ (16 - 1)) with 32768. change (2 ^ 16) with 65536.
  rewrite Zplus_mod_idemp_l. reflexivity.
Qed.

Lemma to_int16_inj (x y : Z) :
  0 <= x < 65536 -> 0 <= y < 65536 -> to_int16 x = to_int16 y -> x = y.
Proof.
  intros Hx Hy. rewrite !to_int16_signed16 by assumption.
  unfold signed16. rewrite !testbit15 by assumption.
  destruct (Z.leb_spec 32768 x), (Z.leb_spec 32768 y); lia.
Qed.

(** The word the kernel variant decodes, for any value read: only the low
    16 bits count. *)
Lemma Adt74x0_decode_any (t_raw : Z) :
  Adt74x0.decode t_raw
  = div128 (to_int16 ((t_raw mod 256) * 256 + (t_raw / 256) mod 256)).
Proof.
  unfold Adt74x0.decode. rewrite shiftr_land_ff00, land_ff.
  pose proof (Z.mod_pos_bound t_raw 256).
  pose proof (Z.mod_pos_bound (t_raw / 256) 256).
  rewrite (to_int16_small ((t_raw / 256) mod 256)) by lia.
  rewrite (to_int16_small (t_raw mod 256)) by lia.
  rewrite lor_shiftl8 by lia. reflexivity.
Qed.

(** X1. Whatever the transport hands over, the temperature either program
    decodes is a multiple of 1/128 degree between -256 (included) and 256
    (excluded).  In adt74x0.c the bits of the word above the low 16 are
    ignored. *)
Theorem decoded_temperature_range :
  (forall t_raw,
     (-256 <= Adt74x0.decode t_raw)%Q /\ (Adt74x0.decode t_raw < 256)%Q /\
     (exists n, (Adt74x0.decode t_raw == n # 128)%Q) /\
     Adt74x0.decode t_raw = Adt74x0.decode (t_raw mod 65536)) /\
  (forall buff r,
     let t := Adt74x0b.decode (Adt74x0b.received buff 2 r) in
     (-256 <= t)%Q /\ (t < 256)%Q /\ exists n, (t == n # 128)%Q).
Proof.
  split.
  - intros t_raw. rewrite !Adt74x0_decode_any.
    destruct (div128_bounds _ (to_int16_range
                 ((t_raw mod 256) * 256 + (t_raw / 256) mod 256)))
      as (Hlo & Hhi & Hgrid).
    split; [exact Hlo |]. split; [exact Hhi |]. split; [eauto |].
    do 2 f_equal.
    Z.to_euclidean_division_equations. lia.
  - intros buff r t. subst t. unfold Adt74x0b.decode.
    destruct (div128_bounds _ (to_int16_range
                 (Z.lor (Z.shiftl
                           (to_int16 (Adt74x0b.received buff 2 r !!! 0%nat))
                           8)
                    (to_int16 (Adt74x0b.received buff 2 r !!! 1%nat)))))
      as (Hlo & Hhi & Hgrid).
    eauto.
Qed.

(** X2. Every temperature on the 1/128 degree grid of the sensor is read
    back: for a 16-bit two's complement value [n], the bytes that carry [n]
    on the wire, most significant first, decode to [n / 128] in both
    programs. *)
Theorem decode_round_trip (n : Z) :
  -32768 <= n < 32768 ->
  let word := n mod 65536 in
  let msb := word / 256 in
  let lsb := word mod 256 in
  Adt74x0.decode (smbus_word msb lsb) = div128 n /\
  Adt74x0b.decode (Adt74x0b.received Adt74x0b.buff_decl 2 (Resp 0 [msb; lsb]))
  = div128 n.
Proof.
  intros Hn word msb lsb.
  assert (Hw : 0 <= word < 65536) by (apply Z.mod_pos_bound; lia).
  assert (Hm : 0 <= msb < 256)
    by (subst msb; split;
        [apply Z.div_pos; lia | apply Z.div_lt_upper_bound; lia]).
  assert (Hl : 0 <= lsb < 256) by (apply Z.mod_pos_bound; lia).
  assert (Hword : msb * 256 + lsb = word)
    by (subst msb lsb; rewrite (Z.div_mod word 256) at 3 by lia; lia).
  assert (Hback : to_int16 word = n)
    by (subst word; rewrite to_int16_mod; apply to_int16_small, Hn).
  split.
  - rewrite Adt74x0_decode_word, Hword, Hback by assumption. reflexivity.
  - rewrite Adt74x0b_received_two, Adt74x0b_decode_buff, Hword, Hback
      by assumption.
    reflexivity.
Qed.

Lemma decode_round_trip_witness :
  -32768 <= -640 < 32768 /\
  Adt74x0.decode (smbus_word 0xfd 0x80) = div128 (-640).
Proof.
  assert (Hn : -32768 <= -640 < 32768) by lia.
  split; [exact Hn |]. exact (proj1 (decode_round_trip (-640) Hn)).
Defined.

(** X3. Two different pairs of wire bytes never decode to the same
    temperature, in either program. *)
Theorem decode_injective (msb lsb msb' lsb' : Z) :
  0 <= msb < 256 -> 0 <= lsb < 256 -> 0 <= msb' < 256 -> 0 <= lsb' < 256 ->
  (Adt74x0.decode (smbus_word msb lsb) = Adt74x0.decode (smbus_word msb' lsb')
   -> msb = msb' /\ lsb = lsb') /\
  (Adt74x0b.decode [msb; lsb; 0; 0] = Adt74x0b.decode [msb'; lsb'; 0; 0]
   -> msb = msb' /\ lsb = lsb').
Proof.
  intros Hm Hl Hm' Hl'.
  rewrite !Adt74x0_decode_word, !Adt74x0b_decode_buff by assumption.
  assert (Hinj : div128 (to_int16 (msb * 256 + lsb))
                 = div128 (to_int16 (msb' * 256 + lsb')) ->
                 msb = msb' /\ lsb = lsb').
  { intros Heq. apply div128_inj, to_int16_inj in Heq; lia. }
  split; exact Hinj.
Qed.

Lemma decode_injective_witness :
  (0 <= 0x19 < 256 /\ 0 <= 0 < 256 /\ 0 <= 0x19 < 256 /\ 0 <= 1 < 256) /\
  Adt74x0.decode (smbus_word 0x19 0)
  <> Adt74x0.decode (smbus_word 0x19 1).
Proof.
  split; [lia |]. intros Heq.
  destruct (proj1 (decode_injective 0x19 0 0x19 1
                     ltac:(lia) ltac:(lia) ltac:(lia) ltac:(lia)) Heq)
    as [_ Hlsb].
  discriminate Hlsb.
Defined.

(** ** What a status says about the run *)

Ltac normalise_traces :=
  rewrite <- ?app_assoc in *; cbn [app] in *;
  rewrite ?drop_app_length, ?drop_all.

Ltac tests_to_props :=
  repeat match goal with
    | H : (_ <? 0) = true |- _ => apply Z.ltb_lt in H
    | H : (_ <? 0) = false |- _ => apply Z.ltb_ge in H
    | H : (_ =? _) = true |- _ => apply Z.eqb_eq in H
    | H : (_ =? _) = false |- _ => apply Z.eqb_neq in H
    end.

Ltac progress_tac :=
  normalise_traces; tests_to_props; cbn;
  repeat split; intros; try discriminate; try lia;
  repeat split; try reflexivity;
  try (eexists; split; [reflexivity |]; cbn [ev_resp ev_call];
       repeat split; auto; lia).

(** X4. adt74x0.c: the status of a routine tells how far it got.  For
    [init_adt74x0], -1 means that only the selection of the device was
    attempted, -2 that the device was selected and the reset attempted, -3
    and -4 (only with GOOD_I2C_BUS) that the run stopped at the identity
    check, -5 and 0 that all the steps were made; for -1, -2, -3 and -5 the
    last call made is the one that answered a negative value.  For
    [read_adt74x0], -1 means that only the selection was attempted, -6 that
    the word was read and the read failed, and in both cases [*temp] is
    left as it was; 0 that the word read is the last call and answered a
    word, whose decoding is stored in [*temp]. *)
Theorem Adt74x0_status_tells_progress GOOD respond file a temp w :
  let ini := Adt74x0.init_adt74x0 GOOD respond file a w in
  let evs := new_events (Adt74x0.init_adt74x0 GOOD respond file a) w in
  let order :=
    [Select; Reset; Settle] ++ (if GOOD then [Verify] else [])
    ++ [Configure] in
  let rd := Adt74x0.read_adt74x0 respond file a temp w in
  let revs := new_events (Adt74x0.read_adt74x0 respond file a temp) w in
  (ini.1 = -1 ->
   steps evs = [Select] /\
   exists e, last evs = Some e /\ code (ev_resp e) < 0) /\
  (ini.1 = -2 ->
   steps evs = [Select; Reset] /\
   exists e, last evs = Some e /\ code (ev_resp e) < 0) /\
  (ini.1 = -3 ->
   GOOD = true /\ steps evs = [Select; Reset; Settle; Verify] /\
   exists e, last evs = Some e /\ code (ev_resp e) < 0) /\
  (ini.1 = -4 ->
   GOOD = true /\ steps evs = [Select; Reset; Settle; Verify] /\
   exists e, last evs = Some e /\ 0 <= code (ev_resp e) /\
             Z.land (code (ev_resp e)) 0xf8 <> 0xc8) /\
  (ini.1 = -5 ->
   steps evs = order /\
   exists e, last evs = Some e /\ code (ev_resp e) < 0) /\
  (ini.1 = 0 ->
   steps evs = order /\
   exists e, last evs = Some e /\ 0 <= code (ev_resp e)) /\
  (rd.1.1 = -1 ->
   map ev_call revs = [Ioctl_I2C_SLAVE file a] /\
   rd.1.2 = temp /\
   exists e, last revs = Some e /\ code (ev_resp e) < 0) /\
  (rd.1.1 = -6 ->
   map ev_call revs
   = [Ioctl_I2C_SLAVE file a; I2c_smbus_read_word_data file T_MSB] /\
   rd.1.2 = temp /\
   exists e, last revs = Some e /\ code (ev_resp e) < 0) /\
  (rd.1.1 = 0 ->
   map ev_call revs
   = [Ioctl_I2C_SLAVE file a; I2c_smbus_read_word_data file T_MSB] /\
   exists e, last revs = Some e /\ 0 <= code (ev_resp e) /\
             rd.1.2 = Some (Adt74x0.decode (code (ev_resp e)))).
Proof.
  unfold new_events, Adt74x0.init_adt74x0, Adt74x0.init_configure,
    Adt74x0.read_adt74x0.
  destruct GOOD; exec; progress_tac.
Qed.

Lemma Adt74x0_status_tells_progress_witness :
  let respond := failing 0x48 is_reset (Resp (-1) []) quiet in
  (Adt74x0.init_adt74x0 false respond 3 0x48 world0).1 = -2 /\
  steps (new_events (Adt74x0.init_adt74x0 false respond 3 0x48) world0)
  = [Select; Reset].
Proof.
  cbv zeta.
  assert (Hstat : (Adt74x0.init_adt74x0 false
                     (failing 0x48 is_reset (Resp (-1) []) quiet) 3 0x48
                     world0).1 = -2)
    by (vm_compute; reflexivity).
  split; [exact Hstat |].
  exact (proj1 (proj1 (proj2 (Adt74x0_status_tells_progress false
                                (failing 0x48 is_reset (Resp (-1) []) quiet)
                                3 0x48 None world0)) Hstat)).
Defined.

Ltac small_reasons_tac Hsmall :=
  repeat match goal with
    | H : (to_uint8 (code (?r ?h ?t ?c)) =? 0) = _ |- _ =>
        let Hs := fresh "Hs" in
        pose proof (Hsmall h t c) as Hs; cbn beta iota in Hs;
        pose proof (to_uint8_range (code (r h t c)));
        first [apply Z.eqb_eq in H | apply Z.eqb_neq in H]
    end.

(** X5. adt74x0b.c: with reason codes below 0x0f the status of a routine
    tells how far it got and why it stopped.  For [init_adt74x0] a status
    [-(0x10 + r)] means that the reset was attempted and failed with reason
    [r], [-(0x20 + r)] that the configuration failed with reason [r],
    [-(0x30 + r)] that the read of the ID register failed with reason [r],
    -0x3f that the ID register was read and does not identify the chip, 0
    that all the steps passed; no other status is returned.  For
    [read_adt74x0] the status is 0 or [-(0x40 + r)] for a read that failed
    with reason [r]. *)
Theorem Adt74x0b_status_tells_progress respond a temp w :
  small_reasons respond ->
  let ini := Adt74x0b.init_adt74x0 respond a w in
  let evs := new_events (Adt74x0b.init_adt74x0 respond a) w in
  let rd := Adt74x0b.read_adt74x0 respond a temp w in
  let revs := new_events (Adt74x0b.read_adt74x0 respond a temp) w in
  (ini.1 = 0 \/ - 0x3f <= ini.1 <= - 0x11) /\
  (- 0x20 < ini.1 <= - 0x11 ->
   steps evs = [Select; Reset] /\
   exists e, last evs = Some e /\ reason e = - ini.1 - 0x10) /\
  (- 0x30 < ini.1 <= - 0x21 ->
   steps evs = [Select; Reset; Settle; Configure] /\
   exists e, last evs = Some e /\ reason e = - ini.1 - 0x20) /\
  (- 0x3f < ini.1 <= - 0x31 ->
   steps evs = [Select; Reset; Settle; Configure; Verify] /\
   exists e, last evs = Some e /\ reason e = - ini.1 - 0x30) /\
  (ini.1 = - 0x3f \/ ini.1 = 0 ->
   steps evs = [Select; Reset; Settle; Configure; Verify] /\
   exists e, last evs = Some e /\ reason e = 0) /\
  (rd.1.1 = 0 \/ - 0x4f < rd.1.1 <= - 0x41) /\
  (rd.1.1 < 0 ->
   exists e, last revs = Some e /\ reason e = - rd.1.1 - 0x40 /\
             rd.1.2 = temp) /\
  (rd.1.1 = 0 -> exists e, last revs = Some e /\ reason e = 0).
Proof.
  intros Hsmall.
  unfold new_events, Adt74x0b.init_adt74x0, Adt74x0b.read_adt74x0, reason.
  exec; small_reasons_tac Hsmall;
    normalise_traces; cbn;
    repeat split; intros; try lia;
    repeat split; try reflexivity;
    try (eexists; split; [reflexivity |]; cbn [ev_resp ev_call];
         repeat split; auto; lia).
Qed.

Lemma failing_small_reasons (a : Z) (bad : call -> bool) (r : Z)
    (id msb lsb : Z) :
  0 <= r < 0x0f ->
  small_reasons (failing a bad (Resp r []) (chip id msb lsb)).
Proof.
  intros Hr h tgt c. unfold failing.
  destruct c; try exact I;
    (destruct tgt as [b |];
     [destruct ((b =? a) && bad _) |]; cbn [code chip];
     rewrite ?to_uint8_small by lia; lia).
Qed.

Lemma Adt74x0b_status_tells_progress_witness :
  let respond := failing 0x48 is_reset (Resp 1 []) quiet in
  small_reasons respond /\
  - 0x20 < (Adt74x0b.init_adt74x0 respond 0x48 world0).1 <= - 0x11 /\
  steps (new_events (Adt74x0b.init_adt74x0 respond 0x48) world0)
  = [Select; Reset].
Proof.
  cbv zeta.
  assert (Hsmall : small_reasons (failing 0x48 is_reset (Resp 1 []) quiet))
    by (apply failing_small_reasons; lia).
  assert (Hstat : - 0x20 < (Adt74x0b.init_adt74x0
                              (failing 0x48 is_reset (Resp 1 []) quiet)
                              0x48 world0).1 <= - 0x11)
    by (vm_compute; split; [reflexivity | discriminate]).
  split; [exact Hsmall |]. split; [exact Hstat |].
  exact (proj1 (proj1 (proj2 (Adt74x0b_status_tells_progress
                                (failing 0x48 is_reset (Resp 1 []) quiet)
                                0x48 None world0 Hsmall)) Hstat)).
Defined.

(** ** The shape of a run *)

Lemma adds_refl ok w : adds ok w w.
Proof.
  split; [exists [] | exists []]; rewrite app_nil_r; auto.
Qed.

Lemma adds_trans ok w1 w2 w3 : adds ok w1 w2 -> adds ok w2 w3 -> adds ok w1 w3.
Proof.
  intros [(c1 & Ht1 & Hc1) (l1 & Ho1)] [(c2 & Ht2 & Hc2) (l2 & Ho2)].
  split.
  - exists (c1 ++ c2). rewrite Ht2, Ht1, <- app_assoc.
    split; [reflexivity | apply Forall_app; auto].
  - exists (l1 ++ l2). rewrite Ho2, Ho1, <- app_assoc. reflexivity.
Qed.

Lemma for_each_adds {St : Type} ok (range : list Z) (body : Z -> St -> M St)
    (s : St) (w : world) :
  (forall i s w, In i range -> adds ok w (body i s w).2) ->
  adds ok w (for_each range body s w).2.
Proof.
  intros Hbody.
  apply (for_each_inv (fun _ w' => adds ok w w')); [| apply adds_refl].
  intros i s' w' Hi Hw'. eapply adds_trans; [exact Hw' | apply Hbody, Hi].
Qed.

Ltac calls_shape :=
  rewrite <- ?app_assoc; cbn [app]; rewrite ?map_app; cbn [map ev_call];
  first [reflexivity | symmetry; apply app_nil_r].

Ltac adds_tac :=
  unfold adds; cbn [trace out fst snd]; split;
  [ eexists; split;
    [ calls_shape
    | repeat (apply List.Forall_cons;
              [cbn; rewrite ?Z.eqb_refl; reflexivity |]);
      apply List.Forall_nil ]
  | eexists; trace_shape ].

Lemma Adt74x0_init_body_adds GOOD respond file i s w :
  adds (init_call GOOD file) w (Adt74x0.init_body GOOD respond file i s w).2.
Proof.
  unfold Adt74x0.init_body, Adt74x0.init_adt74x0, Adt74x0.init_configure.
  destruct GOOD; exec; adds_tac.
Qed.

Lemma Adt74x0_read_body_adds respond file i s w :
  adds (read_call file) w (Adt74x0.read_body respond file i s w).2.
Proof.
  unfold Adt74x0.read_body, Adt74x0.read_adt74x0. exec; adds_tac.
Qed.

Lemma Adt74x0b_init_body_adds DEBUG respond i s w :
  adds bcm_init_call w (Adt74x0b.init_body DEBUG respond i s w).2.
Proof.
  unfold Adt74x0b.init_body, Adt74x0b.init_adt74x0.
  destruct DEBUG; exec; adds_tac.
Qed.

Lemma Adt74x0b_read_body_adds respond i s w :
  adds bcm_read_call w (Adt74x0b.read_body respond i s w).2.
Proof.
  unfold Adt74x0b.read_body, Adt74x0b.read_adt74x0. exec; adds_tac.
Qed.

Lemma issue_calls (respond : transport) (c : call) (w : world) :
  map ev_call (trace (issue respond c w).2) = map ev_call (trace w) ++ [c].
Proof. rewrite issue_trace, map_app. reflexivity. Qed.

(** X6. The shape of a run of adt74x0.c.  The first line written names the
    file that is opened: the first argument, or /dev/i2c-0 when there is
    none.  When [open] fails nothing else is called.  Otherwise the calls
    are, in this order: [open]; calls of the initialization (selections,
    resets, waits of 250 microseconds, reads of the ID register only with
    GOOD_I2C_BUS, writes of 0x80 to the configuration register); one wait
    of one second; calls of the read pass (selections and reads of the
    temperature word); [close] of the descriptor opened.  Every call on the
    bus uses that descriptor. *)
Theorem Adt74x0_run_shape GOOD respond argv :
  let run := Adt74x0.main GOOD respond argv world0 in
  let filename :=
    if 1 <? Z.of_nat (length argv) then nth 1 argv Adt74x0.default_file
    else Adt74x0.default_file in
  let file := code (respond [] None (Open filename)) in
  (exists ls, out run.2 = Scanning filename :: ls) /\
  (file < 0 ->
   map ev_call (trace run.2) = [Open filename] /\
   out run.2 = [Scanning filename; Unable_to_open filename]) /\
  (0 <= file ->
   exists ini rd,
     map ev_call (trace run.2)
     = Open filename :: ini ++ Usleep 1000000 :: rd ++ [Close file] /\
     Forall (fun c => init_call GOOD file c = true) ini /\
     Forall (fun c => read_call file c = true) rd).
Proof.
  intros run filename file.
  assert (Hstart : Adt74x0.start respond argv world0
                   = (file, World [Event None (Open filename)
                                     (respond [] None (Open filename))]
                              None [Scanning filename]))
    by reflexivity.
  pose proof (Adt74x0_main_run GOOD respond argv) as Hrun.
  fold run in Hrun. rewrite Hstart in Hrun. cbn [fst snd] in Hrun.
  fold filename in Hrun.
  assert (Hini : adds (init_call GOOD file)
                   (World [Event None (Open filename)
                             (respond [] None (Open filename))]
                      None [Scanning filename])
                   (Adt74x0.at_init GOOD respond argv I2C_ADDRS).2).
  { rewrite Adt74x0_at_init_eq, Hstart. cbn [fst snd].
    apply for_each_adds. intros. apply Adt74x0_init_body_adds. }
  assert (Hrd : adds (read_call file)
                  (issue respond (Usleep 1000000)
                     (Adt74x0.at_init GOOD respond argv I2C_ADDRS).2).2
                  (Adt74x0.at_read GOOD respond argv I2C_ADDRS).2).
  { rewrite Adt74x0_at_read_eq, Hstart. cbn [fst snd].
    apply for_each_adds. intros. apply Adt74x0_read_body_adds. }
  destruct Hini as [(ini & Hini & Hini_ok) (l1 & Hout1)].
  destruct Hrd as [(rd & Hrd & Hrd_ok) (l2 & Hout2)].
  rewrite issue_calls, Hini in Hrd. rewrite issue_out, Hout1 in Hout2.
  cbn [trace out map ev_call] in Hrd, Hout2.
  destruct (Z.ltb_spec file 0) as [Hneg | Hpos].
  - rewrite Hrun. cbn [fst snd trace out map ev_call app].
    split; [eauto |]. split; [auto | lia].
  - rewrite Hrun. cbn [snd]. rewrite issue_out, issue_calls, Hout2, Hrd.
    split; [cbn; eauto |]. split; [lia |].
    intros _. exists ini, rd. split; [| auto].
    rewrite <- !app_assoc. reflexivity.
Qed.

Lemma Adt74x0_run_shape_witness :
  code (no_bus quiet [] None (Open "/dev/i2c-1")) < 0 /\
  map ev_call
    (trace (Adt74x0.main true (no_bus quiet) ["adt74x0"; "/dev/i2c-1"]%string
              world0).2)
  = [Open "/dev/i2c-1"].
Proof.
  assert (Hneg : code (no_bus quiet [] None (Open "/dev/i2c-1")) < 0)
    by (vm_compute; reflexivity).
  split; [exact Hneg |].
  exact (proj1 (proj1 (proj2 (Adt74x0_run_shape true (no_bus quiet)
                                ["adt74x0"; "/dev/i2c-1"]%string)) Hneg)).
Defined.

(** X7. The shape of a run of adt74x0b.c, whatever the library answers
    (the result of [bcm2835_init] included): the status is 0, and the calls
    are, in this order: the start of the library and of its I2C part and
    the choice of 10 kHz; calls of the initialization (selections, writes
    of the reset command and of 0x80 to the configuration register, waits
    of 1 ms, one-byte reads of the ID register); one wait of one second;
    calls of the read pass (selections and two-byte reads of the
    temperature register); the end of the I2C part and of the library. *)
Theorem Adt74x0b_run_shape DEBUG respond argv :
  let run := Adt74x0b.main DEBUG respond argv world0 in
  run.1 = 0 /\
  exists ini rd,
    map ev_call (trace run.2)
    = [Bcm2835_init; Bcm2835_i2c_begin; Bcm2835_i2c_set_baudrate 10000]
      ++ ini ++ Bcm2835_delay 1000 :: rd
      ++ [Bcm2835_i2c_end; Bcm2835_close] /\
    Forall (fun c => bcm_init_call c = true) ini /\
    Forall (fun c => bcm_read_call c = true) rd.
Proof.
  intros run. subst run. rewrite Adt74x0b_main_run. cbn [fst snd].
  split; [reflexivity |].
  assert (Hini : adds bcm_init_call (Adt74x0b.start respond world0).2
                   (Adt74x0b.at_init DEBUG respond (0x4b + 1)).2).
  { rewrite Adt74x0b_at_init_eq.
    apply for_each_adds. intros. apply Adt74x0b_init_body_adds. }
  assert (Hrd : adds bcm_read_call
                  (issue respond (Bcm2835_delay 1000)
                     (Adt74x0b.at_init DEBUG respond (0x4b + 1)).2).2
                  (Adt74x0b.at_read DEBUG respond I2C_ADDRS).2).
  { rewrite Adt74x0b_at_read_eq.
    apply for_each_adds. intros. apply Adt74x0b_read_body_adds. }
  destruct Hini as [(ini & Hini & Hini_ok) _].
  destruct Hrd as [(rd & Hrd & Hrd_ok) _].
  rewrite issue_calls, Hini in Hrd.
  exists ini, rd. split; [| auto].
  rewrite !issue_calls, Hrd. rewrite <- !app_assoc. reflexivity.
Qed.

(** ** The layout of the output *)

(** A loop over an interval, with an invariant that knows the index. *)
Lemma for_each_seqZ_inv {St : Type} (I : Z -> St -> world -> Prop)
    (lo n : Z) (body : Z -> St -> M St) :
  0 <= n ->
  (forall i s w, lo <= i < lo + n -> I i s w ->
     I (i + 1) (body i s w).1 (body i s w).2) ->
  forall s w, I lo s w ->
    I (lo + n) (for_each (seqZ lo n) body s w).1
      (for_each (seqZ lo n) body s w).2.
Proof.
  intros Hn. pattern n. apply natlike_ind; [| | exact Hn]; clear n Hn.
  - intros _ s w Hs. rewrite Z.add_0_r. exact Hs.
  - intros n Hn IH Hbody s w Hs.
    rewrite <- Z.add_1_r, seqZ_app, for_each_app by lia.
    change (seqZ (lo + n) 1) with [lo + n].
    cbn [for_each]. unfold bind, ret. cbn [fst snd].
    rewrite Z.add_assoc. apply Hbody; [lia |].
    apply IH; [| exact Hs].
    intros i s' w' Hi. apply Hbody. lia.
Qed.

Lemma candidates_below_skip (i : Z) :
  ~ window i -> candidates_below (i + 1) = candidates_below i.
Proof.
  unfold window, candidates_below. intros Hi.
  destruct (Z.lt_ge_cases i 0x48).
  - rewrite !seqZ_nil by lia. reflexivity.
  - f_equal. lia.
Qed.

Lemma candidates_below_window (i : Z) :
  window i -> candidates_below (i + 1) = candidates_below i ++ [i].
Proof.
  unfold window, candidates_below. intros Hi.
  replace (Z.min (i + 1 - 72) 4) with ((i - 72) + 1) by lia.
  replace (Z.min (i - 72) 4) with (i - 72) by lia.
  rewrite seqZ_app by lia.
  replace (72 + (i - 72)) with i by lia. reflexivity.
Qed.

Lemma candidates_below_sublist (i : Z) :
  candidates_below i `sublist_of` candidates_below (i + 1).
Proof.
  destruct (decide (0x48 <= i <= 0x4b)) as [Hi | Hi].
  - rewrite candidates_below_window by exact Hi. apply sublist_inserts_r.
    reflexivity.
  - rewrite candidates_below_skip by exact Hi. reflexivity.
Qed.

Lemma listing_nil form range : listing form range [].
Proof. exists []. split; [apply sublist_nil_l | constructor]. Qed.

Lemma listing_mono form r1 r2 ls :
  r1 `sublist_of` r2 -> listing form r1 ls -> listing form r2 ls.
Proof.
  intros Hr (addrs & Hsub & Hall). exists addrs.
  split; [etransitivity; eassumption | exact Hall].
Qed.

Lemma listing_snoc form range ls a l :
  listing form range ls -> form a l ->
  listing form (range ++ [a]) (ls ++ [l]).
Proof.
  intros (addrs & Hsub & Hall) Hl. exists (addrs ++ [a]). split.
  - apply sublist_app; [exact Hsub | reflexivity].
  - apply Forall2_app; [exact Hall | repeat constructor; exact Hl].
Qed.

Lemma lists_skip form base i w :
  lists form base (candidates_below i) w ->
  lists form base (candidates_below (i + 1)) w.
Proof.
  intros (ls & Hout & Hls). exists ls. split; [exact Hout |].
  eapply listing_mono; [apply candidates_below_sublist | exact Hls].
Qed.

Lemma lists_snoc form base i w w' l :
  window i -> out w' = out w ++ [l] -> form i l ->
  lists form base (candidates_below i) w ->
  lists form base (candidates_below (i + 1)) w'.
Proof.
  intros Hi Hout' Hl (ls & Hout & Hls). exists (ls ++ [l]).
  rewrite Hout', Hout, app_assoc. split; [reflexivity |].
  rewrite candidates_below_window by exact Hi.
  apply listing_snoc; assumption.
Qed.

(** The lines of a listing are in its output. *)
Lemma listing_Forall form range ls (P : line -> Prop) :
  (forall a l, form a l -> P l) -> listing form range ls -> Forall P ls.
Proof.
  intros HP (addrs & _ & Hall).
  induction Hall; constructor; eauto.
Qed.

Lemma result_form_marked (a : Z) (l : line) :
  result_form a l -> comment l \/ exists b t, l = Temp_line b (Some t).
Proof.
  intros [(c & _ & -> & _) | (t & -> & _)]; [left; reflexivity | eauto].
Qed.

(** *** adt74x0.c *)

(** The lines the body of the first loop writes. *)
Lemma Adt74x0_init_body_out GOOD respond file i s w :
  let r := Adt74x0.init_body GOOD respond file i s w in
  out r.2 = out w \/
  GOOD = true /\ 0 < devs_get s i /\ exists id, out r.2 = out w ++ [Has_id i id].
Proof.
  unfold Adt74x0.init_body.
  destruct (Z.leb_spec (devs_get s i) 0) as [Hle | Hlive]; [now left |].
  unfold Adt74x0.init_adt74x0, Adt74x0.init_configure.
  destruct GOOD; exec;
    solve [left; reflexivity | right; split; [reflexivity |]; eauto].
Qed.

(** The lines the body of the second loop writes. *)
Lemma Adt74x0_read_body_out respond file i s w :
  let r := Adt74x0.read_body respond file i s w in
  devs_get s i <= 0 /\ r = (s, w) \/
  0 < devs_get s i /\ exists l, out r.2 = out w ++ [l] /\ result_form i l.
Proof.
  cbv zeta. destruct (Z.le_gt_cases (devs_get s i) 0) as [Hle | Hlive].
  - left. split; [exact Hle | apply Adt74x0_read_body_idle, Hle].
  - right. split; [lia |].
    destruct (Adt74x0_read_body_live respond file i s w) as [_ Hout]; [lia |].
    destruct (Adt74x0_read_result respond file i w) as [Hsame Hres].
    rewrite Hsame in Hout. eexists. split; [exact Hout |].
    apply result_line_form. destruct Hres as [[H | H] | H]; [lia | lia | auto].
Qed.

Section Adt74x0_layout.

Variable GOOD : bool.
Variable respond : transport.
Variable argv : list string.

Let file : Z := (Adt74x0.start respond argv world0).1.
Let opened : world := (Adt74x0.start respond argv world0).2.

(** The first loop: the live addresses are candidates, and the lines
    written so far are lines on the ID register, for candidates below the
    index. *)
Lemma Adt74x0_init_layout (i : Z) :
  0 <= i <= I2C_ADDRS ->
  let p := Adt74x0.at_init GOOD respond argv i in
  window_inv (fun v => 0 < v) p.1 p.2 /\
  lists id_line (out opened)
    (if GOOD then candidates_below i else []) p.2.
Proof.
  intros Hi p. subst p. rewrite Adt74x0_at_init_eq. fold file opened.
  apply (for_each_seqZ_inv
           (fun j s w =>
              window_inv (fun v => 0 < v) s w /\
              lists id_line (out opened)
                (if GOOD then candidates_below j else []) w)
           0 i); [lia | |].
  - intros j s w Hj [Hinv Hlists]. split.
    + apply (window_inv_step _ j s w);
        [lia | apply Adt74x0_init_body_touches | | exact Hinv].
      unfold Adt74x0.init_body.
      destruct (Z.leb_spec (devs_get s j) 0); [now right | left].
      apply Hinv; lia.
    + destruct (Adt74x0_init_body_out GOOD respond file j s w)
        as [Hout | (HG & Hlive & id & Hout)].
      * destruct Hlists as (ls & Hw & Hls). exists ls.
        split; [congruence |].
        destruct GOOD; [| exact Hls].
        eapply listing_mono; [apply candidates_below_sublist | exact Hls].
      * rewrite HG in *.
        apply (lists_snoc _ _ j w _ (Has_id j id));
          [apply Hinv; [lia | exact Hlive] | exact Hout | now exists id
          | exact Hlists].
  - split.
    + split; [unfold opened; repeat constructor; cbn; congruence |].
      intros j Hj. rewrite Adt74x0_mark_devs_get by exact Hj.
      unfold window. destruct (Z.leb_spec 0x48 j), (Z.leb_spec j 0x4b);
        cbn; lia.
    + exists []. split; [symmetry; apply app_nil_r | apply listing_nil].
Qed.

(** The second loop: the lines it has written are result lines, for
    candidates below the index. *)
Lemma Adt74x0_read_layout (i : Z) :
  0 <= i <= I2C_ADDRS ->
  let q := Adt74x0.at_read GOOD respond argv i in
  window_inv (fun v => 0 < v) q.1 q.2 /\
  lists result_form (out (Adt74x0.at_init GOOD respond argv I2C_ADDRS).2)
    (candidates_below i) q.2.
Proof.
  intros Hi q. subst q. rewrite Adt74x0_at_read_eq. fold file.
  destruct (Adt74x0_init_layout I2C_ADDRS) as [[Hw Hlive] _];
    [unfold I2C_ADDRS; lia |].
  apply (for_each_seqZ_inv
           (fun j s w =>
              window_inv (fun v => 0 < v) s w /\
              lists result_form
                (out (Adt74x0.at_init GOOD respond argv I2C_ADDRS).2)
                (candidates_below j) w)
           0 i); [lia | |].
  - intros j s w Hj [Hinv Hlists].
    destruct (Adt74x0_read_body_out respond file j s w)
      as [[_ ->] | (Hpos & l & Hout & Hl)].
    + split; [exact Hinv | apply lists_skip, Hlists].
    + split.
      * apply (window_inv_step _ j s w);
          [lia | apply Adt74x0_read_body_touches | left | exact Hinv].
        apply Hinv; [lia | exact Hpos].
      * apply (lists_snoc _ _ j w _ l);
          [apply Hinv; [lia | exact Hpos] | exact Hout | exact Hl
          | exact Hlists].
  - split.
    + split; [apply in_window_issue; [reflexivity | exact Hw] | exact Hlive].
    + exists []. rewrite issue_out.
      split; [symmetry; apply app_nil_r | apply listing_nil].
Qed.

End Adt74x0_layout.

(** X8. The output of adt74x0.c when the bus could be opened: the line
    that names the bus; then, only in a build with GOOD_I2C_BUS, lines on
    the ID register; then the result lines.  Both groups are in ascending
    order of address, with at most one line for each of 0x48 .. 0x4b and
    none for another address; a result line is an error annotation with a
    negative code or a temperature.  Every line but the temperature lines
    starts with a hash sign and a space. *)
Theorem Adt74x0_output_layout GOOD respond argv :
  let run := Adt74x0.main GOOD respond argv world0 in
  let filename :=
    if 1 <? Z.of_nat (length argv) then nth 1 argv Adt74x0.default_file
    else Adt74x0.default_file in
  0 <= code (respond [] None (Open filename)) ->
  exists ids results,
    out run.2 = Scanning filename :: ids ++ results /\
    listing id_line (if GOOD then candidates else []) ids /\
    listing result_form candidates results /\
    Forall (fun l => comment l \/ exists a t, l = Temp_line a (Some t))
      (out run.2).
Proof.
  intros run filename Hfile.
  assert (Hstart : Adt74x0.start respond argv world0
                   = (code (respond [] None (Open filename)),
                      World [Event None (Open filename)
                               (respond [] None (Open filename))]
                        None [Scanning filename]))
    by reflexivity.
  pose proof (Adt74x0_main_run GOOD respond argv) as Hrun.
  fold run in Hrun. rewrite Hstart in Hrun. cbn [fst snd] in Hrun.
  destruct (Z.ltb_spec (code (respond [] None (Open filename))) 0)
    as [Hneg | _]; [lia |].
  destruct (Adt74x0_init_layout GOOD respond argv I2C_ADDRS)
    as [_ (ids & Hids & Hidl)]; [unfold I2C_ADDRS; lia |].
  destruct (Adt74x0_read_layout GOOD respond argv I2C_ADDRS)
    as [_ (results & Hres & Hresl)]; [unfold I2C_ADDRS; lia |].
  rewrite Hstart in Hids. cbn [snd out] in Hids.
  assert (Hout : out run.2 = Scanning filename :: ids ++ results).
  { rewrite Hrun. cbn [snd]. rewrite issue_out, Hres, Hids, <- app_assoc.
    reflexivity. }
  exists ids, results. split; [exact Hout |].
  split; [exact Hidl |]. split; [exact Hresl |].
  rewrite Hout. constructor; [left; reflexivity |].
  apply Forall_app. split.
  - eapply listing_Forall; [| exact Hidl].
    intros a l [id ->]. left. reflexivity.
  - eapply listing_Forall; [| exact Hresl]. apply result_form_marked.
Qed.

Lemma Adt74x0_output_layout_witness :
  0 <= code (quiet [] None (Open Adt74x0.default_file)) /\
  exists ids results,
    out (Adt74x0.main true quiet ["adt74x0"%string] world0).2
    = Scanning Adt74x0.default_file :: ids ++ results /\
    listing id_line candidates ids /\
    listing result_form candidates results.
Proof.
  assert (Hfile : 0 <= code (quiet [] None (Open Adt74x0.default_file)))
    by (apply Z.leb_le; vm_compute; reflexivity).
  split; [exact Hfile |].
  destruct (Adt74x0_output_layout true quiet ["adt74x0"%string] Hfile)
    as (ids & results & Hout & Hids & Hres & _).
  exists ids, results. auto.
Defined.

(** *** adt74x0b.c *)

Lemma Adt74x0b_init_out respond a w :
  out (Adt74x0b.init_adt74x0 respond a w).2 = out w.
Proof. unfold Adt74x0b.init_adt74x0. exec; reflexivity. Qed.

(** The status of [init_adt74x0]: at least -(0x30 + 0xff). *)
Lemma Adt74x0b_init_status_range respond a w :
  -0x12f <= (Adt74x0b.init_adt74x0 respond a w).1 <= 0.
Proof.
  unfold Adt74x0b.init_adt74x0. exec; cbn [fst]; try lia;
    match goal with
    | |- context [to_uint8 ?x] => pose proof (to_uint8_range x); lia
    end.
Qed.

(** The lines the body of the first loop writes: one in a DEBUG build. *)
Lemma Adt74x0b_init_body_out DEBUG respond i s w :
  exists ls,
    out (Adt74x0b.init_body DEBUG respond i s w).2 = out w ++ ls /\
    Forall2 debug_line (if DEBUG then [i] else []) ls.
Proof.
  unfold Adt74x0b.init_body. unfold bind at 1.
  pose proof (Adt74x0b_init_out respond (to_uint8 i) w) as Hout.
  pose proof (Adt74x0b_init_status_range respond (to_uint8 i) w) as Hcodes.
  destruct (Adt74x0b.init_adt74x0 respond (to_uint8 i) w) as [stat w'].
  cbn [fst snd] in *.
  destruct DEBUG; run_monad; rewrite Hout.
  - eexists. split; [reflexivity |].
    repeat constructor. exists (- stat). split; [lia | reflexivity].
  - exists []. split; [symmetry; apply app_nil_r | constructor].
Qed.

(** The lines the body of the second loop writes. *)
Lemma Adt74x0b_read_body_out respond i s w :
  0 <= i < 256 ->
  let r := Adt74x0b.read_body respond i s w in
  devs_get s i <> 0 /\ r = (s, w) \/
  devs_get s i = 0 /\ exists l, out r.2 = out w ++ [l] /\ result_form i l.
Proof.
  intros Hi. cbv zeta.
  destruct (Z.eq_dec (devs_get s i) 0) as [Hlive | Hne].
  - right. split; [exact Hlive |].
    destruct (Adt74x0b_read_body_live respond i s w) as [_ Hout];
      [exact Hi | exact Hlive |].
    destruct (Adt74x0b_read_result respond i w) as [Hsame Hres].
    rewrite Hsame in Hout. eexists. split; [exact Hout |].
    apply result_line_form.
    destruct Hres as [(reason & Hreason & H) | H]; [lia | auto].
  - left. split; [exact Hne | apply Adt74x0b_read_body_idle, Hne].
Qed.

Section Adt74x0b_layout.

Variable DEBUG : bool.
Variable respond : transport.

(** The first loop: the live addresses are candidates, and in a DEBUG
    build one line is written for each address visited. *)
Lemma Adt74x0b_init_layout (i : Z) :
  0x48 <= i <= 0x4b + 1 ->
  let p := Adt74x0b.at_init DEBUG respond i in
  window_inv (fun v => v = 0) p.1 p.2 /\
  exists ls,
    out p.2 = ls /\
    Forall2 debug_line (if DEBUG then seqZ 0x48 (i - 0x48) else []) ls.
Proof.
  intros Hi p. subst p. rewrite Adt74x0b_at_init_eq.
  pose proof (for_each_seqZ_inv
                (fun j s w =>
                   window_inv (fun v => v = 0) s w /\
                   exists ls,
                     out w = ls /\
                     Forall2 debug_line
                       (if DEBUG then seqZ 0x48 (j - 0x48) else []) ls)
                0x48 (i - 0x48) (Adt74x0b.init_body DEBUG respond)) as Hloop.
  replace (72 + (i - 72)) with i in Hloop by lia.
  apply Hloop; [lia | |]; clear Hloop.
  - intros j s w Hj [Hinv (ls & Hout & Hls)]. split.
    + apply (window_inv_step _ j s w);
        [unfold I2C_ADDRS; lia
        | apply Adt74x0b_init_body_touches; lia
        | left; unfold window; lia | exact Hinv].
    + destruct (Adt74x0b_init_body_out DEBUG respond j s w)
        as (l & Hout' & Hl).
      eexists. split; [reflexivity |]. rewrite Hout', Hout.
      destruct DEBUG; [| inversion Hl; rewrite app_nil_r; exact Hls].
      replace (j + 1 - 72) with ((j - 72) + 1) by lia.
      rewrite seqZ_app by lia.
      replace (72 + (j - 72)) with j by lia.
      apply Forall2_app; assumption.
  - split.
    + split; [repeat constructor; cbn; congruence |].
      intros j Hj. rewrite Adt74x0b_mark_devs_get by exact Hj. lia.
    + exists []. split; [reflexivity |].
      destruct DEBUG; constructor.
Qed.

(** The second loop: the lines it has written are result lines, for
    candidates below the index. *)
Lemma Adt74x0b_read_layout (i : Z) :
  0 <= i <= I2C_ADDRS ->
  let q := Adt74x0b.at_read DEBUG respond i in
  window_inv (fun v => v = 0) q.1 q.2 /\
  lists result_form (out (Adt74x0b.at_init DEBUG respond (0x4b + 1)).2)
    (candidates_below i) q.2.
Proof.
  intros Hi q. subst q. rewrite Adt74x0b_at_read_eq.
  destruct (Adt74x0b_init_layout (0x4b + 1)) as [[Hw Hlive] _]; [lia |].
  apply (for_each_seqZ_inv
           (fun j s w =>
              window_inv (fun v => v = 0) s w /\
              lists result_form
                (out (Adt74x0b.at_init DEBUG respond (0x4b + 1)).2)
                (candidates_below j) w)
           0 i); [lia | |].
  - intros j s w Hj [Hinv Hlists].
    assert (Hj' : 0 <= j < 256) by (unfold I2C_ADDRS in *; lia).
    destruct (Adt74x0b_read_body_out respond j s w Hj')
      as [[_ ->] | (Hzero & l & Hout & Hl)].
    + split; [exact Hinv | apply lists_skip, Hlists].
    + split.
      * apply (window_inv_step _ j s w);
          [lia | apply Adt74x0b_read_body_touches, Hj' | left | exact Hinv].
        apply Hinv; [lia | exact Hzero].
      * apply (lists_snoc _ _ j w _ l);
          [apply Hinv; [lia | exact Hzero] | exact Hout | exact Hl
          | exact Hlists].
  - split.
    + split; [apply in_window_issue; [reflexivity | exact Hw] | exact Hlive].
    + exists []. rewrite issue_out.
      split; [symmetry; apply app_nil_r | apply listing_nil].
Qed.

End Adt74x0b_layout.

(** The line of the DEBUG build for the address [i]: it shows the status
    [init_adt74x0] has just returned, negated. *)
Lemma Adt74x0b_at_init_out DEBUG respond i :
  0x48 <= i < 256 ->
  out (Adt74x0b.at_init DEBUG respond (i + 1)).2
  = out (Adt74x0b.at_init DEBUG respond i).2
    ++ (if DEBUG
        then [Scan_debug i
                (- (Adt74x0b.init_adt74x0 respond i
                      (Adt74x0b.at_init DEBUG respond i).2).1)]
        else []).
Proof.
  intros Hi. rewrite (Adt74x0b_at_init_eq DEBUG respond (i + 1)).
  replace (i + 1 - 72) with ((i - 72) + 1) by lia.
  rewrite seqZ_app, for_each_app by lia.
  replace (72 + (i - 72)) with i by lia.
  rewrite <- (Adt74x0b_at_init_eq DEBUG respond i).
  change (seqZ i 1) with [i]. cbn [for_each]. unfold bind at 1, ret.
  cbn [snd]. unfold Adt74x0b.init_body.
  rewrite to_uint8_small by lia. unfold bind at 1.
  destruct DEBUG; run_monad; rewrite Adt74x0b_init_out, ?app_nil_r;
    reflexivity.
Qed.

Lemma Adt74x0b_debug_lines DEBUG respond n :
  0 <= n -> n <= 4 ->
  out (Adt74x0b.at_init DEBUG respond (0x48 + n)).2
  = if DEBUG
    then map (fun a =>
                Scan_debug a
                  (- (Adt74x0b.init_adt74x0 respond a
                        (Adt74x0b.at_init DEBUG respond a).2).1))
           (seqZ 0x48 n)
    else [].
Proof.
  intros Hn. pattern n. apply natlike_ind; [| | exact Hn]; clear n Hn.
  - intros _. rewrite Adt74x0b_at_init_eq. destruct DEBUG; reflexivity.
  - intros n Hn IH Hle. rewrite <- Z.add_1_r, Z.add_assoc.
    rewrite Adt74x0b_at_init_out, IH by lia.
    destruct DEBUG; [| reflexivity].
    rewrite seqZ_app, map_app by lia. reflexivity.
Qed.

(** X9. The output of adt74x0b.c: in a DEBUG build, first one line for
    each of 0x48, 0x49, 0x4a, 0x4b, in this order, which shows the status
    [init_adt74x0] returned for the address, negated, a value from 0 to
    0x12f; then, in every build,
    the result lines, in ascending order of address, with at most one line
    for each of 0x48 .. 0x4b and none for another address.  Nothing else is
    written, whatever the library answers.  Every line but the temperature
    lines starts with a hash sign and a space. *)
Theorem Adt74x0b_output_layout DEBUG respond argv :
  let run := Adt74x0b.main DEBUG respond argv world0 in
  let status a :=
    (Adt74x0b.init_adt74x0 respond a
       (Adt74x0b.at_init DEBUG respond a).2).1 in
  exists dbg results,
    out run.2 = dbg ++ results /\
    dbg = (if DEBUG
           then map (fun a => Scan_debug a (- status a)) candidates
           else []) /\
    Forall2 debug_line (if DEBUG then candidates else []) dbg /\
    listing result_form candidates results /\
    Forall (fun l => comment l \/ exists a t, l = Temp_line a (Some t))
      (out run.2).
Proof.
  intros run status.
  destruct (Adt74x0b_init_layout DEBUG respond (0x4b + 1))
    as [_ (dbg & Hdbg & Hdbgl)]; [lia |].
  destruct (Adt74x0b_read_layout DEBUG respond I2C_ADDRS)
    as [_ (results & Hres & Hresl)]; [unfold I2C_ADDRS; lia |].
  assert (Hout : out run.2 = dbg ++ results).
  { subst run. rewrite Adt74x0b_main_run. cbn [snd].
    rewrite !issue_out, Hres, Hdbg. reflexivity. }
  exists dbg, results. split; [exact Hout |].
  split.
  { rewrite <- Hdbg. change (0x4b + 1) with (0x48 + 4).
    apply Adt74x0b_debug_lines; lia. }
  split; [exact Hdbgl |]. split; [exact Hresl |].
  rewrite Hout. apply Forall_app. split.
  - clear Hdbg Hout. induction Hdbgl as [| a l addrs ls (c & _ & ->) _ IH];
      constructor; [left; reflexivity | exact IH].
  - eapply listing_Forall; [| exact Hresl]. apply result_form_marked.
Qed.

(** ** The traffic on the bus *)

Ltac traffic_tac :=
  rewrite <- ?app_assoc; cbn [app]; rewrite probes_app;
  repeat first [ rewrite probes_cons_at by reflexivity
               | rewrite probes_cons_skip by reflexivity ];
  change (probes _ []) with (@nil event);
  (eexists; split; [reflexivity |]); cbn [length]; lia.

Lemma Adt74x0_init_traffic GOOD respond file a w :
  exists evs,
    probes a (trace (Adt74x0.init_adt74x0 GOOD respond file a w).2)
    = probes a (trace w) ++ evs /\
    (length evs <= if GOOD then 4 else 3)%nat.
Proof.
  unfold Adt74x0.init_adt74x0, Adt74x0.init_configure.
  destruct GOOD; exec; traffic_tac.
Qed.

Lemma Adt74x0_read_traffic respond file a w :
  exists evs,
    probes a (trace (Adt74x0.read_adt74x0 respond file a None w).2)
    = probes a (trace w) ++ evs /\
    (length evs <= 2)%nat.
Proof. unfold Adt74x0.read_adt74x0. exec; traffic_tac. Qed.

Lemma Adt74x0b_init_traffic respond a w :
  exists evs,
    probes a (trace (Adt74x0b.init_adt74x0 respond a w).2)
    = probes a (trace w) ++ evs /\
    (length evs <= 4)%nat.
Proof. unfold Adt74x0b.init_adt74x0. exec; traffic_tac. Qed.

Lemma Adt74x0b_read_traffic respond a w :
  exists evs,
    probes a (trace (Adt74x0b.read_adt74x0 respond a None w).2)
    = probes a (trace w) ++ evs /\
    (length evs <= 2)%nat.
Proof. unfold Adt74x0b.read_adt74x0. exec; traffic_tac. Qed.

Ltac calls_tac :=
  rewrite <- ?app_assoc; cbn [app];
  rewrite ?drop_app_length, ?drop_all;
  split;
  [ unfold bus_ops;
    repeat first [ rewrite filter_cons_True by reflexivity
                 | rewrite filter_cons_False by discriminate ];
    rewrite filter_nil; cbn [length]; lia
  | cbn [map ev_call];
    repeat (constructor; [cbn [In]; intuition discriminate |]);
    constructor ].

(** One call of a routine: its bus operations are few, and it makes no
    call twice. *)
Lemma Adt74x0_init_calls GOOD respond file a w :
  let evs := new_events (Adt74x0.init_adt74x0 GOOD respond file a) w in
  (length (bus_ops evs) <= if GOOD then 4 else 3)%nat /\
  List.NoDup (map ev_call evs).
Proof.
  unfold new_events, Adt74x0.init_adt74x0, Adt74x0.init_configure.
  destruct GOOD; exec; calls_tac.
Qed.

Lemma Adt74x0_read_calls respond file a temp w :
  let evs := new_events (Adt74x0.read_adt74x0 respond file a temp) w in
  (length (bus_ops evs) <= 2)%nat /\ List.NoDup (map ev_call evs).
Proof. unfold new_events, Adt74x0.read_adt74x0. exec; calls_tac. Qed.

Lemma Adt74x0b_init_calls respond a w :
  let evs := new_events (Adt74x0b.init_adt74x0 respond a) w in
  (length (bus_ops evs) <= 4)%nat /\ List.NoDup (map ev_call evs).
Proof. unfold new_events, Adt74x0b.init_adt74x0. exec; calls_tac. Qed.

Lemma Adt74x0b_read_calls respond a temp w :
  let evs := new_events (Adt74x0b.read_adt74x0 respond a temp) w in
  (length (bus_ops evs) <= 2)%nat /\ List.NoDup (map ev_call evs).
Proof. unfold new_events, Adt74x0b.read_adt74x0. exec; calls_tac. Qed.

(** X10. Neither program repeats an operation on the bus.  One call of
    [init_adt74x0] makes at most 4 bus operations (selections and
    transfers; 3 in adt74x0.c without GOOD_I2C_BUS), one call of
    [read_adt74x0] at most 2, and neither makes the same call twice.  In a
    run, the operations directed at one address are at most 6 (5 in
    adt74x0.c without GOOD_I2C_BUS).  Whatever the devices answer, for
    every address. *)
Theorem bus_traffic_bounded (a : Z) :
  (forall GOOD respond argv,
     (length (probes a (trace (Adt74x0.main GOOD respond argv world0).2))
      <= if GOOD then 6 else 5)%nat) /\
  (forall DEBUG respond argv,
     (length (probes a (trace (Adt74x0b.main DEBUG respond argv world0).2))
      <= 6)%nat) /\
  (forall GOOD respond file w,
     let evs := new_events (Adt74x0.init_adt74x0 GOOD respond file a) w in
     (length (bus_ops evs) <= if GOOD then 4 else 3)%nat /\
     List.NoDup (map ev_call evs)) /\
  (forall respond file temp w,
     let evs := new_events (Adt74x0.read_adt74x0 respond file a temp) w in
     (length (bus_ops evs) <= 2)%nat /\ List.NoDup (map ev_call evs)) /\
  (forall respond w,
     let evs := new_events (Adt74x0b.init_adt74x0 respond a) w in
     (length (bus_ops evs) <= 4)%nat /\ List.NoDup (map ev_call evs)) /\
  (forall respond temp w,
     let evs := new_events (Adt74x0b.read_adt74x0 respond a temp) w in
     (length (bus_ops evs) <= 2)%nat /\ List.NoDup (map ev_call evs)).
Proof.
  assert (Hruns :
            (forall GOOD respond argv,
               (length
                  (probes a
                     (trace (Adt74x0.main GOOD respond argv world0).2))
                <= if GOOD then 6 else 5)%nat) /\
            (forall DEBUG respond argv,
               (length
                  (probes a
                     (trace (Adt74x0b.main DEBUG respond argv world0).2))
                <= 6)%nat));
    [| destruct Hruns as [Hrun Hrunb];
       split; [exact Hrun |]; split; [exact Hrunb |];
       split; [intros; apply Adt74x0_init_calls |];
       split; [intros; apply Adt74x0_read_calls |];
       split; [intros; apply Adt74x0b_init_calls
              | intros; apply Adt74x0b_read_calls]].
  destruct (decide (0x48 <= a <= 0x4b)) as [Hwin | Hout]; split; intros.
  - destruct ((Adt74x0.start respond argv world0).1 <? 0) eqn:Hfile.
    + rewrite Adt74x0_main_run, Hfile. cbn [snd trace].
      assert (Hnone : probes a (trace (Adt74x0.start respond argv world0).2)
                      = [])
        by (apply probes_no_bus_op; reflexivity).
      rewrite Hnone. destruct GOOD; cbn; lia.
    + destruct (Adt74x0_probes_final GOOD respond argv a Hwin Hfile)
        as (Hp & Hq & Hfinal).
      rewrite Hfinal.
      destruct (Adt74x0_init_traffic GOOD respond
                  (Adt74x0.start respond argv world0).1 a
                  (Adt74x0.at_init GOOD respond argv a).2)
        as (evs & Hini & Hlen).
      destruct (Adt74x0_read_traffic respond
                  (Adt74x0.start respond argv world0).1 a
                  (Adt74x0.at_read GOOD respond argv a).2)
        as (evs' & Hrd & Hlen').
      rewrite Hq, Hini, Hp in Hrd. rewrite Hp in Hini. cbn [app] in *.
      match goal with
      | |- context [if ?x <? 0 then _ else _] => destruct (x <? 0)
      end; [rewrite Hini | rewrite Hrd, length_app]; destruct GOOD; lia.
  - destruct (Adt74x0b_probes_final DEBUG respond argv a Hwin)
      as (Hp & Hq & Hfinal).
    rewrite Hfinal.
    destruct (Adt74x0b_init_traffic respond a
                (Adt74x0b.at_init DEBUG respond a).2)
      as (evs & Hini & Hlen).
    destruct (Adt74x0b_read_traffic respond a
                (Adt74x0b.at_read DEBUG respond a).2)
      as (evs' & Hrd & Hlen').
    rewrite Hq, Hini, Hp in Hrd. rewrite Hp in Hini. cbn [app] in *.
    match goal with
    | |- context [if ?x =? 0 then _ else _] => destruct (x =? 0)
    end; [rewrite Hrd, length_app | rewrite Hini]; lia.
  - rewrite (in_window_probes a _ (Adt74x0_window_inv GOOD respond argv))
      by exact Hout.
    destruct GOOD; cbn; lia.
  - rewrite (in_window_probes a _ (Adt74x0b_window_inv DEBUG respond argv))
      by exact Hout.
    cbn; lia.
Qed.

(** ** Temperature lines and the transcript *)

Lemma measured_ext (reading : Z -> double -> event -> Prop) (w w' : world)
    (evs : list event) (ls : list line) :
  measured reading w ->
  trace w' = trace w ++ evs -> out w' = out w ++ ls ->
  (forall a t, In (Temp_line a t) ls ->
     exists e x, t = Some x /\ In e evs /\ reading a x e) ->
  (forall e a x, In e evs -> reading a x e ->
     In (Temp_line a (Some x)) ls) ->
  measured reading w'.
Proof.
  intros [Hlines Hevents] Ht Ho Hnew_lines Hnew_events. split.
  - intros a t Hin. rewrite Ho in Hin. rewrite Ht.
    apply in_app_or in Hin. destruct Hin as [Hold | Hnew].
    + destruct (Hlines a t Hold) as (e & x & Hx & He & Hr).
      exists e, x. repeat split; [exact Hx | apply in_or_app; now left
                                 | exact Hr].
    + destruct (Hnew_lines a t Hnew) as (e & x & Hx & He & Hr).
      exists e, x. repeat split; [exact Hx | apply in_or_app; now right
                                 | exact Hr].
  - intros e a x Hin Hr. rewrite Ht in Hin. rewrite Ho.
    apply in_app_or in Hin. apply in_or_app. destruct Hin as [Hold | Hnew].
    + left. eapply Hevents; eassumption.
    + right. eapply Hnew_events; eassumption.
Qed.

Lemma measured_issue reading respond c w :
  (forall tgt r a x, ~ reading a x (Event tgt c r)) ->
  measured reading w -> measured reading (issue respond c w).2.
Proof.
  intros Hc H.
  eapply measured_ext;
    [exact H | apply issue_trace
    | rewrite issue_out; symmetry; apply app_nil_r | |].
  - intros a t [].
  - intros e a x [<- | []] Hr. exfalso. eapply Hc, Hr.
Qed.

Lemma measured_printf reading l w :
  (forall a t, l <> Temp_line a t) ->
  measured reading w -> measured reading (printf l w).2.
Proof.
  intros Hl H.
  eapply measured_ext;
    [exact H | symmetry; apply app_nil_r | reflexivity | |].
  - intros a t [Heq | []]. exfalso. eapply Hl, Heq.
  - intros e a x [].
Qed.

Lemma measured_world0 reading : measured reading world0.
Proof. split; [intros a t [] | intros e a x []]. Qed.

Ltac tests_as_facts :=
  repeat match goal with
    | H : (_ <? 0) = true |- _ => apply Z.ltb_lt in H
    | H : (_ <? 0) = false |- _ => apply Z.ltb_ge in H
    | H : (_ =? 0) = true |- _ => apply Z.eqb_eq in H
    | H : (_ =? 0) = false |- _ => apply Z.eqb_neq in H
    end.

Ltac measured_lines :=
  cbn [In]; intros ? ? Hline;
  repeat (destruct Hline as [Hline | Hline]);
  first [ contradiction
        | discriminate Hline
        | injection Hline as <- <-;
          eexists _, _; split; [reflexivity |];
          split; [cbn [In]; eauto 6 |];
          hnf; cbn [ev_target ev_call ev_resp];
          tests_as_facts; repeat split; auto; lia ].

Ltac measured_events :=
  cbn [In]; intros ? ? ? Hev Hreading;
  repeat (destruct Hev as [<- | Hev]); try contradiction;
  hnf in Hreading; cbn [ev_target ev_call ev_resp] in Hreading;
  destruct Hreading as (Htgt & Hcall & Hcode & ->);
  try discriminate Hcall;
  tests_as_facts;
  first [ exfalso; lia | exfalso; congruence
        | left; injection Htgt as <-; reflexivity ].

Ltac measured_tac H :=
  eapply measured_ext;
  [exact H | trace_shape | trace_shape | measured_lines | measured_events].

Lemma Adt74x0_init_body_measured GOOD respond file i s w :
  measured (word_reading file) w ->
  measured (word_reading file)
    (Adt74x0.init_body GOOD respond file i s w).2.
Proof.
  intros H. revert H.
  unfold Adt74x0.init_body, Adt74x0.init_adt74x0, Adt74x0.init_configure.
  destruct GOOD; exec; intros H; try exact H; measured_tac H.
Qed.

Lemma Adt74x0_read_body_measured respond file i s w :
  measured (word_reading file) w ->
  measured (word_reading file) (Adt74x0.read_body respond file i s w).2.
Proof.
  intros H. revert H.
  unfold Adt74x0.read_body, Adt74x0.read_adt74x0.
  exec; intros H; try exact H; try discriminate; measured_tac H.
Qed.

Lemma Adt74x0b_init_body_measured DEBUG respond i s w :
  measured bytes_reading w ->
  measured bytes_reading (Adt74x0b.init_body DEBUG respond i s w).2.
Proof.
  intros H. revert H.
  unfold Adt74x0b.init_body, Adt74x0b.init_adt74x0.
  destruct DEBUG; exec; intros H; measured_tac H.
Qed.

Lemma Adt74x0b_read_body_measured respond i s w :
  0 <= i < 256 ->
  measured bytes_reading w ->
  measured bytes_reading (Adt74x0b.read_body respond i s w).2.
Proof.
  intros Hi H. revert H.
  unfold Adt74x0b.read_body, Adt74x0b.read_adt74x0.
  rewrite to_uint8_small by exact Hi.
  exec; intros H; try exact H; try discriminate;
    try (exfalso; tests_as_facts;
         match goal with
         | H : context [to_uint8 ?x] |- _ => pose proof (to_uint8_range x)
         end; lia);
    measured_tac H.
Qed.

(** X11. Either program prints the temperatures it has read, and nothing
    else as a temperature.  In a run, a temperature line for the address
    [a] holds the value decoded from the answer to a successful read of
    the temperature register made while the device at [a] was selected;
    and every such read has its line.  (A read is successful with a result
    that is not negative in adt74x0.c, with the reason code 0 in
    adt74x0b.c.)  In particular no line holds a temperature that was never
    stored. *)
Theorem temperatures_are_readings :
  (forall GOOD respond argv,
     measured (word_reading (Adt74x0.start respond argv world0).1)
       (Adt74x0.main GOOD respond argv world0).2) /\
  (forall DEBUG respond argv,
     measured bytes_reading (Adt74x0b.main DEBUG respond argv world0).2).
Proof.
  split.
  - intros GOOD respond argv.
    set (file := (Adt74x0.start respond argv world0).1).
    assert (Hcall : forall c,
               (forall f reg, c <> I2c_smbus_read_word_data f reg) ->
               forall tgt r a x, ~ word_reading file a x (Event tgt c r)).
    { intros c Hc tgt r a x (_ & Heq & _). cbn in Heq. eapply Hc, Heq. }
    assert (Hopen : measured (word_reading file)
                      (Adt74x0.start respond argv world0).2).
    { unfold Adt74x0.start, bind, ret. cbn [fst snd].
      apply measured_issue; [apply Hcall; discriminate |].
      apply measured_printf; [discriminate | apply measured_world0]. }
    rewrite Adt74x0_main_run. fold file.
    destruct (file <? 0); cbn [snd].
    + apply (measured_printf _ (Unable_to_open _)
               (Adt74x0.start respond argv world0).2);
        [discriminate | exact Hopen].
    + apply measured_issue; [apply Hcall; discriminate |].
      rewrite Adt74x0_at_read_eq. fold file.
      apply (for_each_inv (fun _ w => measured (word_reading file) w)).
      { intros i s w _. apply Adt74x0_read_body_measured. }
      apply measured_issue; [apply Hcall; discriminate |].
      rewrite Adt74x0_at_init_eq. fold file.
      apply (for_each_inv (fun _ w => measured (word_reading file) w)).
      { intros i s w _. apply Adt74x0_init_body_measured. }
      exact Hopen.
  - intros DEBUG respond argv.
    assert (Hcall : forall c,
               (forall reg len, c <> Bcm2835_i2c_read_register_rs reg len) ->
               forall tgt r a x, ~ bytes_reading a x (Event tgt c r)).
    { intros c Hc tgt r a x (_ & Heq & _). cbn in Heq. eapply Hc, Heq. }
    rewrite Adt74x0b_main_run. cbn [snd].
    do 2 (apply measured_issue; [apply Hcall; discriminate |]).
    rewrite Adt74x0b_at_read_eq.
    apply (for_each_inv (fun _ w => measured bytes_reading w)).
    { intros i s w Hi. apply In_seqZ in Hi.
      apply Adt74x0b_read_body_measured. unfold I2C_ADDRS in Hi. lia. }
    apply measured_issue; [apply Hcall; discriminate |].
    rewrite Adt74x0b_at_init_eq.
    apply (for_each_inv (fun _ w => measured bytes_reading w)).
    { intros i s w _. apply Adt74x0b_init_body_measured. }
    unfold Adt74x0b.start, bind, ret. cbn [snd].
    do 3 (apply measured_issue; [apply Hcall; discriminate |]).
    apply measured_world0.
Qed.

(** ** The DEBUG build of adt74x0b.c *)

Lemma without_debug_snoc_debug (o : list line) (a c : Z) :
  without_debug (o ++ [Scan_debug a c]) = without_debug o.
Proof.
  unfold without_debug. rewrite filter_app, filter_cons_False by discriminate.
  apply app_nil_r.
Qed.

Lemma same_but_debug_issue respond c s1 w1 s2 w2 :
  same_but_debug s1 w1 s2 w2 ->
  same_but_debug s1 (issue respond c w1).2 s2 (issue respond c w2).2.
Proof.
  intros (Hs & Ht & Hsel & Ho). unfold same_but_debug, issue.
  cbn [fst snd trace selected out]. rewrite Ht, Hsel. auto.
Qed.

(** The routines see the transcript and the device selected only. *)
Lemma Adt74x0b_init_same respond a w1 w2 :
  trace w1 = trace w2 -> selected w1 = selected w2 ->
  let r1 := Adt74x0b.init_adt74x0 respond a w1 in
  let r2 := Adt74x0b.init_adt74x0 respond a w2 in
  r1.1 = r2.1 /\ trace r1.2 = trace r2.2 /\ selected r1.2 = selected r2.2 /\
  out r1.2 = out w1 /\ out r2.2 = out w2.
Proof.
  destruct w1 as [t1 d1 o1], w2 as [t2 d2 o2]. cbn [trace selected].
  intros -> ->. unfold Adt74x0b.init_adt74x0. exec; repeat split.
Qed.

Lemma Adt74x0b_read_same respond a w1 w2 :
  trace w1 = trace w2 -> selected w1 = selected w2 ->
  let r1 := Adt74x0b.read_adt74x0 respond a None w1 in
  let r2 := Adt74x0b.read_adt74x0 respond a None w2 in
  r1.1 = r2.1 /\ trace r1.2 = trace r2.2 /\ selected r1.2 = selected r2.2 /\
  out r1.2 = out w1 /\ out r2.2 = out w2.
Proof.
  destruct w1 as [t1 d1 o1], w2 as [t2 d2 o2]. cbn [trace selected].
  intros -> ->. unfold Adt74x0b.read_adt74x0. exec; repeat split.
Qed.

Lemma Adt74x0b_init_body_same respond i s1 w1 s2 w2 :
  same_but_debug s1 w1 s2 w2 ->
  let r1 := Adt74x0b.init_body true respond i s1 w1 in
  let r2 := Adt74x0b.init_body false respond i s2 w2 in
  same_but_debug r1.1 r1.2 r2.1 r2.2.
Proof.
  intros (-> & Ht & Hsel & Ho). cbv zeta.
  destruct (Adt74x0b_init_same respond (to_uint8 i) w1 w2 Ht Hsel)
    as (Hstat & Ht' & Hsel' & Ho1 & Ho2).
  unfold Adt74x0b.init_body, bind, ret, printf, same_but_debug.
  cbn [fst snd trace selected out].
  rewrite Hstat, Ht', Hsel', Ho1, Ho2, without_debug_snoc_debug. auto.
Qed.

Lemma Adt74x0b_read_body_same respond i s1 w1 s2 w2 :
  same_but_debug s1 w1 s2 w2 ->
  let r1 := Adt74x0b.read_body respond i s1 w1 in
  let r2 := Adt74x0b.read_body respond i s2 w2 in
  same_but_debug r1.1 r1.2 r2.1 r2.2.
Proof.
  intros (-> & Ht & Hsel & Ho). cbv zeta.
  destruct (Adt74x0b_read_same respond (to_uint8 i) w1 w2 Ht Hsel)
    as (Hstat & Ht' & Hsel' & Ho1 & Ho2).
  unfold Adt74x0b.read_body.
  destruct (negb (devs_get s2 i =? 0)); [repeat split; assumption |].
  unfold bind, ret, same_but_debug. rewrite Hstat.
  destruct (_ <? 0); unfold printf; cbn [fst snd trace selected out];
    rewrite Ho1, Ho2, <- Ho; unfold without_debug;
    rewrite filter_app, filter_cons_True by reflexivity; auto.
Qed.

(** X12. The DEBUG build of adt74x0b.c differs from the other by its
    scan lines alone: with the same answers from the library the two
    builds make the same calls, get the same answers, record the same
    statuses in [devs], and the output of the DEBUG build without its scan
    lines is the output of the other. *)
Theorem debug_build_adds_scan_lines respond argv :
  let dbg := Adt74x0b.main true respond argv world0 in
  let plain := Adt74x0b.main false respond argv world0 in
  trace dbg.2 = trace plain.2 /\
  without_debug (out dbg.2) = out plain.2 /\
  Adt74x0b.devs_after_init true respond
  = Adt74x0b.devs_after_init false respond.
Proof.
  cbv zeta. rewrite !Adt74x0b_main_run. cbn [snd].
  assert (Hinit : let p1 := Adt74x0b.at_init true respond (0x4b + 1) in
                  let p2 := Adt74x0b.at_init false respond (0x4b + 1) in
                  same_but_debug p1.1 p1.2 p2.1 p2.2).
  { cbv zeta. rewrite !Adt74x0b_at_init_eq.
    apply (for_each_sim same_but_debug).
    - intros i s1 w1 s2 w2 _. apply Adt74x0b_init_body_same.
    - repeat split. }
  assert (Hread : let q1 := Adt74x0b.at_read true respond I2C_ADDRS in
                  let q2 := Adt74x0b.at_read false respond I2C_ADDRS in
                  same_but_debug q1.1 q1.2 q2.1 q2.2).
  { cbv zeta. rewrite !Adt74x0b_at_read_eq.
    apply (for_each_sim same_but_debug).
    - intros i s1 w1 s2 w2 _. apply Adt74x0b_read_body_same.
    - unfold Adt74x0b.devs_after_init.
      apply same_but_debug_issue, Hinit. }
  destruct Hinit as (Hdevs & _).
  pose proof (same_but_debug_issue respond Bcm2835_close _ _ _ _
                (same_but_debug_issue respond Bcm2835_i2c_end _ _ _ _ Hread))
    as (_ & Ht & _ & Ho).
  split; [exact Ht |]. split; [exact Ho | exact Hdevs].
Qed.
